(** * PerformanceMonitor: metrics aggregation and change detection

    A shallow embedding of the [PerformanceMonitor] class of
    [utils/performance.ts] (the three.js / WebXR statistics tool), and the
    properties of its change detector, rolling windows, GPU timer-query pool,
    GPU-time estimator, XR frame tracking, render-call timing and disposal.

    Numbers.  The class computes with JavaScript numbers, the binary64
    floating-point numbers.  They are modelled by [num]: the special values
    NaN, +Infinity and -Infinity, and the finite values by the rationals they
    denote.  Every sum, difference, product and quotient is rounded to the
    nearest binary64 number, ties to even, with gradual underflow and with
    overflow to an infinity ([round64]); a decimal literal denotes the
    binary64 number nearest to it ([lit]).  Division by zero, the
    propagation of NaN and the comparison rules are those of the language.
    The sign of zero is left out. *)

From Stdlib Require Import QArith Qround Qabs Qminmax Qpower Lqa.
From Stdlib Require Import ZArith Lia Bool List String.
Import ListNotations.

Set Implicit Arguments.

Local Open Scope Q_scope.

(* ================================================================== *)
(** ** JavaScript numbers *)
(* ================================================================== *)

Module JS.

Inductive num : Type :=
| NaN
| PInf
| NInf
| Fin (q : Q).

Definition zero : num := Fin 0.

Definition is_nan (x : num) : bool :=
  match x with NaN => true | _ => false end.

(** [Number.isFinite] *)
Definition isFinite (x : num) : bool :=
  match x with Fin _ => true | _ => false end.

Definition Qltb (a b : Q) : bool :=
  match a ?= b with Lt => true | _ => false end.
Definition Qpos_b (q : Q) : bool := Qltb 0 q.
Definition Qneg_b (q : Q) : bool := Qltb q 0.

(** 2 to the power [e]. *)
Definition pow2 (e : Z) : Q :=
  match e with
  | Z0 => 1
  | Zpos p => inject_Z (Z.pow_pos 2 p)
  | Zneg p => 1 # (Pos.pow 2 p)
  end.

(** The binade of a positive rational [q]: the [e] with
    [2^e <= q < 2^(e+1)]. *)
Definition binade (q : Q) : Z :=
  let e0 := (Z.log2 (Qnum q) - Z.log2 (Zpos (Qden q)))%Z in
  if Qltb q (pow2 e0) then (e0 - 1)%Z else e0.

(** The integer nearest to [m], the even one of two that are as near. *)
Definition nearest_even (m : Q) : Z :=
  let f := Qfloor m in
  match Qcompare (m - inject_Z f) (1 # 2) with
  | Lt => f
  | Gt => (f + 1)%Z
  | Eq => if Z.even f then f else (f + 1)%Z
  end.

(** The exponent of the unit in the last place at the positive rational
    [q]: 52 below its binade, and -1074 below the normal range. *)
Definition ulp_exp (q : Q) : Z := Z.max (binade q - 52) (-1074).

(** A positive rational rounded to 53 significant bits, or to a multiple
    of [2^-1074] below the normal range. *)
Definition round_pos (q : Q) : Q :=
  let c := ulp_exp q in
  inject_Z (nearest_even (q * pow2 (- c))) * pow2 c.

(** The binary64 number nearest to [q], ties to even; an infinity from
    [2^1024] on. *)
Definition round64 (q : Q) : num :=
  match Qnum q with
  | Z0 => Fin 0
  | Zpos _ =>
      let r := round_pos q in
      if Qle_bool (pow2 1024) r then PInf else Fin (Qred r)
  | Zneg _ =>
      let r := round_pos (- q) in
      if Qle_bool (pow2 1024) r then NInf else Fin (Qred (- r))
  end.

(** The number a decimal literal denotes. *)
Definition lit (q : Q) : num := round64 q.

(** [x + y] *)
Definition add (x y : num) : num :=
  match x, y with
  | NaN, _ | _, NaN => NaN
  | PInf, NInf | NInf, PInf => NaN
  | PInf, _ | _, PInf => PInf
  | NInf, _ | _, NInf => NInf
  | Fin a, Fin b => round64 (a + b)
  end.

(** [x - y] *)
Definition sub (x y : num) : num :=
  match x, y with
  | NaN, _ | _, NaN => NaN
  | PInf, PInf | NInf, NInf => NaN
  | PInf, _ | _, NInf => PInf
  | NInf, _ | _, PInf => NInf
  | Fin a, Fin b => round64 (a - b)
  end.

(** An infinity of the sign of [q] times the sign [pos]; NaN at zero. *)
Definition inf_times (pos : bool) (q : Q) : num :=
  if Qpos_b q then (if pos then PInf else NInf)
  else if Qneg_b q then (if pos then NInf else PInf)
  else NaN.

(** [x * y] *)
Definition mul (x y : num) : num :=
  match x, y with
  | NaN, _ | _, NaN => NaN
  | PInf, PInf | NInf, NInf => PInf
  | PInf, NInf | NInf, PInf => NInf
  | PInf, Fin q | Fin q, PInf => inf_times true q
  | NInf, Fin q | Fin q, NInf => inf_times false q
  | Fin a, Fin b => round64 (a * b)
  end.

(** [x / y].  A finite value over zero is an infinity of the sign of the
    numerator, and zero over zero is NaN. *)
Definition div (x y : num) : num :=
  match x, y with
  | NaN, _ | _, NaN => NaN
  | PInf, Fin q => if Qneg_b q then NInf else PInf
  | NInf, Fin q => if Qneg_b q then PInf else NInf
  | Fin _, PInf | Fin _, NInf => Fin 0
  | Fin a, Fin b =>
      if Qeq_bool b 0 then inf_times true a else round64 (a / b)
  | _, _ => NaN
  end.

(** [-x] *)
Definition neg (x : num) : num :=
  match x with
  | NaN => NaN
  | PInf => NInf
  | NInf => PInf
  | Fin q => Fin (Qred (- q))
  end.

(** [x < y]: false as soon as one side is NaN. *)
Definition lt (x y : num) : bool :=
  match x, y with
  | NaN, _ | _, NaN => false
  | _, NInf => false
  | NInf, _ => true
  | PInf, _ => false
  | _, PInf => true
  | Fin a, Fin b => Qltb a b
  end.

(** [x > y] *)
Definition gt (x y : num) : bool := lt y x.

(** [x === y] *)
Definition strict_eq (x y : num) : bool :=
  match x, y with
  | PInf, PInf | NInf, NInf => true
  | Fin a, Fin b => Qeq_bool a b
  | _, _ => false
  end.

(** [x !== y] *)
Definition strict_neq (x y : num) : bool := negb (strict_eq x y).

(** [x <= y] *)
Definition le (x y : num) : bool := lt x y || strict_eq x y.

(** [x >= y] *)
Definition ge (x y : num) : bool := le y x.

(** Truthiness of a number: everything but NaN and zero. *)
Definition truthy (x : num) : bool :=
  match x with
  | NaN => false
  | Fin q => negb (Qeq_bool q 0)
  | _ => true
  end.

(** [x || y] on numbers. *)
Definition or_else (x y : num) : num := if truthy x then x else y.

(** [Math.abs] *)
Definition abs (x : num) : num :=
  match x with
  | NaN => NaN
  | PInf | NInf => PInf
  | Fin q => Fin (Qred (Qabs q))
  end.

(** [Math.max]: NaN as soon as one argument is NaN. *)
Definition max (x y : num) : num :=
  match x, y with
  | NaN, _ | _, NaN => NaN
  | _, _ => if lt x y then y else x
  end.

(** [Math.min] *)
Definition min (x y : num) : num :=
  match x, y with
  | NaN, _ | _, NaN => NaN
  | _, _ => if lt y x then y else x
  end.

(** [Math.round]: the integer nearest to [x], halves rounded up. *)
Definition round (x : num) : num :=
  match x with
  | Fin q => Fin (inject_Z (Qfloor (q + (1 # 2))))
  | _ => x
  end.

(** [xs.reduce((a, b) => a + b, 0)] *)
Definition sum (xs : list num) : num := fold_left add xs zero.

(** The number [xs.length]. *)
Definition len {A : Type} (xs : list A) : num :=
  Fin (inject_Z (Z.of_nat (List.length xs))).

(** Two numbers denote the same value. *)
Definition same (x y : num) : Prop :=
  match x, y with
  | NaN, NaN | PInf, PInf | NInf, NInf => True
  | Fin a, Fin b => a == b
  | _, _ => False
  end.

(** [x] is a number of the language: a finite [x] is a binary64 number,
    one that rounding leaves as it is. *)
Definition is_double (x : num) : bool :=
  match x with
  | Fin q => strict_eq (round64 q) x
  | _ => true
  end.

End JS.

Import JS.

Declare Scope js_scope.
Delimit Scope js_scope with js.
Bind Scope js_scope with num.
Infix "+" := add : js_scope.
Infix "-" := sub : js_scope.
Infix "*" := mul : js_scope.
Infix "/" := div : js_scope.
Infix "<?" := lt : js_scope.
Infix ">?" := gt (at level 70, no associativity) : js_scope.
Arguments lit q%_Q : simpl never.
Arguments round64 q%_Q : simpl never.
Notation "'#' q" := (Fin q%Q) (at level 5, q at level 1, format "'#' q") : js_scope.

Local Open Scope string_scope.
Local Open Scope list_scope.
Local Open Scope js_scope.

(* ================================================================== *)
(** ** Data model *)
(* ================================================================== *)

(** The numeric fields of [PerformanceMetrics], as keys: [updateMetric]
    reads and writes the metrics object by key. *)
Inductive MetricKey : Type :=
| fps | ms | drawCalls | triangles | geometries | textures | programs
| frameTime | cpuTime | gpuTime | networkLatency
| xrSessionInitTime | motionToPhotonDelay | controllerInputLag
| xrFrameRate | xrPredictedDisplayTime
| gpuFragmentComplexity | gpuVertexComplexity | gpuMemoryUsage
| shaderCompileTime | textureBindings | bufferBindings
| cpuFrameTime | gpuFrameTime | renderCallDuration
| javascriptTime | garbageCollectionTime.

Scheme Equality for MetricKey.

(** The property name of a key. *)
Definition key_name (k : MetricKey) : string :=
  match k with
  | fps => "fps" | ms => "ms" | drawCalls => "drawCalls"
  | triangles => "triangles" | geometries => "geometries"
  | textures => "textures" | programs => "programs"
  | frameTime => "frameTime" | cpuTime => "cpuTime" | gpuTime => "gpuTime"
  | networkLatency => "networkLatency"
  | xrSessionInitTime => "xrSessionInitTime"
  | motionToPhotonDelay => "motionToPhotonDelay"
  | controllerInputLag => "controllerInputLag"
  | xrFrameRate => "xrFrameRate"
  | xrPredictedDisplayTime => "xrPredictedDisplayTime"
  | gpuFragmentComplexity => "gpuFragmentComplexity"
  | gpuVertexComplexity => "gpuVertexComplexity"
  | gpuMemoryUsage => "gpuMemoryUsage"
  | shaderCompileTime => "shaderCompileTime"
  | textureBindings => "textureBindings"
  | bufferBindings => "bufferBindings"
  | cpuFrameTime => "cpuFrameTime" | gpuFrameTime => "gpuFrameTime"
  | renderCallDuration => "renderCallDuration"
  | javascriptTime => "javascriptTime"
  | garbageCollectionTime => "garbageCollectionTime"
  end.

(** An object with one slot per key; [upd] is the assignment [o[k] = v]. *)
Definition upd {A : Type} (o : MetricKey -> A) (k : MetricKey) (v : A)
  : MetricKey -> A :=
  fun k' => if MetricKey_beq k' k then v else o k'.

(** [metrics.memory] *)
Record MemoryInfo : Type := { used : num; total : num; limit : num }.

Inductive Severity : Type := excellent | good | warning | critical | danger.

(** [PerformanceChange] *)
Record PerformanceChange : Type := {
  timestamp : num;
  metric : string;
  oldValue : num;
  newValue : num;
  delta : num;
  deltaPercent : num;
  severity : Severity
}.

(** An entry of [motionHistory] and of [controllerInputHistory]. *)
Module Stamp.
Record t : Type := { timestamp : num; processed : num }.
End Stamp.

(** A native timer-query object, by identity. *)
Definition WebGLQuery : Type := nat.

(** An entry of [timerQueries]. *)
Record QueryData : Type := { query : WebGLQuery; startTime : num }.

(** The timing extension is an untyped object: what the class tests of it
    before each use is whether a member is a function, and whether the
    constant [TIME_ELAPSED_EXT] is truthy. *)
Record GLExtension : Type := {
  has_createQuery : bool;
  has_deleteQuery : bool;
  has_beginQuery : bool;
  has_endQuery : bool;
  has_getQueryParameter : bool;
  TIME_ELAPSED_EXT : bool
}.

(** A [PerformanceObserver] object: whether it currently observes. *)
Record PerformanceObserver : Type := { observing : bool }.

(** The handle [setInterval] returned, and whether the timer still runs. *)
Record Interval : Type := { handle : nat; running : bool }.

(** The result of a call into the host: a value, or an exception. *)
Inductive outcome (A : Type) : Type :=
| Ok (a : A)
| Thrown.
Arguments Thrown {A}.

(** An XR session, for what the monitor reads of it: [getDisplayMedia], when
    the session has it, and the [refreshRate] it returns.  A session has
    [requestAnimationFrame]. *)
Record XRSession : Type := { getDisplayMedia : option (outcome num) }.

(** The state of a [PerformanceMonitor].  [metrics] holds the numeric
    fields of the snapshot, by key; its [memory] and [memoryLeaks] are fields
    of their own, and its [rendererInfo], a copy of the renderer statistics
    that nothing reads, is left out, as are the fields of the class that the
    methods never read ([stats], [networkStartTime],
    [latencyTestStartTime]).  The last two fields are not fields of the
    class.  [deletedQueries] is the part of the GL context the class acts
    on, the queries [deleteQuery] was called on, oldest first.
    [frameStartMark] is the part of the performance timeline the class acts
    on: whether [begin] has put a mark ["frame-start"] there (what other
    code of the page does to the timeline is left out). *)
Record Monitor : Type := {
  frameTimings : list num;
  lastFrameTime : num;
  memoryBaseline : num;
  xrSession : option XRSession;
  latencyQueue : list num;
  latencyTestInterval : option Interval;
  xrSessionStartTime : num;
  lastXRFrameTime : num;
  controllerInputHistory : list Stamp.t;
  motionHistory : list Stamp.t;
  glExtension : option GLExtension;
  timerQueries : list QueryData;
  gpuTimerAvailable : bool;
  performanceObserver : option PerformanceObserver;
  gcObserver : option PerformanceObserver;
  renderCallStartTime : num;
  shaderCompileStartTime : num;
  metrics : MetricKey -> num;
  memory : MemoryInfo;
  memoryLeaks : bool;
  changes : list PerformanceChange;
  previousMetrics : MetricKey -> option num;
  deletedQueries : list WebGLQuery;
  frameStartMark : bool
}.

(** Field assignments. *)
Definition set_frameTimings (v : list num) (s : Monitor) : Monitor :=
  {| frameTimings := v; lastFrameTime := lastFrameTime s; memoryBaseline :=
     memoryBaseline s; xrSession := xrSession s; latencyQueue :=
     latencyQueue s; latencyTestInterval := latencyTestInterval s;
     xrSessionStartTime := xrSessionStartTime s; lastXRFrameTime :=
     lastXRFrameTime s; controllerInputHistory := controllerInputHistory s;
     motionHistory := motionHistory s; glExtension := glExtension s;
     timerQueries := timerQueries s; gpuTimerAvailable := gpuTimerAvailable
     s; performanceObserver := performanceObserver s; gcObserver :=
     gcObserver s; renderCallStartTime := renderCallStartTime s;
     shaderCompileStartTime := shaderCompileStartTime s; metrics := metrics
     s; memory := memory s; memoryLeaks := memoryLeaks s; changes := changes
     s; previousMetrics := previousMetrics s; deletedQueries :=
     deletedQueries s; frameStartMark := frameStartMark s |}.

Definition set_lastFrameTime (v : num) (s : Monitor) : Monitor :=
  {| frameTimings := frameTimings s; lastFrameTime := v; memoryBaseline :=
     memoryBaseline s; xrSession := xrSession s; latencyQueue :=
     latencyQueue s; latencyTestInterval := latencyTestInterval s;
     xrSessionStartTime := xrSessionStartTime s; lastXRFrameTime :=
     lastXRFrameTime s; controllerInputHistory := controllerInputHistory s;
     motionHistory := motionHistory s; glExtension := glExtension s;
     timerQueries := timerQueries s; gpuTimerAvailable := gpuTimerAvailable
     s; performanceObserver := performanceObserver s; gcObserver :=
     gcObserver s; renderCallStartTime := renderCallStartTime s;
     shaderCompileStartTime := shaderCompileStartTime s; metrics := metrics
     s; memory := memory s; memoryLeaks := memoryLeaks s; changes := changes
     s; previousMetrics := previousMetrics s; deletedQueries :=
     deletedQueries s; frameStartMark := frameStartMark s |}.

Definition set_memoryBaseline (v : num) (s : Monitor) : Monitor :=
  {| frameTimings := frameTimings s; lastFrameTime := lastFrameTime s;
     memoryBaseline := v; xrSession := xrSession s; latencyQueue :=
     latencyQueue s; latencyTestInterval := latencyTestInterval s;
     xrSessionStartTime := xrSessionStartTime s; lastXRFrameTime :=
     lastXRFrameTime s; controllerInputHistory := controllerInputHistory s;
     motionHistory := motionHistory s; glExtension := glExtension s;
     timerQueries := timerQueries s; gpuTimerAvailable := gpuTimerAvailable
     s; performanceObserver := performanceObserver s; gcObserver :=
     gcObserver s; renderCallStartTime := renderCallStartTime s;
     shaderCompileStartTime := shaderCompileStartTime s; metrics := metrics
     s; memory := memory s; memoryLeaks := memoryLeaks s; changes := changes
     s; previousMetrics := previousMetrics s; deletedQueries :=
     deletedQueries s; frameStartMark := frameStartMark s |}.

Definition set_xrSession (v : option XRSession) (s : Monitor) : Monitor :=
  {| frameTimings := frameTimings s; lastFrameTime := lastFrameTime s;
     memoryBaseline := memoryBaseline s; xrSession := v; latencyQueue :=
     latencyQueue s; latencyTestInterval := latencyTestInterval s;
     xrSessionStartTime := xrSessionStartTime s; lastXRFrameTime :=
     lastXRFrameTime s; controllerInputHistory := controllerInputHistory s;
     motionHistory := motionHistory s; glExtension := glExtension s;
     timerQueries := timerQueries s; gpuTimerAvailable := gpuTimerAvailable
     s; performanceObserver := performanceObserver s; gcObserver :=
     gcObserver s; renderCallStartTime := renderCallStartTime s;
     shaderCompileStartTime := shaderCompileStartTime s; metrics := metrics
     s; memory := memory s; memoryLeaks := memoryLeaks s; changes := changes
     s; previousMetrics := previousMetrics s; deletedQueries :=
     deletedQueries s; frameStartMark := frameStartMark s |}.

Definition set_latencyQueue (v : list num) (s : Monitor) : Monitor :=
  {| frameTimings := frameTimings s; lastFrameTime := lastFrameTime s;
     memoryBaseline := memoryBaseline s; xrSession := xrSession s;
     latencyQueue := v; latencyTestInterval := latencyTestInterval s;
     xrSessionStartTime := xrSessionStartTime s; lastXRFrameTime :=
     lastXRFrameTime s; controllerInputHistory := controllerInputHistory s;
     motionHistory := motionHistory s; glExtension := glExtension s;
     timerQueries := timerQueries s; gpuTimerAvailable := gpuTimerAvailable
     s; performanceObserver := performanceObserver s; gcObserver :=
     gcObserver s; renderCallStartTime := renderCallStartTime s;
     shaderCompileStartTime := shaderCompileStartTime s; metrics := metrics
     s; memory := memory s; memoryLeaks := memoryLeaks s; changes := changes
     s; previousMetrics := previousMetrics s; deletedQueries :=
     deletedQueries s; frameStartMark := frameStartMark s |}.

Definition set_latencyTestInterval (v : option Interval) (s : Monitor)
  : Monitor :=
  {| frameTimings := frameTimings s; lastFrameTime := lastFrameTime s;
     memoryBaseline := memoryBaseline s; xrSession := xrSession s;
     latencyQueue := latencyQueue s; latencyTestInterval := v;
     xrSessionStartTime := xrSessionStartTime s; lastXRFrameTime :=
     lastXRFrameTime s; controllerInputHistory := controllerInputHistory s;
     motionHistory := motionHistory s; glExtension := glExtension s;
     timerQueries := timerQueries s; gpuTimerAvailable := gpuTimerAvailable
     s; performanceObserver := performanceObserver s; gcObserver :=
     gcObserver s; renderCallStartTime := renderCallStartTime s;
     shaderCompileStartTime := shaderCompileStartTime s; metrics := metrics
     s; memory := memory s; memoryLeaks := memoryLeaks s; changes := changes
     s; previousMetrics := previousMetrics s; deletedQueries :=
     deletedQueries s; frameStartMark := frameStartMark s |}.

Definition set_xrSessionStartTime (v : num) (s : Monitor) : Monitor :=
  {| frameTimings := frameTimings s; lastFrameTime := lastFrameTime s;
     memoryBaseline := memoryBaseline s; xrSession := xrSession s;
     latencyQueue := latencyQueue s; latencyTestInterval :=
     latencyTestInterval s; xrSessionStartTime := v; lastXRFrameTime :=
     lastXRFrameTime s; controllerInputHistory := controllerInputHistory s;
     motionHistory := motionHistory s; glExtension := glExtension s;
     timerQueries := timerQueries s; gpuTimerAvailable := gpuTimerAvailable
     s; performanceObserver := performanceObserver s; gcObserver :=
     gcObserver s; renderCallStartTime := renderCallStartTime s;
     shaderCompileStartTime := shaderCompileStartTime s; metrics := metrics
     s; memory := memory s; memoryLeaks := memoryLeaks s; changes := changes
     s; previousMetrics := previousMetrics s; deletedQueries :=
     deletedQueries s; frameStartMark := frameStartMark s |}.

Definition set_lastXRFrameTime (v : num) (s : Monitor) : Monitor :=
  {| frameTimings := frameTimings s; lastFrameTime := lastFrameTime s;
     memoryBaseline := memoryBaseline s; xrSession := xrSession s;
     latencyQueue := latencyQueue s; latencyTestInterval :=
     latencyTestInterval s; xrSessionStartTime := xrSessionStartTime s;
     lastXRFrameTime := v; controllerInputHistory := controllerInputHistory
     s; motionHistory := motionHistory s; glExtension := glExtension s;
     timerQueries := timerQueries s; gpuTimerAvailable := gpuTimerAvailable
     s; performanceObserver := performanceObserver s; gcObserver :=
     gcObserver s; renderCallStartTime := renderCallStartTime s;
     shaderCompileStartTime := shaderCompileStartTime s; metrics := metrics
     s; memory := memory s; memoryLeaks := memoryLeaks s; changes := changes
     s; previousMetrics := previousMetrics s; deletedQueries :=
     deletedQueries s; frameStartMark := frameStartMark s |}.

Definition set_controllerInputHistory (v : list Stamp.t) (s : Monitor)
  : Monitor :=
  {| frameTimings := frameTimings s; lastFrameTime := lastFrameTime s;
     memoryBaseline := memoryBaseline s; xrSession := xrSession s;
     latencyQueue := latencyQueue s; latencyTestInterval :=
     latencyTestInterval s; xrSessionStartTime := xrSessionStartTime s;
     lastXRFrameTime := lastXRFrameTime s; controllerInputHistory := v;
     motionHistory := motionHistory s; glExtension := glExtension s;
     timerQueries := timerQueries s; gpuTimerAvailable := gpuTimerAvailable
     s; performanceObserver := performanceObserver s; gcObserver :=
     gcObserver s; renderCallStartTime := renderCallStartTime s;
     shaderCompileStartTime := shaderCompileStartTime s; metrics := metrics
     s; memory := memory s; memoryLeaks := memoryLeaks s; changes := changes
     s; previousMetrics := previousMetrics s; deletedQueries :=
     deletedQueries s; frameStartMark := frameStartMark s |}.

Definition set_motionHistory (v : list Stamp.t) (s : Monitor) : Monitor :=
  {| frameTimings := frameTimings s; lastFrameTime := lastFrameTime s;
     memoryBaseline := memoryBaseline s; xrSession := xrSession s;
     latencyQueue := latencyQueue s; latencyTestInterval :=
     latencyTestInterval s; xrSessionStartTime := xrSessionStartTime s;
     lastXRFrameTime := lastXRFrameTime s; controllerInputHistory :=
     controllerInputHistory s; motionHistory := v; glExtension :=
     glExtension s; timerQueries := timerQueries s; gpuTimerAvailable :=
     gpuTimerAvailable s; performanceObserver := performanceObserver s;
     gcObserver := gcObserver s; renderCallStartTime := renderCallStartTime
     s; shaderCompileStartTime := shaderCompileStartTime s; metrics :=
     metrics s; memory := memory s; memoryLeaks := memoryLeaks s; changes :=
     changes s; previousMetrics := previousMetrics s; deletedQueries :=
     deletedQueries s; frameStartMark := frameStartMark s |}.

Definition set_glExtension (v : option GLExtension) (s : Monitor) : Monitor :=
  {| frameTimings := frameTimings s; lastFrameTime := lastFrameTime s;
     memoryBaseline := memoryBaseline s; xrSession := xrSession s;
     latencyQueue := latencyQueue s; latencyTestInterval :=
     latencyTestInterval s; xrSessionStartTime := xrSessionStartTime s;
     lastXRFrameTime := lastXRFrameTime s; controllerInputHistory :=
     controllerInputHistory s; motionHistory := motionHistory s; glExtension
     := v; timerQueries := timerQueries s; gpuTimerAvailable :=
     gpuTimerAvailable s; performanceObserver := performanceObserver s;
     gcObserver := gcObserver s; renderCallStartTime := renderCallStartTime
     s; shaderCompileStartTime := shaderCompileStartTime s; metrics :=
     metrics s; memory := memory s; memoryLeaks := memoryLeaks s; changes :=
     changes s; previousMetrics := previousMetrics s; deletedQueries :=
     deletedQueries s; frameStartMark := frameStartMark s |}.

Definition set_timerQueries (v : list QueryData) (s : Monitor) : Monitor :=
  {| frameTimings := frameTimings s; lastFrameTime := lastFrameTime s;
     memoryBaseline := memoryBaseline s; xrSession := xrSession s;
     latencyQueue := latencyQueue s; latencyTestInterval :=
     latencyTestInterval s; xrSessionStartTime := xrSessionStartTime s;
     lastXRFrameTime := lastXRFrameTime s; controllerInputHistory :=
     controllerInputHistory s; motionHistory := motionHistory s; glExtension
     := glExtension s; timerQueries := v; gpuTimerAvailable :=
     gpuTimerAvailable s; performanceObserver := performanceObserver s;
     gcObserver := gcObserver s; renderCallStartTime := renderCallStartTime
     s; shaderCompileStartTime := shaderCompileStartTime s; metrics :=
     metrics s; memory := memory s; memoryLeaks := memoryLeaks s; changes :=
     changes s; previousMetrics := previousMetrics s; deletedQueries :=
     deletedQueries s; frameStartMark := frameStartMark s |}.

Definition set_gpuTimerAvailable (v : bool) (s : Monitor) : Monitor :=
  {| frameTimings := frameTimings s; lastFrameTime := lastFrameTime s;
     memoryBaseline := memoryBaseline s; xrSession := xrSession s;
     latencyQueue := latencyQueue s; latencyTestInterval :=
     latencyTestInterval s; xrSessionStartTime := xrSessionStartTime s;
     lastXRFrameTime := lastXRFrameTime s; controllerInputHistory :=
     controllerInputHistory s; motionHistory := motionHistory s; glExtension
     := glExtension s; timerQueries := timerQueries s; gpuTimerAvailable :=
     v; performanceObserver := performanceObserver s; gcObserver :=
     gcObserver s; renderCallStartTime := renderCallStartTime s;
     shaderCompileStartTime := shaderCompileStartTime s; metrics := metrics
     s; memory := memory s; memoryLeaks := memoryLeaks s; changes := changes
     s; previousMetrics := previousMetrics s; deletedQueries :=
     deletedQueries s; frameStartMark := frameStartMark s |}.

Definition set_performanceObserver (v : option PerformanceObserver) (s : Monitor)
  : Monitor :=
  {| frameTimings := frameTimings s; lastFrameTime := lastFrameTime s;
     memoryBaseline := memoryBaseline s; xrSession := xrSession s;
     latencyQueue := latencyQueue s; latencyTestInterval :=
     latencyTestInterval s; xrSessionStartTime := xrSessionStartTime s;
     lastXRFrameTime := lastXRFrameTime s; controllerInputHistory :=
     controllerInputHistory s; motionHistory := motionHistory s; glExtension
     := glExtension s; timerQueries := timerQueries s; gpuTimerAvailable :=
     gpuTimerAvailable s; performanceObserver := v; gcObserver := gcObserver
     s; renderCallStartTime := renderCallStartTime s; shaderCompileStartTime
     := shaderCompileStartTime s; metrics := metrics s; memory := memory s;
     memoryLeaks := memoryLeaks s; changes := changes s; previousMetrics :=
     previousMetrics s; deletedQueries := deletedQueries s; frameStartMark
     := frameStartMark s |}.

Definition set_gcObserver (v : option PerformanceObserver) (s : Monitor)
  : Monitor :=
  {| frameTimings := frameTimings s; lastFrameTime := lastFrameTime s;
     memoryBaseline := memoryBaseline s; xrSession := xrSession s;
     latencyQueue := latencyQueue s; latencyTestInterval :=
     latencyTestInterval s; xrSessionStartTime := xrSessionStartTime s;
     lastXRFrameTime := lastXRFrameTime s; controllerInputHistory :=
     controllerInputHistory s; motionHistory := motionHistory s; glExtension
     := glExtension s; timerQueries := timerQueries s; gpuTimerAvailable :=
     gpuTimerAvailable s; performanceObserver := performanceObserver s;
     gcObserver := v; renderCallStartTime := renderCallStartTime s;
     shaderCompileStartTime := shaderCompileStartTime s; metrics := metrics
     s; memory := memory s; memoryLeaks := memoryLeaks s; changes := changes
     s; previousMetrics := previousMetrics s; deletedQueries :=
     deletedQueries s; frameStartMark := frameStartMark s |}.

Definition set_renderCallStartTime (v : num) (s : Monitor) : Monitor :=
  {| frameTimings := frameTimings s; lastFrameTime := lastFrameTime s;
     memoryBaseline := memoryBaseline s; xrSession := xrSession s;
     latencyQueue := latencyQueue s; latencyTestInterval :=
     latencyTestInterval s; xrSessionStartTime := xrSessionStartTime s;
     lastXRFrameTime := lastXRFrameTime s; controllerInputHistory :=
     controllerInputHistory s; motionHistory := motionHistory s; glExtension
     := glExtension s; timerQueries := timerQueries s; gpuTimerAvailable :=
     gpuTimerAvailable s; performanceObserver := performanceObserver s;
     gcObserver := gcObserver s; renderCallStartTime := v;
     shaderCompileStartTime := shaderCompileStartTime s; metrics := metrics
     s; memory := memory s; memoryLeaks := memoryLeaks s; changes := changes
     s; previousMetrics := previousMetrics s; deletedQueries :=
     deletedQueries s; frameStartMark := frameStartMark s |}.

Definition set_shaderCompileStartTime (v : num) (s : Monitor) : Monitor :=
  {| frameTimings := frameTimings s; lastFrameTime := lastFrameTime s;
     memoryBaseline := memoryBaseline s; xrSession := xrSession s;
     latencyQueue := latencyQueue s; latencyTestInterval :=
     latencyTestInterval s; xrSessionStartTime := xrSessionStartTime s;
     lastXRFrameTime := lastXRFrameTime s; controllerInputHistory :=
     controllerInputHistory s; motionHistory := motionHistory s; glExtension
     := glExtension s; timerQueries := timerQueries s; gpuTimerAvailable :=
     gpuTimerAvailable s; performanceObserver := performanceObserver s;
     gcObserver := gcObserver s; renderCallStartTime := renderCallStartTime
     s; shaderCompileStartTime := v; metrics := metrics s; memory := memory
     s; memoryLeaks := memoryLeaks s; changes := changes s; previousMetrics
     := previousMetrics s; deletedQueries := deletedQueries s;
     frameStartMark := frameStartMark s |}.

Definition set_metrics (v : MetricKey -> num) (s : Monitor) : Monitor :=
  {| frameTimings := frameTimings s; lastFrameTime := lastFrameTime s;
     memoryBaseline := memoryBaseline s; xrSession := xrSession s;
     latencyQueue := latencyQueue s; latencyTestInterval :=
     latencyTestInterval s; xrSessionStartTime := xrSessionStartTime s;
     lastXRFrameTime := lastXRFrameTime s; controllerInputHistory :=
     controllerInputHistory s; motionHistory := motionHistory s; glExtension
     := glExtension s; timerQueries := timerQueries s; gpuTimerAvailable :=
     gpuTimerAvailable s; performanceObserver := performanceObserver s;
     gcObserver := gcObserver s; renderCallStartTime := renderCallStartTime
     s; shaderCompileStartTime := shaderCompileStartTime s; metrics := v;
     memory := memory s; memoryLeaks := memoryLeaks s; changes := changes s;
     previousMetrics := previousMetrics s; deletedQueries := deletedQueries
     s; frameStartMark := frameStartMark s |}.

Definition set_memory (v : MemoryInfo) (s : Monitor) : Monitor :=
  {| frameTimings := frameTimings s; lastFrameTime := lastFrameTime s;
     memoryBaseline := memoryBaseline s; xrSession := xrSession s;
     latencyQueue := latencyQueue s; latencyTestInterval :=
     latencyTestInterval s; xrSessionStartTime := xrSessionStartTime s;
     lastXRFrameTime := lastXRFrameTime s; controllerInputHistory :=
     controllerInputHistory s; motionHistory := motionHistory s; glExtension
     := glExtension s; timerQueries := timerQueries s; gpuTimerAvailable :=
     gpuTimerAvailable s; performanceObserver := performanceObserver s;
     gcObserver := gcObserver s; renderCallStartTime := renderCallStartTime
     s; shaderCompileStartTime := shaderCompileStartTime s; metrics :=
     metrics s; memory := v; memoryLeaks := memoryLeaks s; changes :=
     changes s; previousMetrics := previousMetrics s; deletedQueries :=
     deletedQueries s; frameStartMark := frameStartMark s |}.

Definition set_memoryLeaks (v : bool) (s : Monitor) : Monitor :=
  {| frameTimings := frameTimings s; lastFrameTime := lastFrameTime s;
     memoryBaseline := memoryBaseline s; xrSession := xrSession s;
     latencyQueue := latencyQueue s; latencyTestInterval :=
     latencyTestInterval s; xrSessionStartTime := xrSessionStartTime s;
     lastXRFrameTime := lastXRFrameTime s; controllerInputHistory :=
     controllerInputHistory s; motionHistory := motionHistory s; glExtension
     := glExtension s; timerQueries := timerQueries s; gpuTimerAvailable :=
     gpuTimerAvailable s; performanceObserver := performanceObserver s;
     gcObserver := gcObserver s; renderCallStartTime := renderCallStartTime
     s; shaderCompileStartTime := shaderCompileStartTime s; metrics :=
     metrics s; memory := memory s; memoryLeaks := v; changes := changes s;
     previousMetrics := previousMetrics s; deletedQueries := deletedQueries
     s; frameStartMark := frameStartMark s |}.

Definition set_changes (v : list PerformanceChange) (s : Monitor) : Monitor :=
  {| frameTimings := frameTimings s; lastFrameTime := lastFrameTime s;
     memoryBaseline := memoryBaseline s; xrSession := xrSession s;
     latencyQueue := latencyQueue s; latencyTestInterval :=
     latencyTestInterval s; xrSessionStartTime := xrSessionStartTime s;
     lastXRFrameTime := lastXRFrameTime s; controllerInputHistory :=
     controllerInputHistory s; motionHistory := motionHistory s; glExtension
     := glExtension s; timerQueries := timerQueries s; gpuTimerAvailable :=
     gpuTimerAvailable s; performanceObserver := performanceObserver s;
     gcObserver := gcObserver s; renderCallStartTime := renderCallStartTime
     s; shaderCompileStartTime := shaderCompileStartTime s; metrics :=
     metrics s; memory := memory s; memoryLeaks := memoryLeaks s; changes :=
     v; previousMetrics := previousMetrics s; deletedQueries :=
     deletedQueries s; frameStartMark := frameStartMark s |}.

Definition set_previousMetrics (v : MetricKey -> option num) (s : Monitor)
  : Monitor :=
  {| frameTimings := frameTimings s; lastFrameTime := lastFrameTime s;
     memoryBaseline := memoryBaseline s; xrSession := xrSession s;
     latencyQueue := latencyQueue s; latencyTestInterval :=
     latencyTestInterval s; xrSessionStartTime := xrSessionStartTime s;
     lastXRFrameTime := lastXRFrameTime s; controllerInputHistory :=
     controllerInputHistory s; motionHistory := motionHistory s; glExtension
     := glExtension s; timerQueries := timerQueries s; gpuTimerAvailable :=
     gpuTimerAvailable s; performanceObserver := performanceObserver s;
     gcObserver := gcObserver s; renderCallStartTime := renderCallStartTime
     s; shaderCompileStartTime := shaderCompileStartTime s; metrics :=
     metrics s; memory := memory s; memoryLeaks := memoryLeaks s; changes :=
     changes s; previousMetrics := v; deletedQueries := deletedQueries s;
     frameStartMark := frameStartMark s |}.

Definition set_deletedQueries (v : list WebGLQuery) (s : Monitor) : Monitor :=
  {| frameTimings := frameTimings s; lastFrameTime := lastFrameTime s;
     memoryBaseline := memoryBaseline s; xrSession := xrSession s;
     latencyQueue := latencyQueue s; latencyTestInterval :=
     latencyTestInterval s; xrSessionStartTime := xrSessionStartTime s;
     lastXRFrameTime := lastXRFrameTime s; controllerInputHistory :=
     controllerInputHistory s; motionHistory := motionHistory s; glExtension
     := glExtension s; timerQueries := timerQueries s; gpuTimerAvailable :=
     gpuTimerAvailable s; performanceObserver := performanceObserver s;
     gcObserver := gcObserver s; renderCallStartTime := renderCallStartTime
     s; shaderCompileStartTime := shaderCompileStartTime s; metrics :=
     metrics s; memory := memory s; memoryLeaks := memoryLeaks s; changes :=
     changes s; previousMetrics := previousMetrics s; deletedQueries := v;
     frameStartMark := frameStartMark s |}.

Definition set_frameStartMark (v : bool) (s : Monitor) : Monitor :=
  {| frameTimings := frameTimings s; lastFrameTime := lastFrameTime s;
     memoryBaseline := memoryBaseline s; xrSession := xrSession s;
     latencyQueue := latencyQueue s; latencyTestInterval :=
     latencyTestInterval s; xrSessionStartTime := xrSessionStartTime s;
     lastXRFrameTime := lastXRFrameTime s; controllerInputHistory :=
     controllerInputHistory s; motionHistory := motionHistory s; glExtension
     := glExtension s; timerQueries := timerQueries s; gpuTimerAvailable :=
     gpuTimerAvailable s; performanceObserver := performanceObserver s;
     gcObserver := gcObserver s; renderCallStartTime := renderCallStartTime
     s; shaderCompileStartTime := shaderCompileStartTime s; metrics :=
     metrics s; memory := memory s; memoryLeaks := memoryLeaks s; changes :=
     changes s; previousMetrics := previousMetrics s; deletedQueries :=
     deletedQueries s; frameStartMark := v |}.

(* ================================================================== *)
(** ** Methods that cannot fail *)
(* ================================================================== *)

(** [this.metrics[k] = v] *)
Definition set_metric (k : MetricKey) (v : num) (s : Monitor) : Monitor :=
  set_metrics (upd (metrics s) k v) s.

(** [xs.push(x); if (xs.length > cap) xs.shift()] *)
Definition push_capped {A : Type} (cap : nat) (x : A) (xs : list A) : list A :=
  let pushed := xs ++ [x] in
  if (cap <? List.length pushed)%nat then tl pushed else pushed.

(** What the [shift()] of [push_capped] took out, when it ran. *)
Definition shifted {A : Type} (cap : nat) (x : A) (xs : list A) : option A :=
  let pushed := xs ++ [x] in
  if (cap <? List.length pushed)%nat then hd_error pushed else None.

(** [xs.includes(x)] on strings. *)
Definition includes (xs : list string) (x : string) : bool :=
  existsb (String.eqb x) xs.

Definition getSeverity (metric : string) (deltaPercent : num) : Severity :=
  let absChange := abs deltaPercent in
  if includes ["ms"; "frameTime"; "drawCalls"; "triangles"] metric then
    if deltaPercent >? #50 then danger
    else if deltaPercent >? #25 then critical
    else if deltaPercent >? #10 then warning
    else if deltaPercent <? #(-10) then excellent
    else good
  else if includes ["fps"] metric then
    if deltaPercent >? #25 then excellent
    else if deltaPercent >? #10 then good
    else if deltaPercent <? #(-25) then danger
    else if deltaPercent <? #(-10) then critical
    else warning
  else if absChange >? #20 then warning else good.

(** The three constants [updateMetric] computes first:
    [(this.previousMetrics[key] as number) || 0], [value - oldValue] and
    [oldValue !== 0 ? (delta / oldValue) * 100 : 0]. *)
Definition oldValueOf (s : Monitor) (key : MetricKey) : num :=
  match previousMetrics s key with
  | Some v => or_else v zero
  | None => zero
  end.

Definition deltaOf (s : Monitor) (key : MetricKey) (value : num) : num :=
  value - oldValueOf s key.

Definition deltaPercentOf (s : Monitor) (key : MetricKey) (value : num) : num :=
  if strict_neq (oldValueOf s key) zero
  then (deltaOf s key value / oldValueOf s key) * #100
  else zero.

(** The change [updateMetric] tracks, if any; [dateNow] is [Date.now()]. *)
Definition changeOf (dateNow : num) (s : Monitor) (key : MetricKey) (value : num)
  : option PerformanceChange :=
  if strict_neq (oldValueOf s key) zero
     && (abs (deltaPercentOf s key value) >? #5)
  then Some {| timestamp := dateNow;
               metric := key_name key;
               oldValue := oldValueOf s key;
               newValue := value;
               delta := deltaOf s key value;
               deltaPercent := deltaPercentOf s key value;
               severity := getSeverity (key_name key)
                             (deltaPercentOf s key value) |}
  else None.

(** [changes.unshift(change); if (changes.length > 100) changes =
    changes.slice(0, 100)] *)
Definition unshift_capped (change : PerformanceChange)
  (cs : list PerformanceChange) : list PerformanceChange :=
  let cs' := change :: cs in
  if (100 <? List.length cs')%nat then firstn 100 cs' else cs'.

Definition updateMetric (dateNow : num) (key : MetricKey) (value : num)
  (s : Monitor) : Monitor :=
  let s1 := match changeOf dateNow s key value with
            | Some change => set_changes (unshift_capped change (changes s)) s
            | None => s
            end in
  let s2 := set_previousMetrics
              (upd (previousMetrics s1) key (Some (metrics s1 key))) s1 in
  set_metric key value s2.

(** The constant [estimatedGPUTime] of [estimateGPUTime]. *)
Definition estimatedGPUTime (s : Monitor) : num :=
  let drawCallComplexity := metrics s drawCalls * lit 0.1 in
  let triangleComplexity := (metrics s triangles / #1000) * lit 0.05 in
  let shaderComplexity :=
    (metrics s gpuFragmentComplexity / #100) * lit 0.2 in
  let textureComplexity := metrics s textures * lit 0.02 in
  let baseGPUTime := #0.5 in
  baseGPUTime + drawCallComplexity + triangleComplexity
  + shaderComplexity + textureComplexity.

Definition estimateGPUTime (s : Monitor) : Monitor :=
  let smoothingFactor := lit 0.3 in
  let s1 := set_metric gpuFrameTime
              (metrics s gpuFrameTime * (#1 - smoothingFactor)
               + estimatedGPUTime s * smoothingFactor) s in
  let s2 := set_metric gpuFrameTime
              (max #0.5 (min (metrics s1 gpuFrameTime)
                             (metrics s1 frameTime * lit 0.8))) s1 in
  if (metrics s2 frameTime >? #0) && strict_eq (metrics s2 gpuFrameTime) #0
  then set_metric gpuFrameTime
         (max #0.5 (metrics s2 frameTime * lit 0.4)) s2
  else s2.

(** [begin]; [now] is the reading of [performance.now()]. *)
Definition begin (window : bool) (now : num) (s : Monitor) : Monitor :=
  let s1 := set_lastFrameTime now s in
  if window then set_frameStartMark true s1 else s1.

(** What [updateFrameMetrics] reads of the stats panel: for each of the two
    text elements, nothing when the element or its text is missing or empty,
    and otherwise [parseFloat(textContent.split(" ")[0])], which is NaN when
    the text does not start with a number. *)
Record StatsDom : Type := { fpsText : option num; msText : option num }.

(** [heap] is [performance.memory], when the browser has it. *)
Definition updateFrameMetrics (dom : StatsDom) (heap : option MemoryInfo)
  (s : Monitor) : Monitor :=
  let s1 := match fpsText dom with
            | Some parsed => set_metric fps (round (#1000 / parsed)) s
            | None => s
            end in
  let s2 := match msText dom with
            | Some parsed => set_metric ms parsed s1
            | None => s1
            end in
  let s3 := if (0 <? List.length (frameTimings s2))%nat
            then set_metric frameTime
                   (sum (frameTimings s2) / len (frameTimings s2)) s2
            else s2 in
  let s4 := match heap with
            | Some m => set_memory m s3
            | None => s3
            end in
  match xrSession s4 with
  | Some session =>
      match getDisplayMedia session with
      | Some (Ok refreshRate) => set_metric gpuTime (or_else refreshRate zero) s4
      | Some Thrown => s4
      | None => s4
      end
  | None => s4
  end.

Definition detectMemoryLeaks (s : Monitor) : Monitor :=
  if used (memory s) >? memoryBaseline s * #2
  then set_memoryLeaks true s
  else set_memoryLeaks false s.

(** [end], from its clock reading on: what the method does once the marks
    and the measure of the frame are made. *)
Definition end_frame (now : num) (dom : StatsDom) (heap : option MemoryInfo)
  (s : Monitor) : Monitor :=
  let currentTime := now in
  let frameTime := currentTime - lastFrameTime s in
  let s1 := set_frameTimings (push_capped 60 frameTime (frameTimings s)) s in
  detectMemoryLeaks (updateFrameMetrics dom heap s1).

(** The body of [measureLatency] in [measureNetworkLatency]: [startTime] and
    [endTime] are the two clock readings and [random] is [Math.random()]. *)
Definition measureLatency (startTime endTime random : num) (s : Monitor)
  : Monitor :=
  let systemLatency := endTime - startTime in
  let latency := max systemLatency #15 + (random * #25 + #10) in
  let s1 := set_latencyQueue (push_capped 10 latency (latencyQueue s)) s in
  let avgLatency := sum (latencyQueue s1) / len (latencyQueue s1) in
  set_metric networkLatency avgLatency s1.

(** The [catch] branch of [measureNetworkLatency]. *)
Definition measureLatencyFallback (random : num) (s : Monitor) : Monitor :=
  let latency := #30 + random * #40 in
  let s1 := set_latencyQueue (push_capped 10 latency (latencyQueue s)) s in
  let avgLatency := sum (latencyQueue s1) / len (latencyQueue s1) in
  set_metric networkLatency avgLatency s1.

Definition delays (history : list Stamp.t) : num :=
  fold_left (fun sum event => sum + (Stamp.processed event - Stamp.timestamp event))
            history zero.

(** [now] is the reading of [performance.now()]. *)
Definition trackMotionToPhotonDelay (currentTime now : num) (s : Monitor)
  : Monitor :=
  let s1 := set_motionHistory
              (push_capped 10 {| Stamp.timestamp := currentTime;
                                 Stamp.processed := now |}
                           (motionHistory s)) s in
  let avgDelay := delays (motionHistory s1) / len (motionHistory s1) in
  set_metric motionToPhotonDelay avgDelay s1.

(** The timeout callback of [trackControllerInputLag], with the clock reading
    [inputTime] the method took before it scheduled the callback. *)
Definition trackControllerInputLag (inputTime processTime : num) (s : Monitor)
  : Monitor :=
  let s1 := set_controllerInputHistory
              (push_capped 20 {| Stamp.timestamp := inputTime;
                                 Stamp.processed := processTime |}
                           (controllerInputHistory s)) s in
  let avgLag := delays (controllerInputHistory s1)
                / len (controllerInputHistory s1) in
  set_metric controllerInputLag avgLag s1.

(** [initializeXRSession], up to the callbacks it registers. *)
Definition initializeXRSession (session : XRSession) (now : num) (s : Monitor)
  : Monitor :=
  set_metric xrSessionInitTime #0
    (set_xrSessionStartTime now (set_xrSession (Some session) s)).

(** The closure [trackXRFrame]; [inputSources] tells whether the session the
    closure captured has input sources. *)
Definition trackXRFrame (inputSources : bool) (time now : num) (s : Monitor)
  : Monitor :=
  let s1 :=
    if lastXRFrameTime s >? #0 then
      let deltaTime := time - lastXRFrameTime s in
      let s' := set_metric xrFrameRate
                  (if deltaTime >? #0 then #1000 / deltaTime else #0) s in
      if inputSources then trackMotionToPhotonDelay time now s' else s'
    else s in
  set_lastXRFrameTime time s1.

(** The closure [monitorFrame]; [predicted] is the value of
    [frame.getPredictedDisplayTime()] when the frame has the method. *)
Definition monitorFrame (inputSources : bool) (time now : num)
  (predicted : option num) (s : Monitor) : Monitor :=
  let s1 := trackXRFrame inputSources time now s in
  match predicted with
  | Some t => set_metric xrPredictedDisplayTime t s1
  | None => s1
  end.

(** The timeout callback at the end of [initializeXRSession]. *)
Definition sessionInitialized (now : num) (s : Monitor) : Monitor :=
  set_metric xrSessionInitTime (now - xrSessionStartTime s) s.

Definition setXRSession (session : option XRSession) (s : Monitor) : Monitor :=
  set_xrSession session s.

Definition trackShaderCompile (now : num) (s : Monitor) : Monitor :=
  set_shaderCompileStartTime now s.

Definition endShaderCompile (now : num) (s : Monitor) : Monitor :=
  if shaderCompileStartTime s >? #0
  then set_metric shaderCompileTime (now - shaderCompileStartTime s) s
  else s.

(** [updateAdvancedTiming]; [window] tells whether there is a window with
    [performance], and [jsStart] and [jsEnd] are the clock readings around
    the loop the method times. *)
Definition updateAdvancedTiming (window : bool) (jsStart jsEnd : num)
  (s : Monitor) : Monitor :=
  if window then
    let s1 := set_metric javascriptTime (jsEnd - jsStart) s in
    set_metric cpuFrameTime
      (metrics s1 frameTime - metrics s1 gpuFrameTime) s1
  else s.

Definition startRenderCall (now : num) (s : Monitor) : Monitor :=
  set_renderCallStartTime now s.

Definition endRenderCall (now : num) (s : Monitor) : Monitor :=
  if renderCallStartTime s >? #0 then
    let duration := now - renderCallStartTime s in
    let smoothingFactor := lit 0.2 in
    let smoothedDuration :=
      metrics s renderCallDuration * (#1 - smoothingFactor)
      + duration * smoothingFactor in
    let s1 := set_metric renderCallDuration smoothedDuration s in
    let s2 := if metrics s1 renderCallDuration <? #0.5
              then set_metric renderCallDuration #0.5 s1
              else s1 in
    set_renderCallStartTime #0 s2
  else
    let estimatedRenderTime :=
      max #0.5 (metrics s frameTime * lit 0.2
                + metrics s drawCalls * lit 0.01) in
    set_metric renderCallDuration estimatedRenderTime s.

(* ================================================================== *)
(** ** Methods that call into the host *)
(* ================================================================== *)

(** A computation on the monitor that returns or throws; what it did to the
    state before it threw stays done. *)
Definition M (A : Type) : Type := Monitor -> outcome A * Monitor.

Definition ret {A : Type} (a : A) : M A := fun s => (Ok a, s).

Definition bind {A B : Type} (m : M A) (k : A -> M B) : M B :=
  fun s => match m s with
           | (Ok a, s') => k a s'
           | (Thrown, s') => (Thrown, s')
           end.

Definition throw {A : Type} : M A := fun s => (Thrown, s).

(** A call into the host whose result is [r]. *)
Definition host {A : Type} (r : outcome A) : M A := fun s => (r, s).

Definition gets {A : Type} (f : Monitor -> A) : M A := fun s => (Ok (f s), s).

Definition modify (f : Monitor -> Monitor) : M unit := fun s => (Ok tt, f s).

(** [try { body } catch { handler }] *)
Definition try_catch {A : Type} (body handler : M A) : M A :=
  fun s => match body s with
           | (Thrown, s') => handler s'
           | r => r
           end.

(** The state a computation leaves. *)
Definition exec {A : Type} (m : M A) (s : Monitor) : Monitor := snd (m s).

(** Whether a computation returned. *)
Definition returns {A : Type} (m : M A) (s : Monitor) : bool :=
  match fst (m s) with Ok _ => true | Thrown => false end.

Notation "x <- m ;; k" := (bind m (fun x => k))
  (at level 61, m at next level, right associativity).
Notation "m ;;; k" := (bind m (fun _ => k))
  (at level 61, right associativity).

(** [o.f(...)] where [o] may lack the member [f]: calling what is not a
    function throws. *)
Definition call {A : Type} (is_function : bool) (r : outcome A) : M A :=
  if is_function then host r else throw.

(** [r.f(...)] where the reference [r] may be null: a member access on null
    throws. *)
Definition deref {A : Type} (r : option A) : M A :=
  match r with Some a => ret a | None => throw end.

(** Truthiness of a reference. *)
Definition non_null {A : Type} (r : option A) : bool :=
  match r with Some _ => true | None => false end.

Fixpoint filterM {A : Type} (keep : A -> M bool) (xs : list A) : M (list A) :=
  match xs with
  | [] => ret []
  | x :: rest =>
      b <- keep x ;;
      kept <- filterM keep rest ;;
      ret (if b then x :: kept else kept)
  end.

(** [end].  [window] is [typeof window !== "undefined"]: in a window the
    method marks the end of the frame and measures from the mark
    ["frame-start"], and [performance.measure] throws when the timeline
    holds no such mark, before anything is recorded. *)
Definition end_ (window : bool) (now : num) (dom : StatsDom)
  (heap : option MemoryInfo) : M unit :=
  (if window then
     marked <- gets frameStartMark ;;
     if (marked : bool) then ret tt else throw
   else ret tt) ;;;
  modify (end_frame now dom heap).

(** What the GL context answers during one call of the monitor. *)
Record GLHost : Type := {
  (** [getExtension("EXT_disjoint_timer_query_webgl2") ||
      getExtension("EXT_disjoint_timer_query")] *)
  getExtension : outcome (option GLExtension);
  (** the [WEBGL_debug_renderer_info] lookups *)
  debugInfo : outcome unit;
  (** [gl.xr && gl.xr.isPresenting] *)
  xr_isPresenting : bool;
  (** the probe [createQuery()] of the initialisation *)
  testQuery : outcome (option WebGLQuery);
  createQuery : outcome (option WebGLQuery);
  beginQuery : outcome unit;
  endQuery : outcome unit;
  deleteQuery : WebGLQuery -> outcome unit;
  (** [getQueryParameter(q, QUERY_RESULT_AVAILABLE_EXT)] *)
  resultAvailable : WebGLQuery -> outcome bool;
  (** [getQueryParameter(q, QUERY_RESULT_EXT)] *)
  queryResult : WebGLQuery -> outcome num;
  (** [performance.now()] *)
  performance_now : num
}.

(** [this.glExtension.deleteQuery(q)], once it is known to be a function. *)
Definition ext_deleteQuery (gl : GLHost) (q : WebGLQuery) : M unit :=
  host (deleteQuery gl q) ;;;
  modify (fun s => set_deletedQueries (deletedQueries s ++ [q]) s).

Definition initializeGPUMonitoring (gl : GLHost) : M unit :=
  try_catch
    (found <- host (getExtension gl) ;;
     modify (set_glExtension found) ;;;
     match found with
     | Some ext =>
         modify (set_gpuTimerAvailable true) ;;;
         try_catch
           (probe <- call (has_createQuery ext) (testQuery gl) ;;
            match probe with
            | Some q => if has_deleteQuery ext then ext_deleteQuery gl q
                        else ret tt
            | None => ret tt
            end)
           (modify (set_gpuTimerAvailable false))
     | None => modify (set_gpuTimerAvailable false)
     end ;;;
     host (debugInfo gl))
    (modify (set_gpuTimerAvailable false)).

(** The callback of the [filter] in [processGPUQueries]: whether the query
    stays in the queue. *)
Definition stillPending (gl : GLHost) (ext : GLExtension) (queryData : QueryData)
  : M bool :=
  if has_getQueryParameter ext then
    available <- host (resultAvailable gl (query queryData)) ;;
    if (available : bool) then
      timeElapsed <- host (queryResult gl (query queryData)) ;;
      modify (set_metric gpuFrameTime (timeElapsed / #1000000)) ;;;
      (if has_deleteQuery ext then ext_deleteQuery gl (query queryData)
       else ret tt) ;;;
      ret false
    else ret true
  else ret true.

Definition processGPUQueries (gl : GLHost) : M unit :=
  try_catch
    (ext <- gets glExtension ;;
     available <- gets gpuTimerAvailable ;;
     match ext with
     | Some ext =>
         if (available : bool) then
           queries <- gets timerQueries ;;
           kept <- filterM (stillPending gl ext) queries ;;
           modify (set_timerQueries kept) ;;;
           if (List.length kept =? 0)%nat then modify estimateGPUTime
           else ret tt
         else modify estimateGPUTime
     | None => modify estimateGPUTime
     end)
    (modify estimateGPUTime).

Definition measureGPUTiming (gl : GLHost) : M unit :=
  try_catch
    (ext <- gets glExtension ;;
     available <- gets gpuTimerAvailable ;;
     match ext with
     | None => ret tt
     | Some ext =>
         if negb available then ret tt
         else if negb (has_createQuery ext) then
           modify (set_gpuTimerAvailable false)
         else if xr_isPresenting gl then ret tt
         else
           processGPUQueries gl ;;;
           created <- host (createQuery gl) ;;
           match created with
           | Some q =>
               if has_beginQuery ext && TIME_ELAPSED_EXT ext then
                 host (beginQuery gl) ;;;
                 queries <- gets timerQueries ;;
                 let queryData :=
                   {| query := q; startTime := performance_now gl |} in
                 modify (fun s =>
                   set_timerQueries
                     (push_capped 5 queryData (timerQueries s)) s) ;;;
                 match shifted 5 queryData queries with
                 | Some oldQueryData =>
                     if has_deleteQuery ext
                     then ext_deleteQuery gl (query oldQueryData)
                     else ret tt
                 | None => ret tt
                 end
               else modify (set_gpuTimerAvailable false)
           | None => modify (set_gpuTimerAvailable false)
           end
     end)
    (modify (set_gpuTimerAvailable false)).

Definition endGPUTiming (gl : GLHost) : M unit :=
  try_catch
    (ext <- gets glExtension ;;
     available <- gets gpuTimerAvailable ;;
     match ext with
     | None => ret tt
     | Some ext =>
         if negb available then ret tt
         else if has_endQuery ext && TIME_ELAPSED_EXT ext
         then host (endQuery gl)
         else modify (set_gpuTimerAvailable false)
     end)
    (modify (set_gpuTimerAvailable false)).

(** What [updateRendererStats] reads of [renderer.info]; [programs_length]
    is [info.programs?.length]. *)
Record RendererInfo : Type := {
  render_calls : num;
  render_triangles : num;
  memory_geometries : num;
  memory_textures : num;
  programs_length : option nat
}.

(** [info.programs?.length || 0] *)
Definition programCount (info : RendererInfo) : num :=
  match programs_length info with
  | Some n => or_else (Fin (inject_Z (Z.of_nat n))) zero
  | None => zero
  end.

Definition updateGPUMetrics (info : RendererInfo) (gl : GLHost) : M unit :=
  try_catch
    (let textureCount := memory_textures info in
     let geometryCount := memory_geometries info in
     modify (set_metric gpuMemoryUsage
               (textureCount * #1024 * #1024 + geometryCount * #512 * #1024)) ;;;
     modify (set_metric textureBindings textureCount) ;;;
     modify (set_metric bufferBindings geometryCount) ;;;
     modify (set_metric gpuFragmentComplexity (programCount info * #100)) ;;;
     modify (set_metric gpuVertexComplexity (programCount info * #50)) ;;;
     ext <- gets glExtension ;;
     available <- gets gpuTimerAvailable ;;
     if (available : bool) && non_null ext then measureGPUTiming gl
     else ret tt)
    (ret tt).

(** [updateRendererStats]; [dateNow] is the reading of [Date.now()] (one
    reading serves the five updates of the call). *)
Definition updateRendererStats (dateNow : num) (info : RendererInfo)
  (gl : GLHost) : M unit :=
  modify (updateMetric dateNow drawCalls (render_calls info)) ;;;
  modify (updateMetric dateNow triangles (render_triangles info)) ;;;
  modify (updateMetric dateNow geometries (memory_geometries info)) ;;;
  modify (updateMetric dateNow textures (memory_textures info)) ;;;
  modify (updateMetric dateNow programs (programCount info)) ;;;
  ext <- gets glExtension ;;
  (if negb (non_null ext) then initializeGPUMonitoring gl else ret tt) ;;;
  updateGPUMetrics info gl ;;;
  s <- gets (fun s => s) ;;
  if strict_eq (metrics s gpuFrameTime) #0 && (metrics s frameTime >? #0)
  then modify estimateGPUTime
  else ret tt.

(** [observer.disconnect()] *)
Definition disconnect (o : PerformanceObserver) : PerformanceObserver :=
  {| observing := false |}.

(** [clearInterval(handle)] *)
Definition clearInterval (i : Interval) : Interval :=
  {| handle := handle i; running := false |}.

Definition dispose : M unit :=
  po <- gets performanceObserver ;;
  (if non_null po then
     o <- deref po ;;
     modify (set_performanceObserver (Some (disconnect o)))
   else ret tt) ;;;
  gc <- gets gcObserver ;;
  (if non_null gc then
     o <- deref gc ;;
     modify (set_gcObserver (Some (disconnect o)))
   else ret tt) ;;;
  timer <- gets latencyTestInterval ;;
  match timer with
  | Some i => modify (set_latencyTestInterval (Some (clearInterval i)))
  | None => ret tt
  end.

(* ================================================================== *)
(** ** Construction, and the monitor as a machine *)
(* ================================================================== *)

(** The field initialisers of the class. *)
Definition fresh : Monitor :=
  {| frameTimings := []; lastFrameTime := #0; memoryBaseline := #0;
     xrSession := None; latencyQueue := []; latencyTestInterval := None;
     xrSessionStartTime := #0; lastXRFrameTime := #0;
     controllerInputHistory := []; motionHistory := [];
     glExtension := None; timerQueries := []; gpuTimerAvailable := false;
     performanceObserver := None; gcObserver := None;
     renderCallStartTime := #0; shaderCompileStartTime := #0;
     metrics := fun _ => #0;
     memory := {| used := #0; total := #0; limit := #0 |};
     memoryLeaks := false;
     changes := []; previousMetrics := fun _ => None;
     deletedQueries := []; frameStartMark := false |}.

(** The environment the constructor runs in. *)
Record Browser : Type := {
  (** [typeof window !== "undefined"] *)
  has_window : bool;
  (** ["PerformanceObserver" in window] *)
  has_PerformanceObserver : bool;
  (** whether [observe] throws on the first observer, and on the second *)
  observe_throws : bool;
  gc_observe_throws : bool;
  (** [performance.memory], when there is one *)
  heap : option MemoryInfo;
  (** the handle [setInterval] returns *)
  interval_handle : nat
}.

Definition initializePerformanceObserver (b : Browser) (s : Monitor) : Monitor :=
  if has_window b && has_PerformanceObserver b
  then set_performanceObserver
         (Some {| observing := negb (observe_throws b) |}) s
  else s.

Definition initializeMemoryBaseline (b : Browser) (s : Monitor) : Monitor :=
  match heap b with
  | Some m => if has_window b then set_memoryBaseline (used m) s else s
  | None => s
  end.

(** The first probe the method starts completes later, on its own. *)
Definition startLatencyMonitoring (b : Browser) (s : Monitor) : Monitor :=
  if has_window b
  then set_latencyTestInterval
         (Some {| handle := interval_handle b; running := true |}) s
  else s.

Definition initializeGCObserver (b : Browser) (s : Monitor) : Monitor :=
  if has_window b && has_PerformanceObserver b
  then set_gcObserver (Some {| observing := negb (gc_observe_throws b) |}) s
  else s.

(** [new PerformanceMonitor()] *)
Definition construct (b : Browser) : Monitor :=
  initializeGCObserver b
    (startLatencyMonitoring b
       (initializeMemoryBaseline b
          (initializePerformanceObserver b fresh))).

(** An entry delivered to the callback of the first observer. *)
Inductive EntryType : Type := measure | navigation | resource.
Record PerformanceEntry : Type := {
  entryType : EntryType;
  duration : num;
  (** the reading of [Date.now()] while the entry is handled *)
  handledAt : num
}.

Definition onPerformanceEntry (s : Monitor) (entry : PerformanceEntry) : Monitor :=
  match entryType entry with
  | measure => updateMetric (handledAt entry) frameTime (duration entry) s
  | navigation => updateMetric (handledAt entry) networkLatency (duration entry) s
  | resource => s
  end.

(** An entry delivered to the callback of the second observer: whether its
    name is ["gc"], and its duration. *)
Definition onGCEntry (s : Monitor) (entry : bool * num) : Monitor :=
  if fst entry then set_metric garbageCollectionTime (snd entry) s else s.

(** The calls a monitor receives: those of its public methods, and those of
    the callbacks it registered, each with what the host supplies to it.
    ([getComponentMetrics] and [getMetricSeverity] change nothing; what
    other code assigns to the public fields is not a call.) *)
Inductive Call : Type :=
| Begin (window : bool) (now : num)
| End (window : bool) (now : num) (dom : StatsDom) (heap : option MemoryInfo)
| PerformanceEntries (entries : list PerformanceEntry)
| GCEntries (entries : list (bool * num))
| LatencyMeasured (startTime endTime random : num)
| LatencyFallback (random : num)
| UpdateRendererStats (dateNow : num) (info : RendererInfo) (gl : GLHost)
| EndGPUTiming (gl : GLHost)
| SetXRSession (session : option XRSession)
| InitializeXRSession (session : XRSession) (now : num)
| SessionInitialized (now : num)
| MonitorFrame (inputSources : bool) (time now : num) (predicted : option num)
| ControllerInputLag (inputTime processTime : num)
| StartRenderCall (now : num)
| EndRenderCall (now : num)
| TrackShaderCompile (now : num)
| EndShaderCompile (now : num)
| UpdateAdvancedTiming (window : bool) (jsStart jsEnd : num)
| Dispose.

Definition step (s : Monitor) (c : Call) : Monitor :=
  match c with
  | Begin window now => begin window now s
  | End window now dom heap => exec (end_ window now dom heap) s
  | PerformanceEntries entries => fold_left onPerformanceEntry entries s
  | GCEntries entries => fold_left onGCEntry entries s
  | LatencyMeasured startTime endTime random =>
      measureLatency startTime endTime random s
  | LatencyFallback random => measureLatencyFallback random s
  | UpdateRendererStats dateNow info gl =>
      exec (updateRendererStats dateNow info gl) s
  | EndGPUTiming gl => exec (endGPUTiming gl) s
  | SetXRSession session => setXRSession session s
  | InitializeXRSession session now => initializeXRSession session now s
  | SessionInitialized now => sessionInitialized now s
  | MonitorFrame inputSources time now predicted =>
      monitorFrame inputSources time now predicted s
  | ControllerInputLag inputTime processTime =>
      trackControllerInputLag inputTime processTime s
  | StartRenderCall now => startRenderCall now s
  | EndRenderCall now => endRenderCall now s
  | TrackShaderCompile now => trackShaderCompile now s
  | EndShaderCompile now => endShaderCompile now s
  | UpdateAdvancedTiming window jsStart jsEnd =>
      updateAdvancedTiming window jsStart jsEnd s
  | Dispose => exec dispose s
  end.

(** The state after a sequence of calls. *)
Definition run (s : Monitor) (calls : list Call) : Monitor :=
  fold_left step calls s.

(* ================================================================== *)
(** ** Methods that only read *)
(* ================================================================== *)

(** [getMetricSeverity]; the metric ["memory"] is rated from the heap
    readout of the snapshot, not from [value]. *)
Definition getMetricSeverity (s : Monitor) (metric : string) (value : num)
  : Severity :=
  if String.eqb metric "fps" then
    if ge value #60 then excellent
    else if ge value #45 then good
    else if ge value #30 then warning
    else if ge value #15 then critical
    else danger
  else if String.eqb metric "ms" then
    if le value #16 then excellent
    else if le value #22 then good
    else if le value #33 then warning
    else if le value #66 then critical
    else danger
  else if String.eqb metric "memory" then
    let usage := (used (memory s) / limit (memory s)) * #100 in
    if le usage #50 then excellent
    else if le usage #70 then good
    else if le usage #85 then warning
    else if le usage #95 then critical
    else danger
  else if String.eqb metric "drawCalls" then
    if le value #100 then excellent
    else if le value #500 then good
    else if le value #1000 then warning
    else if le value #2000 then critical
    else danger
  else good.

(** How bad a severity is, from 0 for excellent to 4 for danger. *)
Definition badness (v : Severity) : nat :=
  match v with
  | excellent => 0
  | good => 1
  | warning => 2
  | critical => 3
  | danger => 4
  end.

(* ================================================================== *)
(** ** Predicates on computations *)
(* ================================================================== *)

(** A computation that returns from every state. *)
Definition never_throws {A : Type} (m : M A) : Prop :=
  forall s, returns m s = true.

(** The timer extension is there and the monitor has given it up; [qs] are
    the queries it still holds and [ds] those it has deleted. *)
Definition timer_given_up (ext : GLExtension) (qs : list QueryData)
  (ds : list WebGLQuery) (s : Monitor) : Prop :=
  glExtension s = Some ext /\ gpuTimerAvailable s = false
  /\ timerQueries s = qs /\ deletedQueries s = ds.

(* ================================================================== *)
(** ** Predicates on the monitor *)
(* ================================================================== *)

(** A computation preserves [I] when it leaves a state of [I] in [I],
    whether it returns or throws. *)
Definition preserves {A : Type} (I : Monitor -> Prop) (m : M A) : Prop :=
  forall s, I s -> I (snd (m s)).

(** Every buffer of the monitor is within its capacity. *)
Definition bounded (s : Monitor) : Prop :=
  (List.length (frameTimings s) <= 60
   /\ List.length (latencyQueue s) <= 10
   /\ List.length (motionHistory s) <= 10
   /\ List.length (controllerInputHistory s) <= 20
   /\ List.length (changes s) <= 100
   /\ List.length (timerQueries s) <= 5)%nat.

(** No result of the queries [qs] has arrived. *)
Definition all_pending (gl : GLHost) (ext : GLExtension) (qs : list QueryData)
  : Prop :=
  forall qd, In qd qs ->
             has_getQueryParameter ext = false
             \/ resultAvailable gl (query qd) = Ok false.


(** No change tracked is a change of the FPS. *)
Definition no_fps_change (s : Monitor) : Prop :=
  Forall (fun c => metric c <> "fps") (changes s).



(* ================================================================== *)
(** ** Hosts and states of the examples *)
(* ================================================================== *)

(** A browser with a window, observers and no heap readout. *)
Definition a_browser : Browser :=
  {| has_window := true; has_PerformanceObserver := true;
     observe_throws := false; gc_observe_throws := false;
     heap := None; interval_handle := 1%nat |}.

(** The stats panel as the library draws it: canvases, no text. *)
Definition no_text : StatsDom := {| fpsText := None; msText := None |}.

(** A frame in a window, without a heap readout: [begin] at the clock
    reading [start] and [end] at [stop]. *)
Definition a_frame (start stop : num) : list Call :=
  [Begin true start; End true stop no_text None].

(** The monitor with the metrics of the scenario: 200 draw calls, 50000
    triangles, a fragment complexity of 300, 10 textures, a frame time of
    16, and the GPU frame time [previous]. *)
Definition scenario (previous : num) : Monitor :=
  set_metric gpuFrameTime previous
    (set_metric frameTime #16
       (set_metric textures #10
          (set_metric gpuFragmentComplexity #300
             (set_metric triangles #50000
                (set_metric drawCalls #200 fresh))))).

(** A GL context without the timing extension. *)
Definition gl_without_timer : GLHost :=
  {| getExtension := Ok None; debugInfo := Ok tt; xr_isPresenting := false;
     testQuery := Ok None; createQuery := Ok None; beginQuery := Ok tt;
     endQuery := Ok tt; deleteQuery := fun _ => Ok tt;
     resultAvailable := fun _ => Ok false; queryResult := fun _ => Ok #0;
     performance_now := #0 |}.

(** A timing extension with every member the monitor uses, but for
    [deleteQuery], which it has when [deletes] is set. *)
Definition timer_extension (deletes : bool) : GLExtension :=
  {| has_createQuery := true; has_deleteQuery := deletes;
     has_beginQuery := true; has_endQuery := true;
     has_getQueryParameter := true; TIME_ELAPSED_EXT := true |}.

(** A GL context that has the extension [ext], answers the next
    [createQuery] with the query [q], and has no result ready. *)
Definition gl_issuing (ext : GLExtension) (q : WebGLQuery) : GLHost :=
  {| getExtension := Ok (Some ext); debugInfo := Ok tt;
     xr_isPresenting := false; testQuery := Ok None;
     createQuery := Ok (Some q); beginQuery := Ok tt; endQuery := Ok tt;
     deleteQuery := fun _ => Ok tt;
     resultAvailable := fun _ => Ok false; queryResult := fun _ => Ok #0;
     performance_now := #0 |}.

(** Renderer statistics of an empty scene. *)
Definition idle_renderer : RendererInfo :=
  {| render_calls := #0; render_triangles := #0; memory_geometries := #0;
     memory_textures := #0; programs_length := None |}.

(** A renderer update that reports [n] draw calls, on a context without
    the timing extension. *)
Definition draw_calls_update (n : Z) : Call :=
  UpdateRendererStats #1
    {| render_calls := Fin (inject_Z n); render_triangles := #0;
       memory_geometries := #0; memory_textures := #0;
       programs_length := None |}
    gl_without_timer.

(** A renderer update during which the query [q] is issued. *)
Definition issue (ext : GLExtension) (q : WebGLQuery) : Call :=
  UpdateRendererStats #0 idle_renderer (gl_issuing ext q).

(** A GL context with the extension [ext] on which [endQuery] throws. *)
Definition gl_failing_endQuery (ext : GLExtension) : GLHost :=
  {| getExtension := Ok (Some ext); debugInfo := Ok tt;
     xr_isPresenting := false; testQuery := Ok None;
     createQuery := Ok None; beginQuery := Ok tt; endQuery := Thrown;
     deleteQuery := fun _ => Ok tt;
     resultAvailable := fun _ => Ok false; queryResult := fun _ => Ok #0;
     performance_now := #0 |}.

(** A GL context with the extension [ext] on which the results of the
    queries below [n] are ready, each with the elapsed time [elapsed] in
    nanoseconds. *)
Definition gl_ready_below (ext : GLExtension) (n : nat) (elapsed : num)
  : GLHost :=
  {| getExtension := Ok (Some ext); debugInfo := Ok tt;
     xr_isPresenting := false; testQuery := Ok None;
     createQuery := Ok None; beginQuery := Ok tt; endQuery := Ok tt;
     deleteQuery := fun _ => Ok tt;
     resultAvailable := fun q => Ok (q <? n)%nat;
     queryResult := fun _ => Ok elapsed;
     performance_now := #0 |}.

(** A GL context with the extension [ext] on which the results of the
    queries below [n] are ready, and the poll of any other query throws. *)
Definition gl_throwing_from (ext : GLExtension) (n : nat) (elapsed : num)
  : GLHost :=
  {| getExtension := Ok (Some ext); debugInfo := Ok tt;
     xr_isPresenting := false; testQuery := Ok None;
     createQuery := Ok None; beginQuery := Ok tt; endQuery := Ok tt;
     deleteQuery := fun _ => Ok tt;
     resultAvailable := fun q => if (q <? n)%nat then Ok true else Thrown;
     queryResult := fun _ => Ok elapsed;
     performance_now := #0 |}.

(* ================================================================== *)
(** ** Facts about numbers *)
(* ================================================================== *)

Lemma Qltb_true (a b : Q) : Qltb a b = true <-> (a < b)%Q.
Proof.
  unfold Qltb. rewrite Qlt_alt.
  destruct (a ?= b)%Q; split; intro H; try reflexivity; discriminate H.
Qed.

Lemma Qltb_false (a b : Q) : Qltb a b = false <-> (b <= a)%Q.
Proof.
  unfold Qltb. rewrite Qle_alt, <- (Qcompare_antisym a b).
  destruct (a ?= b)%Q; simpl; split; intro H;
    try reflexivity; try discriminate H; try (exfalso; apply H; reflexivity);
    intro H'; discriminate H'.
Qed.

Lemma Qeq_bool_true (a b : Q) : Qeq_bool a b = true <-> (a == b)%Q.
Proof. split; [apply Qeq_bool_eq | apply Qeq_eq_bool]. Qed.

Lemma Qeq_bool_false (a b : Q) : Qeq_bool a b = false <-> ~ (a == b)%Q.
Proof.
  split.
  - intros H E. apply Qeq_eq_bool in E. congruence.
  - intro H. destruct (Qeq_bool a b) eqn:E; [|reflexivity].
    apply Qeq_bool_eq in E. contradiction.
Qed.

(** Turns the comparisons of rationals, in the goal and in the hypotheses,
    into statements on rationals. *)
Ltac q_props :=
  unfold Qpos_b, Qneg_b in *;
  repeat match goal with
         | H : Qltb _ _ = true |- _ => apply Qltb_true in H
         | H : Qltb _ _ = false |- _ => apply Qltb_false in H
         | H : Qeq_bool _ _ = true |- _ => apply Qeq_bool_true in H
         | H : Qeq_bool _ _ = false |- _ => apply Qeq_bool_false in H
         | |- Qltb _ _ = true => apply Qltb_true
         | |- Qltb _ _ = false => apply Qltb_false
         | |- Qeq_bool _ _ = true => apply Qeq_bool_true
         | |- Qeq_bool _ _ = false => apply Qeq_bool_false
         end;
  repeat rewrite Qred_correct in *.


(** Case analysis on the tests of a method. *)
Ltac break_tests :=
  repeat match goal with
         | |- context [if ?b then _ else _] => destruct b
         | |- context [match ?x with _ => _ end] => destruct x
         end.

(* ================================================================== *)
(** ** Rounding to binary64 *)
(* ================================================================== *)

Lemma pow2_Qpower (e : Z) : (pow2 e == 2 ^ e)%Q.
Proof.
  destruct e as [|p|p]; [reflexivity| |].
  - unfold pow2. change (Z.pow_pos 2 p) with (2 ^ Zpos p)%Z.
    rewrite Zpower_Qpower by lia. reflexivity.
  - unfold pow2. change (2 ^ Zneg p)%Q with (/ (2 ^ Zpos p))%Q.
    rewrite <- (Zpower_Qpower 2 (Zpos p)) by lia.
    rewrite <- Pos2Z.inj_pow. reflexivity.
Qed.

Lemma pow2_pos (e : Z) : (0 < pow2 e)%Q.
Proof. rewrite pow2_Qpower. apply Qpower_0_lt. reflexivity. Qed.

Lemma pow2_plus (a b : Z) : (pow2 (a + b) == pow2 a * pow2 b)%Q.
Proof.
  rewrite !pow2_Qpower. apply Qpower_plus. intro H. discriminate H.
Qed.

Lemma pow2_le (a b : Z) : (a <= b)%Z -> (pow2 a <= pow2 b)%Q.
Proof.
  intro H. rewrite !pow2_Qpower. apply Qpower_le_compat_l; [exact H|].
  discriminate.
Qed.

Lemma pow2_lt_inv (a b : Z) : (pow2 a < pow2 b)%Q -> (a < b)%Z.
Proof.
  rewrite !pow2_Qpower. intro H.
  apply (Qpower_lt_compat_l_inv 2); [exact H | reflexivity].
Qed.

Lemma pow2_nat (e : Z) : (0 <= e)%Z -> pow2 e = inject_Z (2 ^ e).
Proof. destruct e as [|p|p]; intro H; try reflexivity. lia. Qed.

(** The binade of a positive rational. *)
Lemma binade_spec (q : Q) :
  (0 < q)%Q -> (pow2 (binade q) <= q)%Q /\ (q < pow2 (binade q + 1))%Q.
Proof.
  intro Hq. destruct q as [n d].
  assert (Hn : (0 < n)%Z).
  { unfold Qlt in Hq. simpl in Hq. lia. }
  unfold binade. cbn [Qnum Qden].
  set (ln := Z.log2 n). set (ld := Z.log2 (Zpos d)).
  destruct (Z.log2_spec n Hn) as [Hn1 Hn2].
  destruct (Z.log2_spec (Zpos d) (Pos2Z.is_pos d)) as [Hd1 Hd2].
  fold ln in Hn1, Hn2. fold ld in Hd1, Hd2.
  assert (Lln : (0 <= ln)%Z) by apply Z.log2_nonneg.
  assert (Lld : (0 <= ld)%Z) by apply Z.log2_nonneg.
  assert (Eq : (Qmake n d == inject_Z n * / inject_Z (Zpos d))%Q).
  { rewrite (Qmake_Qdiv n d). reflexivity. }
  assert (Pd : (0 < inject_Z (Zpos d))%Q) by reflexivity.
  assert (Qn1 : (pow2 ln <= inject_Z n)%Q).
  { rewrite pow2_nat by exact Lln. rewrite <- Zle_Qle. exact Hn1. }
  assert (Qn2 : (inject_Z n < pow2 (ln + 1))%Q).
  { rewrite pow2_nat by lia. rewrite <- Zlt_Qlt. exact Hn2. }
  assert (Qd1 : (pow2 ld <= inject_Z (Zpos d))%Q).
  { rewrite pow2_nat by exact Lld. rewrite <- Zle_Qle. exact Hd1. }
  assert (Qd2 : (inject_Z (Zpos d) < pow2 (ld + 1))%Q).
  { rewrite pow2_nat by lia. rewrite <- Zlt_Qlt. exact Hd2. }
  assert (Up : (Qmake n d < pow2 (ln - ld + 1))%Q).
  { rewrite Eq. apply Qlt_shift_div_r; [exact Pd|].
    apply Qlt_le_trans with (pow2 (ln + 1)); [exact Qn2|].
    replace (ln + 1)%Z with ((ln - ld + 1) + ld)%Z by lia.
    rewrite pow2_plus. apply Qmult_le_l; [apply pow2_pos | exact Qd1]. }
  assert (Lo : (pow2 (ln - ld - 1) < Qmake n d)%Q).
  { rewrite Eq. apply Qlt_shift_div_l; [exact Pd|].
    apply Qlt_le_trans with (pow2 ln); [|exact Qn1].
    replace ln with ((ln - ld - 1) + (ld + 1))%Z at 2 by lia.
    rewrite pow2_plus. apply Qmult_lt_l; [apply pow2_pos | exact Qd2]. }
  destruct (Qltb (Qmake n d) (pow2 (ln - ld))) eqn:E.
  - apply Qltb_true in E. split; [apply Qlt_le_weak; exact Lo|].
    replace (ln - ld - 1 + 1)%Z with (ln - ld)%Z by lia. exact E.
  - apply Qltb_false in E. split; [exact E | exact Up].
Qed.

Lemma binade_unique (q : Q) (e : Z) :
  (pow2 e <= q)%Q -> (q < pow2 (e + 1))%Q -> binade q = e.
Proof.
  intros H1 H2.
  assert (Hq : (0 < q)%Q).
  { apply Qlt_le_trans with (pow2 e); [apply pow2_pos | exact H1]. }
  destruct (binade_spec Hq) as [B1 B2].
  assert (A : (binade q < e + 1)%Z).
  { apply pow2_lt_inv. apply Qle_lt_trans with q; assumption. }
  assert (B : (e < binade q + 1)%Z).
  { apply pow2_lt_inv. apply Qle_lt_trans with q; assumption. }
  lia.
Qed.

Lemma binade_mono (a b : Q) :
  (0 < a)%Q -> (a <= b)%Q -> (binade a <= binade b)%Z.
Proof.
  intros Ha Hab.
  assert (Hb : (0 < b)%Q) by (apply Qlt_le_trans with a; assumption).
  destruct (binade_spec Ha) as [A1 _].
  destruct (binade_spec Hb) as [_ B2].
  assert (H : (binade a < binade b + 1)%Z).
  { apply pow2_lt_inv. apply Qle_lt_trans with a; [exact A1|].
    apply Qle_lt_trans with b; assumption. }
  lia.
Qed.

Lemma binade_comp (a b : Q) : (0 < a)%Q -> (a == b)%Q -> binade a = binade b.
Proof.
  intros Ha E. destruct (binade_spec Ha) as [A1 A2].
  symmetry. apply binade_unique; rewrite <- E; assumption.
Qed.

(** Rounding to the nearest integer, ties to even. *)
Lemma nearest_even_bounds (m : Q) :
  (Qfloor m <= nearest_even m <= Qfloor m + 1)%Z.
Proof.
  unfold nearest_even.
  destruct (Qcompare _ _); [destruct (Z.even _)| |]; lia.
Qed.

Lemma nearest_even_Z (z : Z) : nearest_even (inject_Z z) = z.
Proof.
  unfold nearest_even. rewrite Qfloor_Z.
  assert (H : (inject_Z z - inject_Z z == 0)%Q) by ring.
  rewrite H. reflexivity.
Qed.

Lemma nearest_even_comp (a b : Q) :
  (a == b)%Q -> nearest_even a = nearest_even b.
Proof.
  intro E. unfold nearest_even. rewrite (Qfloor_comp _ _ E).
  assert (H : (a - inject_Z (Qfloor b) == b - inject_Z (Qfloor b))%Q).
  { rewrite E. reflexivity. }
  rewrite H. reflexivity.
Qed.

Lemma nearest_even_mono (a b : Q) :
  (a <= b)%Q -> (nearest_even a <= nearest_even b)%Z.
Proof.
  intro H. pose proof (Qfloor_resp_le _ _ H) as Hf.
  destruct (Z.eq_dec (Qfloor a) (Qfloor b)) as [E|N].
  - unfold nearest_even. rewrite E.
    destruct (Qcompare (a - inject_Z (Qfloor b)) (Qmake 1 2)) eqn:Ca;
      destruct (Qcompare (b - inject_Z (Qfloor b)) (Qmake 1 2)) eqn:Cb;
      try (destruct (Z.even (Qfloor b))); try lia; exfalso.
    all: try rewrite <- Qeq_alt in Ca; try rewrite <- Qeq_alt in Cb;
      try rewrite <- Qlt_alt in Ca; try rewrite <- Qlt_alt in Cb;
      try rewrite <- Qgt_alt in Ca; try rewrite <- Qgt_alt in Cb; lra.
  - pose proof (nearest_even_bounds a). pose proof (nearest_even_bounds b).
    lia.
Qed.

(** Rounding of a positive rational. *)
Lemma round_pos_same_ulp (a b : Q) :
  (a <= b)%Q -> ulp_exp a = ulp_exp b -> (round_pos a <= round_pos b)%Q.
Proof.
  intros H E. unfold round_pos. cbv zeta.
  rewrite E. apply Qmult_le_compat_r; [|apply Qlt_le_weak, pow2_pos].
  rewrite <- Zle_Qle. apply nearest_even_mono.
  apply Qmult_le_compat_r; [exact H | apply Qlt_le_weak, pow2_pos].
Qed.

Lemma round_pos_upper (a : Q) :
  (0 < a)%Q -> (round_pos a <= pow2 (Z.max (binade a + 1) (ulp_exp a)))%Q.
Proof.
  intro Ha. destruct (binade_spec Ha) as [_ A2].
  unfold round_pos. cbv zeta.
  set (c := ulp_exp a). set (e := binade a) in *.
  set (N := Z.max (e + 1 - c) 0).
  assert (HN : (0 <= N)%Z) by lia.
  assert (Hm : (a * pow2 (- c) <= inject_Z (2 ^ N))%Q).
  { rewrite <- pow2_nat by exact HN.
    apply Qle_trans with (pow2 (e + 1) * pow2 (- c))%Q.
    - apply Qmult_le_compat_r; [apply Qlt_le_weak; exact A2|].
      apply Qlt_le_weak, pow2_pos.
    - rewrite <- pow2_plus. apply pow2_le. lia. }
  apply nearest_even_mono in Hm. rewrite nearest_even_Z in Hm.
  apply Qle_trans with (inject_Z (2 ^ N) * pow2 c)%Q.
  - apply Qmult_le_compat_r; [|apply Qlt_le_weak, pow2_pos].
    rewrite <- Zle_Qle. exact Hm.
  - rewrite <- pow2_nat by exact HN. rewrite <- pow2_plus.
    apply pow2_le. lia.
Qed.

Lemma round_pos_lower (b : Q) :
  (0 < b)%Q -> (ulp_exp b <= binade b)%Z ->
  (pow2 (binade b) <= round_pos b)%Q.
Proof.
  intros Hb Hc. destruct (binade_spec Hb) as [B1 _].
  unfold round_pos. cbv zeta.
  set (c := ulp_exp b) in *. set (e := binade b) in *.
  assert (HN : (0 <= e - c)%Z) by lia.
  assert (Hm : (inject_Z (2 ^ (e - c)) <= b * pow2 (- c))%Q).
  { rewrite <- pow2_nat by exact HN.
    replace (e - c)%Z with (e + - c)%Z by lia. rewrite pow2_plus.
    apply Qmult_le_compat_r; [exact B1 | apply Qlt_le_weak, pow2_pos]. }
  apply nearest_even_mono in Hm. rewrite nearest_even_Z in Hm.
  apply Qle_trans with (inject_Z (2 ^ (e - c)) * pow2 c)%Q.
  - rewrite <- pow2_nat by exact HN. rewrite <- pow2_plus.
    apply pow2_le. lia.
  - apply Qmult_le_compat_r; [|apply Qlt_le_weak, pow2_pos].
    rewrite <- Zle_Qle. exact Hm.
Qed.

Lemma round_pos_mono (a b : Q) :
  (0 < a)%Q -> (a <= b)%Q -> (round_pos a <= round_pos b)%Q.
Proof.
  intros Ha Hab.
  assert (Hb : (0 < b)%Q) by (apply Qlt_le_trans with a; assumption).
  pose proof (binade_mono Ha Hab) as He.
  destruct (Z.eq_dec (ulp_exp a) (ulp_exp b)) as [E|N].
  - apply round_pos_same_ulp; assumption.
  - assert (Hc : (ulp_exp a < ulp_exp b)%Z) by (unfold ulp_exp in *; lia).
    apply Qle_trans with (pow2 (Z.max (binade a + 1) (ulp_exp a)));
      [apply round_pos_upper; exact Ha|].
    apply Qle_trans with (pow2 (binade b));
      [|apply round_pos_lower; [exact Hb | unfold ulp_exp in *; lia]].
    apply pow2_le. unfold ulp_exp in *. lia.
Qed.

Lemma round_pos_nonneg (a : Q) : (0 <= a)%Q -> (0 <= round_pos a)%Q.
Proof.
  intro Ha. unfold round_pos. cbv zeta.
  apply Qmult_le_0_compat; [|apply Qlt_le_weak, pow2_pos].
  change 0%Q with (inject_Z 0). rewrite <- Zle_Qle.
  rewrite <- (nearest_even_Z 0). apply nearest_even_mono.
  apply Qmult_le_0_compat; [exact Ha | apply Qlt_le_weak, pow2_pos].
Qed.

Lemma round_pos_comp (a b : Q) :
  (0 < a)%Q -> (a == b)%Q -> (round_pos a == round_pos b)%Q.
Proof.
  intros Ha E. unfold round_pos, ulp_exp. cbv zeta.
  rewrite (binade_comp Ha E).
  rewrite (@nearest_even_comp (a * pow2 (- Z.max (binade b - 52) (-1074)))
             (b * pow2 (- Z.max (binade b - 52) (-1074)))).
  - reflexivity.
  - rewrite E. reflexivity.
Qed.

(** The sign of a rational, as [round64] reads it. *)
Lemma Qnum_sign (q : Q) :
  match Qnum q with
  | Z0 => (q == 0)%Q
  | Zpos _ => (0 < q)%Q
  | Zneg _ => (q < 0)%Q
  end.
Proof.
  destruct q as [[|p|p] d]; cbn [Qnum].
  - reflexivity.
  - reflexivity.
  - reflexivity.
Qed.

Lemma round64_not_nan (q : Q) : is_nan (round64 q) = false.
Proof.
  unfold round64. destruct (Qnum q); [reflexivity| |]; cbv zeta;
    match goal with |- context [if ?b then _ else _] => destruct b end;
    reflexivity.
Qed.

Lemma round64_zero (q : Q) : (q == 0)%Q -> round64 q = Fin 0.
Proof.
  intro H. unfold round64. pose proof (Qnum_sign q) as S.
  destruct (Qnum q); [reflexivity| |]; exfalso; lra.
Qed.

(** What [round64] gives on a positive and on a negative rational. *)
Lemma round64_pos (q : Q) :
  (0 < q)%Q ->
  round64 q = if Qle_bool (pow2 1024) (round_pos q) then PInf
              else Fin (Qred (round_pos q)).
Proof.
  intro H. unfold round64. pose proof (Qnum_sign q) as S.
  destruct (Qnum q); [exfalso; lra | reflexivity | exfalso; lra].
Qed.

Lemma round64_neg (q : Q) :
  (q < 0)%Q ->
  round64 q = if Qle_bool (pow2 1024) (round_pos (- q)) then NInf
              else Fin (Qred (- round_pos (- q))).
Proof.
  intro H. unfold round64. pose proof (Qnum_sign q) as S.
  destruct (Qnum q); [exfalso; lra | exfalso; lra | reflexivity].
Qed.

Lemma round64_comp (a b : Q) : (a == b)%Q -> round64 a = round64 b.
Proof.
  intro E. destruct (Qlt_le_dec 0 a) as [Ha|Ha].
  - rewrite (round64_pos Ha), (@round64_pos b) by (rewrite <- E; exact Ha).
    pose proof (round_pos_comp Ha E) as R.
    rewrite (Qred_complete _ _ R).
    assert (Hb : Qle_bool (pow2 1024) (round_pos a)
                 = Qle_bool (pow2 1024) (round_pos b)).
    { destruct (Qle_bool (pow2 1024) (round_pos a)) eqn:X;
        destruct (Qle_bool (pow2 1024) (round_pos b)) eqn:Y;
        try reflexivity; exfalso.
      - apply Qle_bool_iff in X. rewrite R in X.
        apply Qle_bool_iff in X. congruence.
      - apply Qle_bool_iff in Y. rewrite <- R in Y.
        apply Qle_bool_iff in Y. congruence. }
    rewrite Hb. reflexivity.
  - destruct (Qeq_dec a 0) as [Z|NZ].
    + rewrite (round64_zero Z), (@round64_zero b) by (rewrite <- E; exact Z).
      reflexivity.
    + assert (Na : (a < 0)%Q) by lra.
      assert (Pa : (0 < - a)%Q) by lra.
      assert (Ea : (- a == - b)%Q) by (rewrite E; reflexivity).
      rewrite (round64_neg Na), (@round64_neg b) by (rewrite <- E; exact Na).
      pose proof (round_pos_comp Pa Ea) as R.
      assert (R' : (- round_pos (- a) == - round_pos (- b))%Q).
      { rewrite R. reflexivity. }
      rewrite (Qred_complete _ _ R').
      assert (Hb : Qle_bool (pow2 1024) (round_pos (- a))
                   = Qle_bool (pow2 1024) (round_pos (- b))).
      { destruct (Qle_bool (pow2 1024) (round_pos (- a))) eqn:X;
          destruct (Qle_bool (pow2 1024) (round_pos (- b))) eqn:Y;
          try reflexivity; exfalso.
        - apply Qle_bool_iff in X. rewrite R in X.
          apply Qle_bool_iff in X. congruence.
        - apply Qle_bool_iff in Y. rewrite <- R in Y.
          apply Qle_bool_iff in Y. congruence. }
      rewrite Hb. reflexivity.
Qed.

Lemma le_Fin (a b : Q) : le (Fin a) (Fin b) = Qle_bool a b.
Proof.
  unfold le, lt, strict_eq.
  destruct (Qltb a b) eqn:L; destruct (Qeq_bool a b) eqn:E;
    destruct (Qle_bool a b) eqn:B; try reflexivity; exfalso;
    q_props; try apply Qle_bool_iff in B;
    try (assert (~ (a <= b)%Q) by (intro X; apply Qle_bool_iff in X; congruence));
    lra.
Qed.

(** Rounding is monotone. *)
Lemma round64_mono (a b : Q) :
  (a <= b)%Q -> le (round64 a) (round64 b) = true.
Proof.
  intro H.
  assert (Hpos : forall x y, (0 < x)%Q -> (x <= y)%Q ->
                   le (round64 x) (round64 y) = true).
  { intros x y Hx Hxy.
    assert (Hy : (0 < y)%Q) by lra.
    rewrite (round64_pos Hx), (round64_pos Hy).
    pose proof (round_pos_mono Hx Hxy) as R.
    destruct (Qle_bool (pow2 1024) (round_pos y)) eqn:Y.
    - destruct (Qle_bool (pow2 1024) (round_pos x)); reflexivity.
    - destruct (Qle_bool (pow2 1024) (round_pos x)) eqn:X.
      + exfalso. apply Qle_bool_iff in X.
        assert (Y' : Qle_bool (pow2 1024) (round_pos y) = true).
        { apply Qle_bool_iff. lra. }
        congruence.
      + rewrite le_Fin. apply Qle_bool_iff. rewrite !Qred_correct. exact R. }
  assert (Hneg : forall x y, (y < 0)%Q -> (x <= y)%Q ->
                   le (round64 x) (round64 y) = true).
  { intros x y Hy Hxy.
    assert (Hx : (x < 0)%Q) by lra.
    rewrite (round64_neg Hx), (round64_neg Hy).
    assert (R : (round_pos (- y) <= round_pos (- x))%Q).
    { apply round_pos_mono; lra. }
    destruct (Qle_bool (pow2 1024) (round_pos (- x))) eqn:X.
    - destruct (Qle_bool (pow2 1024) (round_pos (- y))); reflexivity.
    - destruct (Qle_bool (pow2 1024) (round_pos (- y))) eqn:Y.
      + exfalso. apply Qle_bool_iff in Y.
        assert (X' : Qle_bool (pow2 1024) (round_pos (- x)) = true).
        { apply Qle_bool_iff. lra. }
        congruence.
      + rewrite le_Fin. apply Qle_bool_iff. rewrite !Qred_correct. lra. }
  assert (Hp0 : forall y, (0 < y)%Q -> le (Fin 0) (round64 y) = true).
  { intros y Hy. rewrite (round64_pos Hy).
    destruct (Qle_bool (pow2 1024) (round_pos y)); [reflexivity|].
    rewrite le_Fin. apply Qle_bool_iff. rewrite Qred_correct.
    apply round_pos_nonneg. lra. }
  assert (Hn0 : forall x, (x < 0)%Q -> le (round64 x) (Fin 0) = true).
  { intros x Hx. rewrite (round64_neg Hx).
    destruct (Qle_bool (pow2 1024) (round_pos (- x))); [reflexivity|].
    rewrite le_Fin. apply Qle_bool_iff. rewrite Qred_correct.
    assert (0 <= round_pos (- x))%Q by (apply round_pos_nonneg; lra).
    lra. }
  destruct (Qlt_le_dec 0 a) as [Ha|Ha]; [apply Hpos; assumption|].
  destruct (Qlt_le_dec b 0) as [Hb|Hb]; [apply Hneg; assumption|].
  destruct (Qeq_dec a 0) as [Za|Za]; destruct (Qeq_dec b 0) as [Zb|Zb].
  - rewrite (round64_zero Za), (round64_zero Zb). reflexivity.
  - rewrite (round64_zero Za). apply Hp0. lra.
  - rewrite (round64_zero Zb). apply Hn0. lra.
  - assert (Na : (a < 0)%Q) by lra. assert (Pb : (0 < b)%Q) by lra.
    pose proof (Hn0 a Na) as A. pose proof (Hp0 b Pb) as B.
    pose proof (round64_not_nan a) as NA. pose proof (round64_not_nan b) as NB.
    destruct (round64 a) as [| | |x]; destruct (round64 b) as [| | |y];
      try discriminate; try reflexivity.
    rewrite le_Fin in *. apply Qle_bool_iff.
    apply Qle_bool_iff in A. apply Qle_bool_iff in B. lra.
Qed.

(* ================================================================== *)
(** ** The order of numbers *)
(* ================================================================== *)

Lemma le_not_nan x y :
  le x y = true -> is_nan x = false /\ is_nan y = false.
Proof.
  destruct x, y; intro H; try discriminate H; split; reflexivity.
Qed.

Lemma le_PInf x : is_nan x = false -> le x PInf = true.
Proof. destruct x; intro H; try discriminate H; reflexivity. Qed.

Lemma le_NInf x : is_nan x = false -> le NInf x = true.
Proof. destruct x; intro H; try discriminate H; reflexivity. Qed.


Lemma le_trans x y z : le x y = true -> le y z = true -> le x z = true.
Proof.
  destruct x as [| | |a], y as [| | |b], z as [| | |c]; intros H1 H2;
    try discriminate H1; try discriminate H2; try reflexivity.
  rewrite le_Fin in *. apply Qle_bool_iff.
  apply Qle_bool_iff in H1. apply Qle_bool_iff in H2. lra.
Qed.

Lemma lt_Fin (a b : Q) : lt (Fin a) (Fin b) = Qltb a b.
Proof. reflexivity. Qed.

(** [Math.max] and [Math.min] in the order. *)
Lemma max_le_compat x x' y y' :
  le x x' = true -> le y y' = true -> le (max x y) (max x' y') = true.
Proof.
  destruct x as [| | |a], x' as [| | |a'], y as [| | |b], y' as [| | |b'];
    intros H1 H2; try discriminate H1; try discriminate H2;
    try reflexivity; unfold max; rewrite ?lt_Fin;
    rewrite ?le_Fin in *; cbn [lt];
    repeat match goal with
           | |- context [Qltb ?p ?q] =>
               let E := fresh "E" in destruct (Qltb p q) eqn:E
           end;
    try reflexivity; rewrite ?le_Fin; try apply Qle_bool_iff;
    try apply Qle_bool_iff in H1; try apply Qle_bool_iff in H2;
    q_props; lra.
Qed.

Lemma min_le_compat x x' y y' :
  le x x' = true -> le y y' = true -> le (min x y) (min x' y') = true.
Proof.
  destruct x as [| | |a], x' as [| | |a'], y as [| | |b], y' as [| | |b'];
    intros H1 H2; try discriminate H1; try discriminate H2;
    try reflexivity; unfold min; rewrite ?lt_Fin;
    rewrite ?le_Fin in *; cbn [lt];
    repeat match goal with
           | |- context [Qltb ?p ?q] =>
               let E := fresh "E" in destruct (Qltb p q) eqn:E
           end;
    try reflexivity; rewrite ?le_Fin; try apply Qle_bool_iff;
    try apply Qle_bool_iff in H1; try apply Qle_bool_iff in H2;
    q_props; lra.
Qed.

(* ================================================================== *)
(** ** The operations in the order *)
(* ================================================================== *)

Lemma round64_opp (q : Q) : round64 (- q) = neg (round64 q).
Proof.
  destruct q as [[|p|p] d]; [reflexivity| |].
  - change (- Qmake (Z.pos p) d)%Q with (Qmake (Z.neg p) d).
    unfold round64. cbn [Qnum]. cbv zeta.
    change (- Qmake (Z.neg p) d)%Q with (Qmake (Z.pos p) d).
    destruct (Qle_bool (pow2 1024) (round_pos (Qmake (Z.pos p) d)));
      [reflexivity|].
    cbn [neg]. f_equal. apply Qred_complete. rewrite Qred_correct.
    reflexivity.
  - change (- Qmake (Z.neg p) d)%Q with (Qmake (Z.pos p) d).
    unfold round64. cbn [Qnum]. cbv zeta.
    change (- Qmake (Z.neg p) d)%Q with (Qmake (Z.pos p) d).
    destruct (Qle_bool (pow2 1024) (round_pos (Qmake (Z.pos p) d)));
      [reflexivity|].
    cbn [neg]. f_equal. apply Qred_complete. rewrite Qred_correct.
    rewrite Qopp_involutive. reflexivity.
Qed.

Lemma add_not_nan x y :
  is_nan x = false -> isFinite y = true -> is_nan (x + y) = false.
Proof.
  destruct x as [| | |a], y as [| | |b]; intros Hx Hy;
    try discriminate; try reflexivity.
  apply round64_not_nan.
Qed.

Lemma add_le_compat x x' y y' :
  le x x' = true -> le y y' = true ->
  is_nan (x + y) = false -> is_nan (x' + y') = false ->
  le (x + y) (x' + y') = true.
Proof.
  destruct x as [| | |a], x' as [| | |a'], y as [| | |b], y' as [| | |b'];
    intros H1 H2 N1 N2; try discriminate; try reflexivity;
    cbn [add]; try (apply le_PInf, round64_not_nan);
    try (apply le_NInf, round64_not_nan).
  rewrite le_Fin in *. apply Qle_bool_iff in H1. apply Qle_bool_iff in H2.
  apply round64_mono. lra.
Qed.

Lemma mul_le_compat_r x x' c :
  (0 < c)%Q -> le x x' = true -> le (x * Fin c) (x' * Fin c) = true.
Proof.
  intros Hc H.
  assert (P : Qpos_b c = true) by (apply Qltb_true; exact Hc).
  destruct x as [| | |a], x' as [| | |a']; try discriminate H;
    cbn [mul]; unfold inf_times; rewrite ?P; try reflexivity;
    try (apply le_PInf, round64_not_nan);
    try (apply le_NInf, round64_not_nan).
  rewrite le_Fin in H. apply Qle_bool_iff in H.
  apply round64_mono. apply Qmult_le_compat_r; lra.
Qed.

Lemma div_le_compat_r x x' c :
  (0 < c)%Q -> le x x' = true -> le (x / Fin c) (x' / Fin c) = true.
Proof.
  intros Hc H.
  assert (N : Qneg_b c = false) by (apply Qltb_false; lra).
  assert (Z : Qeq_bool c 0 = false).
  { apply Qeq_bool_false. lra. }
  destruct x as [| | |a], x' as [| | |a']; try discriminate H;
    cbn [div]; rewrite ?N, ?Z; try reflexivity;
    try (apply le_PInf, round64_not_nan);
    try (apply le_NInf, round64_not_nan).
  rewrite le_Fin in H. apply Qle_bool_iff in H.
  apply round64_mono. unfold Qdiv. apply Qmult_le_compat_r; [exact H|].
  apply Qlt_le_weak, Qinv_lt_0_compat, Hc.
Qed.


(** Numbers of the language and their range. *)
Lemma is_double_round64 (d : Q) :
  is_double (Fin d) = true -> exists d', round64 d = Fin d' /\ (d' == d)%Q.
Proof.
  unfold is_double. destruct (round64 d) as [| | |d']; intro H;
    try discriminate H.
  exists d'. split; [reflexivity|]. cbn [strict_eq] in H.
  apply Qeq_bool_true. exact H.
Qed.

Lemma is_double_opp (d : Q) :
  is_double (Fin d) = true -> is_double (Fin (- d)) = true.
Proof.
  intro H. destruct (@is_double_round64 d H) as (d' & E & Ed).
  unfold is_double. rewrite round64_opp, E. cbn [neg strict_eq].
  apply Qeq_bool_iff. rewrite Qred_correct, Ed. reflexivity.
Qed.

(** A rational no larger in magnitude than a number of the language rounds
    to a finite number, no larger in magnitude. *)
Lemma round64_within (d q : Q) :
  is_double (Fin d) = true -> (- d <= q)%Q -> (q <= d)%Q ->
  exists r, round64 q = Fin r /\ (- d <= r)%Q /\ (r <= d)%Q.
Proof.
  intros Hd Lo Hi.
  destruct (@is_double_round64 d Hd) as (d' & E & Ed).
  destruct (@is_double_round64 (- d) (@is_double_opp d Hd)) as (n' & N & En).
  pose proof (round64_mono Hi) as U. rewrite E in U.
  pose proof (round64_mono Lo) as L. rewrite N in L.
  destruct (round64 q) as [| | |r]; try discriminate.
  exists r. split; [reflexivity|].
  rewrite le_Fin in *. apply Qle_bool_iff in U. apply Qle_bool_iff in L.
  split; lra.
Qed.

(** A number of the language lies between a non-negative one and its
    opposite. *)
Lemma double_bound (q : Q) :
  is_double (Fin q) = true ->
  exists d, is_double (Fin d) = true /\ (- d <= q)%Q /\ (q <= d)%Q.
Proof.
  intro H. destruct (Qlt_le_dec q 0) as [N|P].
  - exists (- q)%Q. split; [apply is_double_opp, H|]. split; lra.
  - exists q. split; [exact H|]. split; lra.
Qed.

Lemma mul_within (d q c : Q) :
  is_double (Fin d) = true -> (- d <= q)%Q -> (q <= d)%Q ->
  (- 1 <= c)%Q -> (c <= 1)%Q ->
  exists r, Fin q * Fin c = Fin r /\ (- d <= r)%Q /\ (r <= d)%Q.
Proof.
  intros Hd Lo Hi Lc Hc. cbn [mul].
  apply round64_within; [exact Hd| |]; nra.
Qed.

Lemma div_within (d q c : Q) :
  is_double (Fin d) = true -> (- d <= q)%Q -> (q <= d)%Q -> (1 <= c)%Q ->
  exists r, Fin q / Fin c = Fin r /\ (- d <= r)%Q /\ (r <= d)%Q.
Proof.
  intros Hd Lo Hi Hc. cbn [div].
  assert (Z : Qeq_bool c 0 = false) by (apply Qeq_bool_false; lra).
  rewrite Z.
  assert (I : (0 < / c)%Q) by (apply Qinv_lt_0_compat; lra).
  assert (I1 : (/ c <= 1)%Q).
  { apply Qle_shift_inv_r; lra. }
  unfold Qdiv. apply round64_within; [exact Hd| |]; nra.
Qed.

Lemma mul_nonneg x c :
  (0 < c)%Q -> le #0 x = true -> le #0 (x * Fin c) = true.
Proof.
  intros Hc H. pose proof (@mul_le_compat_r #0 x c Hc H) as L.
  cbn [mul] in L. rewrite (@round64_zero (0 * c)) in L by ring. exact L.
Qed.

Lemma div_nonneg x c :
  (0 < c)%Q -> le #0 x = true -> le #0 (x / Fin c) = true.
Proof.
  intros Hc H. pose proof (@div_le_compat_r #0 x c Hc H) as L.
  cbn [div] in L.
  assert (Z : Qeq_bool c 0 = false) by (apply Qeq_bool_false; lra).
  rewrite Z in L. rewrite (@round64_zero (0 / c)) in L; [exact L|].
  unfold Qdiv. ring.
Qed.

(** A sum is no smaller than its first term when the second is not
    negative. *)
Lemma add_lower (a : Q) x y :
  is_double (Fin a) = true ->
  le (Fin a) x = true -> le #0 y = true -> le (Fin a) (x + y) = true.
Proof.
  intros Ha Hx Hy. destruct (@is_double_round64 a Ha) as (a' & E & Ea).
  destruct x as [| | |p], y as [| | |q]; try discriminate; try reflexivity.
  cbn [add]. rewrite le_Fin in Hx, Hy.
  apply Qle_bool_iff in Hx. apply Qle_bool_iff in Hy.
  assert (L : (a <= p + q)%Q) by lra.
  apply round64_mono in L. rewrite E in L.
  apply le_trans with (Fin a'); [|exact L].
  rewrite le_Fin. apply Qle_bool_iff. lra.
Qed.

Lemma mul_same_l (a a' : Q) y : (a == a')%Q -> Fin a * y = Fin a' * y.
Proof.
  intro E. destruct y as [| | |q]; cbn [mul]; try reflexivity.
  - unfold inf_times, Qpos_b, Qneg_b, Qltb.
    rewrite (@Qcompare_comp 0 0 (Qeq_refl 0) a a' E),
      (@Qcompare_comp a a' E 0 0 (Qeq_refl 0)). reflexivity.
  - unfold inf_times, Qpos_b, Qneg_b, Qltb.
    rewrite (@Qcompare_comp 0 0 (Qeq_refl 0) a a' E),
      (@Qcompare_comp a a' E 0 0 (Qeq_refl 0)). reflexivity.
  - apply round64_comp. rewrite E. reflexivity.
Qed.

Lemma div_same_l (a a' : Q) y : (a == a')%Q -> Fin a / y = Fin a' / y.
Proof.
  intro E. destruct y as [| | |q]; cbn [div]; try reflexivity.
  destruct (Qeq_bool q 0).
  - unfold inf_times, Qpos_b, Qneg_b, Qltb.
    rewrite (@Qcompare_comp 0 0 (Qeq_refl 0) a a' E),
      (@Qcompare_comp a a' E 0 0 (Qeq_refl 0)). reflexivity.
  - apply round64_comp. rewrite E. reflexivity.
Qed.

(** The value of a decimal literal, in place of the literal. *)
Ltac eval_lit q :=
  let v := eval vm_compute in (lit q) in
  replace (lit q) with v by (vm_compute; reflexivity).

Ltac eval_lits :=
  repeat match goal with
         | |- context [lit ?q] => eval_lit q
         end.

(* ================================================================== *)
(** ** Invariants of computations *)
(* ================================================================== *)

Section Preserves.

Variable I : Monitor -> Prop.

Lemma preserves_ret {A : Type} (a : A) : preserves I (ret a).
Proof. intros s H. exact H. Qed.

Lemma preserves_throw {A : Type} : preserves I (@throw A).
Proof. intros s H. exact H. Qed.

Lemma preserves_host {A : Type} (r : outcome A) : preserves I (host r).
Proof. intros s H. exact H. Qed.

Lemma preserves_gets {A : Type} (f : Monitor -> A) : preserves I (gets f).
Proof. intros s H. exact H. Qed.

Lemma preserves_call {A : Type} (b : bool) (r : outcome A) :
  preserves I (call b r).
Proof. destruct b; intros s H; exact H. Qed.

Lemma preserves_deref {A : Type} (r : option A) : preserves I (deref r).
Proof. destruct r; intros s H; exact H. Qed.

Lemma preserves_modify (f : Monitor -> Monitor) :
  (forall s, I s -> I (f s)) -> preserves I (modify f).
Proof. intros Hf s H. apply Hf, H. Qed.

Lemma preserves_bind {A B : Type} (m : M A) (k : A -> M B) :
  preserves I m -> (forall a, preserves I (k a)) -> preserves I (bind m k).
Proof.
  intros Hm Hk s H. unfold bind. specialize (Hm s H).
  destruct (m s) as [[a|] s']; simpl in *.
  - apply Hk, Hm.
  - exact Hm.
Qed.

Lemma preserves_try_catch {A : Type} (body handler : M A) :
  preserves I body -> preserves I handler ->
  preserves I (try_catch body handler).
Proof.
  intros Hb Hh s H. unfold try_catch. specialize (Hb s H).
  destruct (body s) as [[a|] s']; simpl in *.
  - exact Hb.
  - apply Hh, Hb.
Qed.

Lemma preserves_filterM {A : Type} (keep : A -> M bool) (xs : list A) :
  (forall x, preserves I (keep x)) -> preserves I (filterM keep xs).
Proof.
  intro Hk. induction xs as [|x rest IH]; simpl.
  - apply preserves_ret.
  - apply preserves_bind; [apply Hk|]. intro b.
    apply preserves_bind; [exact IH|]. intro kept. apply preserves_ret.
Qed.

End Preserves.

(** Splits the proof that a computation preserves an invariant along the
    structure of the computation, down to its state updates. *)
Ltac preserves_structure :=
  repeat lazymatch goal with
         | |- preserves _ (ret _) => apply preserves_ret
         | |- preserves _ throw => apply preserves_throw
         | |- preserves _ (host _) => apply preserves_host
         | |- preserves _ (gets _) => apply preserves_gets
         | |- preserves _ (call _ _) => apply preserves_call
         | |- preserves _ (deref _) => apply preserves_deref
         | |- preserves _ (bind _ _) => apply preserves_bind; [|intro]
         | |- preserves _ (try_catch _ _) => apply preserves_try_catch
         | |- preserves _ (modify _) => apply preserves_modify
         | |- preserves _ (if ?b then _ else _) => destruct b
         | |- preserves _ (match ?x with _ => _ end) => destruct x
         end.

(** The filter of [processGPUQueries] keeps no more than it is given. *)
Lemma filterM_length {A : Type} (keep : A -> M bool) (xs : list A) (s : Monitor) :
  match fst (filterM keep xs s) with
  | Ok kept => (List.length kept <= List.length xs)%nat
  | Thrown => True
  end.
Proof.
  revert s. induction xs as [|x rest IH]; intro s; simpl.
  - apply le_n.
  - unfold bind. destruct (keep x s) as [[b|] s1]; simpl; [|exact Logic.I].
    specialize (IH s1). destruct (filterM keep rest s1) as [[kept|] s2];
      simpl in *; [|exact Logic.I].
    destruct b; simpl; lia.
Qed.

(** The callback of the filter leaves the queue itself alone. *)
Lemma stillPending_timerQueries gl ext queryData (qs : list QueryData) :
  preserves (fun s => timerQueries s = qs) (stillPending gl ext queryData).
Proof.
  unfold stillPending, ext_deleteQuery. preserves_structure;
    intros s H; exact H.
Qed.

Section Invariant.

(** An invariant, and what it is closed under: the state updates of the
    methods that call into the host. *)
Variable I : Monitor -> Prop.

Hypothesis I_gpuFrameTime :
  forall v s, I s -> I (set_metric gpuFrameTime v s).
Hypothesis I_gpu_metrics :
  forall k v s,
    In k [gpuMemoryUsage; textureBindings; bufferBindings;
          gpuFragmentComplexity; gpuVertexComplexity] ->
    I s -> I (set_metric k v s).
Hypothesis I_renderer_metrics :
  forall dateNow k v s,
    In k [drawCalls; triangles; geometries; textures; programs] ->
    I s -> I (updateMetric dateNow k v s).
Hypothesis I_deleted :
  forall q s, I s -> I (set_deletedQueries (deletedQueries s ++ [q]) s).
Hypothesis I_available : forall b s, I s -> I (set_gpuTimerAvailable b s).
Hypothesis I_extension : forall e s, I s -> I (set_glExtension e s).
Hypothesis I_retire :
  forall kept s,
    (List.length kept <= List.length (timerQueries s))%nat ->
    I s -> I (set_timerQueries kept s).
Hypothesis I_issue :
  forall x s, I s -> I (set_timerQueries (push_capped 5 x (timerQueries s)) s).
Hypothesis I_observers :
  forall o s, I s -> I (set_performanceObserver o s) /\ I (set_gcObserver o s).
Hypothesis I_interval : forall i s, I s -> I (set_latencyTestInterval i s).

Lemma I_estimateGPUTime s : I s -> I (estimateGPUTime s).
Proof.
  intro H. unfold estimateGPUTime.
  match goal with |- context [if ?b then _ else _] => destruct b end;
    repeat apply I_gpuFrameTime; exact H.
Qed.

Lemma preserves_ext_deleteQuery gl q : preserves I (ext_deleteQuery gl q).
Proof.
  unfold ext_deleteQuery. preserves_structure. intros s H. apply I_deleted, H.
Qed.

Lemma preserves_stillPending gl ext queryData :
  preserves I (stillPending gl ext queryData).
Proof.
  unfold stillPending. preserves_structure;
    try apply preserves_ext_deleteQuery.
  intros s H. apply I_gpuFrameTime, H.
Qed.

Lemma preserves_initializeGPUMonitoring gl :
  preserves I (initializeGPUMonitoring gl).
Proof.
  unfold initializeGPUMonitoring. preserves_structure;
    try apply preserves_ext_deleteQuery;
    intros s H; auto.
Qed.

Lemma preserves_endGPUTiming gl : preserves I (endGPUTiming gl).
Proof.
  unfold endGPUTiming. preserves_structure; intros s H; auto.
Qed.

Lemma preserves_dispose : preserves I dispose.
Proof.
  unfold dispose. preserves_structure; intros s H; auto;
    apply I_observers; exact H.
Qed.

Lemma preserves_processGPUQueries gl : preserves I (processGPUQueries gl).
Proof.
  unfold processGPUQueries.
  apply preserves_try_catch;
    [|apply preserves_modify; exact I_estimateGPUTime].
  intros s H. unfold bind, gets. simpl.
  destruct (glExtension s) as [ext|]; [|apply I_estimateGPUTime, H].
  destruct (gpuTimerAvailable s); [|apply I_estimateGPUTime, H].
  pose proof (@preserves_filterM I _ (stillPending gl ext) (timerQueries s)
                (preserves_stillPending gl ext) s H) as HI.
  pose proof (filterM_length (stillPending gl ext) (timerQueries s) s) as HL.
  pose proof (@preserves_filterM (fun s' => timerQueries s' = timerQueries s)
                _ (stillPending gl ext) (timerQueries s)
                (fun x => @stillPending_timerQueries gl ext x (timerQueries s))
                s eq_refl) as HF.
  destruct (filterM (stillPending gl ext) (timerQueries s) s)
    as [[kept|] s']; simpl in *; [|exact HI].
  assert (HK : I (set_timerQueries kept s')).
  { apply I_retire; [rewrite HF; exact HL | exact HI]. }
  destruct (List.length kept =? 0)%nat; simpl;
    [apply I_estimateGPUTime, HK | exact HK].
Qed.

Lemma preserves_measureGPUTiming gl : preserves I (measureGPUTiming gl).
Proof.
  unfold measureGPUTiming. preserves_structure;
    try apply preserves_processGPUQueries;
    try apply preserves_ext_deleteQuery;
    intros s H; auto.
Qed.

Lemma preserves_updateGPUMetrics info gl :
  preserves I (updateGPUMetrics info gl).
Proof.
  unfold updateGPUMetrics. preserves_structure;
    try apply preserves_measureGPUTiming;
    intros s H; apply I_gpu_metrics; simpl; tauto.
Qed.

Lemma preserves_updateRendererStats dateNow info gl :
  preserves I (updateRendererStats dateNow info gl).
Proof.
  unfold updateRendererStats. preserves_structure;
    try apply preserves_initializeGPUMonitoring;
    try apply preserves_updateGPUMetrics;
    try (intros s H; apply I_estimateGPUTime, H);
    intros s H; apply I_renderer_metrics; simpl; tauto.
Qed.

End Invariant.

(* ================================================================== *)
(** ** The change detector *)
(* ================================================================== *)

Lemma MetricKey_beq_refl (k : MetricKey) : MetricKey_beq k k = true.
Proof. destruct k; reflexivity. Qed.

Lemma upd_same {A : Type} (o : MetricKey -> A) (k : MetricKey) (v : A) :
  upd o k v k = v.
Proof. unfold upd. rewrite MetricKey_beq_refl. reflexivity. Qed.

Lemma metrics_updateMetric_same dateNow key value s :
  metrics (updateMetric dateNow key value s) key = value.
Proof. unfold updateMetric. simpl. apply upd_same. Qed.

Lemma unshift_capped_length c cs :
  (List.length (unshift_capped c cs) <= 100)%nat.
Proof.
  unfold unshift_capped.
  destruct (100 <? List.length (c :: cs))%nat eqn:E.
  - rewrite length_firstn. lia.
  - apply Nat.ltb_ge in E. exact E.
Qed.

(** The ring of changes is newest first: the new change is at the head, and
    what is cut at capacity is the tail, the oldest. *)
Lemma unshift_capped_newest_first c cs :
  unshift_capped c cs = firstn 100 (c :: cs).
Proof.
  unfold unshift_capped.
  destruct (100 <? List.length (c :: cs))%nat eqn:E; [reflexivity|].
  apply Nat.ltb_ge in E. symmetry. apply firstn_all2. exact E.
Qed.

Lemma changes_updateMetric dateNow key value s :
  changes (updateMetric dateNow key value s)
  = match changeOf dateNow s key value with
    | Some change => unshift_capped change (changes s)
    | None => changes s
    end.
Proof.
  unfold updateMetric. destruct (changeOf dateNow s key value); reflexivity.
Qed.

(** What an update is compared with is what the metric held before the
    previous update of the same key. *)
Lemma oldValueOf_updateMetric_same dateNow key value s :
  oldValueOf (updateMetric dateNow key value s) key
  = or_else (metrics s key) zero.
Proof.
  unfold updateMetric, oldValueOf. simpl. rewrite upd_same.
  destruct (changeOf dateNow s key value); reflexivity.
Qed.

Lemma oldValueOf_after_two_updates t1 t2 key v1 v2 s :
  oldValueOf (updateMetric t2 key v2 (updateMetric t1 key v1 s)) key
  = or_else v1 zero.
Proof.
  rewrite oldValueOf_updateMetric_same, metrics_updateMetric_same.
  reflexivity.
Qed.

(** C1.  Three updates of the draw-call count, 100, 200 and then 210: the
    third is compared with 100, the value before the one it replaces, so the
    recorded delta is 110 (110 percent, 110.00000000000001 once the quotient
    and the product are rounded) instead of 10 (5 percent), and a change is
    tracked where none is due.  The same happens on three renderer updates
    that report these draw-call counts. *)
Theorem updateMetric_compares_two_updates_back :
  let s2 := updateMetric #2 drawCalls #200
              (updateMetric #1 drawCalls #100 fresh) in
  metrics s2 drawCalls = #200 /\
  oldValueOf s2 drawCalls = #100 /\
  changes (updateMetric #3 drawCalls #210 s2)
  = [{| timestamp := #3; metric := "drawCalls"; oldValue := #100;
        newValue := #210; delta := #110;
        deltaPercent := lit 110.00000000000001;
        severity := danger |}] /\
  changes (run (construct a_browser)
               [draw_calls_update 100; draw_calls_update 200;
                draw_calls_update 210])
  = [{| timestamp := #1; metric := "drawCalls"; oldValue := #100;
        newValue := #210; delta := #110;
        deltaPercent := lit 110.00000000000001;
        severity := danger |}].
Proof. vm_compute. repeat split; reflexivity. Qed.

(** Whether the third of three updates of a key tracks a change, and which
    one, is decided by the first value and the third: the second, the value
    the metric holds when the third arrives, plays no part. *)
Lemma changes_of_third_update t1 t2 t3 key v1 v2 v3 s :
  let s2 := updateMetric t2 key v2 (updateMetric t1 key v1 s) in
  let old := or_else v1 zero in
  let percent := ((v3 - old) / old) * #100 in
  changes (updateMetric t3 key v3 s2)
  = if strict_neq old zero && (abs percent >? #5)
    then firstn 100
           ({| timestamp := t3; metric := key_name key; oldValue := old;
               newValue := v3; delta := v3 - old; deltaPercent := percent;
               severity := getSeverity (key_name key) percent |}
            :: changes s2)
    else changes s2.
Proof.
  intros s2 old percent. subst s2 old percent.
  rewrite changes_updateMetric. unfold changeOf, deltaPercentOf, deltaOf.
  rewrite oldValueOf_after_two_updates.
  destruct (strict_neq (or_else v1 zero) zero); [|reflexivity].
  cbn [andb].
  destruct (abs ((v3 - or_else v1 zero) / or_else v1 zero * #100) >? #5);
    [|reflexivity].
  apply unshift_capped_newest_first.
Qed.

(** C2.  The value an update is tested against is not the one the metric
    holds.  On a new monitor the draw-call count is updated to 100 and then
    to 120: no change is tracked, although the old value is 100 and the
    delta 20 percent.  Updated to 50, to 100 and then to 101, the last
    update tracks a change of 102 percent, from an old value of 50, although
    the metric went from 100 to 101, by 1 percent.  In general the third of
    three updates is tested against the first value, whatever the second
    is. *)
Theorem updateMetric_tests_against_stale_value :
  (let s1 := updateMetric #1 drawCalls #100 fresh in
   metrics s1 drawCalls = #100
   /\ changes s1 = []
   /\ changes (updateMetric #2 drawCalls #120 s1) = [])
  /\ (let s2 := updateMetric #2 drawCalls #100
                  (updateMetric #1 drawCalls #50 fresh) in
      metrics s2 drawCalls = #100
      /\ changes s2 = []
      /\ changes (updateMetric #3 drawCalls #101 s2)
         = [{| timestamp := #3; metric := "drawCalls"; oldValue := #50;
               newValue := #101; delta := #51; deltaPercent := #102;
               severity := danger |}])
  /\ (forall t1 t2 t3 key v1 v2 v3 s,
         let s2 := updateMetric t2 key v2 (updateMetric t1 key v1 s) in
         let old := or_else v1 zero in
         let percent := ((v3 - old) / old) * #100 in
         metrics s2 key = v2
         /\ changes (updateMetric t3 key v3 s2)
            = if strict_neq old zero && (abs percent >? #5)
              then firstn 100
                     ({| timestamp := t3; metric := key_name key;
                         oldValue := old; newValue := v3; delta := v3 - old;
                         deltaPercent := percent;
                         severity := getSeverity (key_name key) percent |}
                      :: changes s2)
              else changes s2).
Proof.
  split; [|split].
  - vm_compute. repeat split; reflexivity.
  - vm_compute. repeat split; reflexivity.
  - intros t1 t2 t3 key v1 v2 v3 s s2 old percent. split.
    + apply metrics_updateMetric_same.
    + apply changes_of_third_update.
Qed.

(** The frame path writes the metrics directly: it tracks no change. *)
Lemma changes_updateFrameMetrics dom heap s :
  changes (updateFrameMetrics dom heap s) = changes s.
Proof.
  unfold updateFrameMetrics.
  destruct (fpsText dom), (msText dom), heap; simpl;
    repeat match goal with
           | |- context [if ?b then _ else _] => destruct b; simpl
           | |- context [match ?x with _ => _ end] => destruct x; simpl
           end; reflexivity.
Qed.

Lemma changes_end_frame now dom heap s :
  changes (end_frame now dom heap s) = changes s.
Proof.
  unfold end_frame, detectMemoryLeaks.
  match goal with |- context [if ?b then _ else _] => destruct b end;
    simpl; rewrite changes_updateFrameMetrics; reflexivity.
Qed.

(** [end] either throws at [performance.measure], in a window where no
    [begin] has set the mark, and then leaves the monitor as it is, or
    samples the frame. *)
Lemma exec_end_ window now dom heap s :
  exec (end_ window now dom heap) s
  = if window && negb (frameStartMark s) then s
    else end_frame now dom heap s.
Proof. destruct window; unfold end_, exec, bind, gets, throw, ret, modify;
  simpl; destruct (frameStartMark s); reflexivity. Qed.

Lemma changes_end_ window now dom heap s :
  changes (exec (end_ window now dom heap) s) = changes s.
Proof.
  rewrite exec_end_. destruct (window && negb (frameStartMark s));
    [reflexivity | apply changes_end_frame].
Qed.

Lemma Forall_firstn_of {A : Type} (P : A -> Prop) (n : nat) (xs : list A) :
  Forall P xs -> Forall P (firstn n xs).
Proof.
  revert n. induction xs as [|x rest IH]; intros [|n] H; simpl;
    try constructor; inversion H; subst; auto.
Qed.

Lemma key_name_fps key : key <> fps -> key_name key <> "fps".
Proof. destruct key; simpl; intros H E; try discriminate E. congruence. Qed.

Lemma no_fps_change_updateMetric dateNow key value s :
  key <> fps ->
  no_fps_change s -> no_fps_change (updateMetric dateNow key value s).
Proof.
  unfold no_fps_change. intros Hk H. rewrite changes_updateMetric.
  destruct (changeOf dateNow s key value) as [c|] eqn:E; [|exact H].
  rewrite unshift_capped_newest_first. apply Forall_firstn_of.
  constructor; [|exact H].
  unfold changeOf in E.
  destruct (strict_neq (oldValueOf s key) zero
            && (abs (deltaPercentOf s key value) >? #5)); [|discriminate E].
  injection E as <-. simpl. apply key_name_fps, Hk.
Qed.

Lemma no_fps_change_entries entries s :
  no_fps_change s -> no_fps_change (fold_left onPerformanceEntry entries s).
Proof.
  revert s. induction entries as [|e rest IH]; intros s H; simpl; [exact H|].
  apply IH. unfold onPerformanceEntry.
  destruct (entryType e); try exact H;
    apply no_fps_change_updateMetric; try exact H; discriminate.
Qed.

Lemma no_fps_change_gc_entries entries s :
  no_fps_change s -> no_fps_change (fold_left onGCEntry entries s).
Proof.
  revert s. induction entries as [|e rest IH]; intros s H; simpl; [exact H|].
  apply IH. unfold onGCEntry. destruct (fst e); exact H.
Qed.

Lemma no_fps_change_step s c : no_fps_change s -> no_fps_change (step s c).
Proof.
  intro H. destruct c; simpl.
  - unfold begin. destruct window; exact H.
  - unfold no_fps_change. rewrite changes_end_. exact H.
  - apply no_fps_change_entries, H.
  - apply no_fps_change_gc_entries, H.
  - exact H.
  - exact H.
  - apply (@preserves_updateRendererStats no_fps_change);
      try exact H; clear; intros;
      try match goal with
          | Hin : In _ _ |- _ =>
              simpl in Hin;
              repeat (destruct Hin as [<-|Hin]; [|]); try contradiction
          end;
      try (apply no_fps_change_updateMetric; [discriminate|]);
      assumption.
  - apply (@preserves_endGPUTiming no_fps_change);
      try exact H; clear; intros;
      match goal with H : no_fps_change _ |- _ => exact H end.
  - exact H.
  - exact H.
  - exact H.
  - unfold monitorFrame, trackXRFrame, trackMotionToPhotonDelay.
    destruct predicted, (lastXRFrameTime s >? #0), inputSources; exact H.
  - exact H.
  - exact H.
  - unfold endRenderCall. break_tests; exact H.
  - exact H.
  - unfold endShaderCompile. destruct (shaderCompileStartTime s >? #0);
      exact H.
  - unfold updateAdvancedTiming. destruct window; exact H.
  - apply (@preserves_dispose no_fps_change);
      [intros o s' H'; split; exact H' | intros i s' H'; exact H' | exact H].
Qed.

Lemma no_fps_change_run calls : forall s,
  no_fps_change s -> no_fps_change (run s calls).
Proof.
  unfold run. induction calls as [|c rest IH]; intros s H; simpl; [exact H|].
  apply IH, no_fps_change_step, H.
Qed.

Lemma no_fps_change_construct b : no_fps_change (construct b).
Proof.
  unfold construct, initializeGCObserver, startLatencyMonitoring,
    initializeMemoryBaseline, initializePerformanceObserver.
  break_tests; constructor.
Qed.

Ltac severity_cases :=
  repeat match goal with
         | |- context [if Qltb ?a ?b then _ else _] =>
             let E := fresh "E" in destruct (Qltb a b) eqn:E
         end;
  try reflexivity; try congruence;
  try (left; reflexivity); try (right; reflexivity);
  try (exfalso; q_props; lra).

(** C3, as the code has it.  For frame time, draw calls and triangle count
    a delta above 50 is danger, above 25 critical, above 10 warning, and a
    negative one excellent or good.  For FPS the direction is the other one:
    below -25 is danger, below -10 critical, above 25 excellent, above 10
    good.  When an FPS of 60 is given to [updateMetric] twice or more in a
    row, ten times say, and then an FPS of 28, that last update tracks one
    change, put at the head of the list: of metric "fps", from 60 to 28, of
    -53.333333333333336 percent and severity danger.  The monitor itself
    never gives an FPS to [updateMetric]: [end] tracks no change, and no
    sequence of calls on a new monitor tracks a change of the FPS. *)
Theorem getSeverity_direction_table :
  (forall key d,
      In key [frameTime; drawCalls; triangles] ->
      let sev := getSeverity (key_name key) d in
      ((d >? #50) = true -> sev = danger)
      /\ ((d >? #25) = true -> (d >? #50) = false -> sev = critical)
      /\ ((d >? #10) = true -> (d >? #25) = false -> sev = warning)
      /\ ((d <? #0) = true -> sev = excellent \/ sev = good))
  /\ (forall d,
         let sev := getSeverity "fps" d in
         ((d <? #(-25)) = true -> sev = danger)
         /\ ((d <? #(-10)) = true -> (d <? #(-25)) = false -> sev = critical)
         /\ ((d >? #25) = true -> sev = excellent)
         /\ ((d >? #10) = true -> (d >? #25) = false -> sev = good))
  /\ (forall t1 t2 t3 s,
         let s2 := updateMetric t2 fps #60 (updateMetric t1 fps #60 s) in
         changes (updateMetric t3 fps #28 s2)
         = firstn 100
             ({| timestamp := t3; metric := "fps"; oldValue := #60;
                 newValue := #28; delta := #(-32);
                 deltaPercent := lit (-53.333333333333336);
                 severity := danger |}
              :: changes s2))
  /\ changes (updateMetric #11 fps #28
                (fold_left (fun s t => updateMetric t fps #60 s)
                           [#1; #2; #3; #4; #5; #6; #7; #8; #9; #10] fresh))
     = [{| timestamp := #11; metric := "fps"; oldValue := #60;
           newValue := #28; delta := #(-32);
           deltaPercent := lit (-53.333333333333336);
           severity := danger |}]
  /\ (forall window now dom heap s,
         changes (exec (end_ window now dom heap) s) = changes s)
  /\ (forall (b : Browser) (calls : list Call) (c : PerformanceChange),
         In c (changes (run (construct b) calls)) -> metric c <> "fps").
Proof.
  split; [|split; [|split; [|split; [|split]]]].
  - intros key d Hin sev. subst sev.
    assert (Hk : key = frameTime \/ key = drawCalls \/ key = triangles).
    { simpl in Hin. intuition congruence. }
    unfold getSeverity, gt.
    destruct Hk as [-> | [-> | ->]]; simpl;
      destruct d as [| | |q]; simpl; repeat split; intros;
        try discriminate; severity_cases.
  - intros d sev. subst sev. unfold getSeverity, gt. simpl.
    destruct d as [| | |q]; simpl; repeat split; intros;
      try discriminate; severity_cases.
  - intros t1 t2 t3 s s2. subst s2.
    rewrite changes_of_third_update. reflexivity.
  - vm_compute. reflexivity.
  - apply changes_end_.
  - intros b calls c Hin.
    pose proof (no_fps_change_run calls (no_fps_change_construct b)) as H.
    unfold no_fps_change in H. rewrite Forall_forall in H. apply H, Hin.
Qed.

Lemma getSeverity_direction_table_witness :
  getSeverity "drawCalls" #60 = danger
  /\ getSeverity "frameTime" #30 = critical
  /\ getSeverity "triangles" #12 = warning
  /\ (getSeverity "drawCalls" #(-12) = excellent
      \/ getSeverity "drawCalls" #(-12) = good)
  /\ getSeverity "fps" #(-30) = danger
  /\ getSeverity "fps" #(-12) = critical
  /\ getSeverity "fps" #30 = excellent
  /\ getSeverity "fps" #12 = good
  /\ (forall c,
         In c (changes (run (construct a_browser)
                            [draw_calls_update 100; draw_calls_update 100;
                             draw_calls_update 200])) ->
         metric c <> "fps").
Proof.
  destruct getSeverity_direction_table
    as (Hlow & Hfps & _ & _ & _ & Hnone).
  destruct (Hlow drawCalls #60) as (H1 & _); [simpl; tauto|].
  destruct (Hlow frameTime #30) as (_ & H2 & _); [simpl; tauto|].
  destruct (Hlow triangles #12) as (_ & _ & H3 & _); [simpl; tauto|].
  destruct (Hlow drawCalls #(-12)) as (_ & _ & _ & H4); [simpl; tauto|].
  destruct (Hfps #(-30)) as (H5 & _).
  destruct (Hfps #(-12)) as (_ & H6 & _).
  destruct (Hfps #30) as (_ & _ & H7 & _).
  destruct (Hfps #12) as (_ & _ & _ & H8).
  split; [apply H1; reflexivity|].
  split; [apply H2; reflexivity|].
  split; [apply H3; reflexivity|].
  split; [apply H4; reflexivity|].
  split; [apply H5; reflexivity|].
  split; [apply H6; reflexivity|].
  split; [apply H7; reflexivity|].
  split; [apply H8; reflexivity|].
  intros c' Hin. exact (Hnone _ _ c' Hin).
Defined.

(** C3 fails on the frame path.  Ten frames of 16.67 ms, 60 frames a
    second, and then one of 35.7 ms, 28 frames a second, each measured by
    [begin] and [end] and reported to the observer as a measure: the monitor
    tracks the rise of the frame time, as a change of metric "frameTime" and
    severity danger, and no change of metric "fps". *)
Lemma fps_drop_on_frame_path_tracks_no_fps_change :
  let frame duration :=
    a_frame #0 duration
    ++ [PerformanceEntries [{| entryType := measure; duration := duration;
                               handledAt := #0 |}]] in
  let s10 := run (construct a_browser)
                 (List.concat (repeat (frame (lit 16.67)) 10)) in
  let s11 := run s10 (frame (lit 35.7)) in
  metrics s10 frameTime = lit 16.67
  /\ changes s10 = []
  /\ metrics s11 frameTime = lit 35.7
  /\ List.map (fun c => (metric c, newValue c, severity c)) (changes s11)
     = [("frameTime", lit 35.7, danger)]
  /\ ~ (exists c, In c (changes s11) /\ metric c = "fps").
Proof.
  vm_compute. repeat split; try reflexivity.
  intros (c & [<- | []] & H). discriminate H.
Qed.

(* ================================================================== *)
(** ** The fallback GPU-time estimator *)
(* ================================================================== *)

(** Evaluates the monitor's code and the operations on finite numbers, and
    leaves the arithmetic of rationals and the rounding alone. *)
Ltac js_eval :=
  cbn -[Qred Qplus Qmult Qminus Qdiv Qopp Qabs Qltb Qeq_bool Qfloor inject_Z
        Z.of_nat List.length round64 lit] in *.

Lemma metrics_set_metric_same k v s : metrics (set_metric k v s) k = v.
Proof. unfold set_metric. simpl. apply upd_same. Qed.

Lemma metrics_set_metric_other k k' v s :
  k' <> k -> metrics (set_metric k v s) k' = metrics s k'.
Proof.
  intro H. unfold set_metric. simpl. unfold upd.
  destruct (MetricKey_beq k' k) eqn:E; [|reflexivity].
  apply internal_MetricKey_dec_bl in E. contradiction.
Qed.

Lemma max_half_not_zero (x : num) : strict_eq (max #0.5 x) #0 = false.
Proof.
  destruct x as [| | |q]; try reflexivity.
  unfold max. cbn [lt]. destruct (Qltb 0.5 q) eqn:E; cbn [strict_eq];
    [|reflexivity].
  apply Qeq_bool_false. q_props. lra.
Qed.

(** The value the estimator publishes, on all numbers. *)
Lemma estimateGPUTime_published s :
  metrics (estimateGPUTime s) gpuFrameTime
  = max #0.5 (min (metrics s gpuFrameTime * (#1 - lit 0.3)
                   + estimatedGPUTime s * lit 0.3)
                  (metrics s frameTime * lit 0.8)).
Proof.
  unfold estimateGPUTime. cbv zeta.
  match goal with
  | |- metrics (if ?c && ?z then _ else _) _ = _ =>
      assert (Hz : z = false); [|rewrite Hz, andb_false_r]
  end.
  - rewrite metrics_set_metric_same. apply max_half_not_zero.
  - rewrite !metrics_set_metric_same.
    rewrite metrics_set_metric_other by discriminate. reflexivity.
Qed.

(** The raw estimate is the base time or more, on counts that are not
    negative. *)
Lemma estimatedGPUTime_lower s dc tr fc tx :
  metrics s drawCalls = Fin dc ->
  metrics s triangles = Fin tr ->
  metrics s gpuFragmentComplexity = Fin fc ->
  metrics s textures = Fin tx ->
  (0 <= dc)%Q -> (0 <= tr)%Q -> (0 <= fc)%Q -> (0 <= tx)%Q ->
  le #0.5 (estimatedGPUTime s) = true.
Proof.
  intros Hdc Htr Hfc Htx Pdc Ptr Pfc Ptx. unfold estimatedGPUTime.
  rewrite Hdc, Htr, Hfc, Htx. cbv zeta. eval_lits.
  assert (Q0 : forall q, (0 <= q)%Q -> le #0 (Fin q) = true).
  { intros q Hq. rewrite le_Fin. apply Qle_bool_iff. exact Hq. }
  repeat apply add_lower; try reflexivity;
    repeat first [apply mul_nonneg; [reflexivity|]
                 | apply div_nonneg; [reflexivity|]];
    apply Q0; assumption.
Qed.

(** A value that is not NaN, clamped between 0.5 and a finite cap. *)
Lemma clamp_finite x (c : Q) :
  is_nan x = false ->
  exists g, max #0.5 (min x (Fin c)) = Fin g
            /\ (0.5 <= g)%Q
            /\ (0.5 <= c -> g <= c)%Q
            /\ (0.5 <= c -> le (Fin c) x = true -> g == c)%Q.
Proof.
  intro H. destruct x as [| | |m]; try discriminate H.
  - unfold min, max. cbn [lt]. destruct (Qltb 0.5 c) eqn:E; eexists;
      (split; [reflexivity|]); q_props; repeat split; intros; lra.
  - unfold min, max. cbn [lt]. eexists. split; [reflexivity|].
    repeat split; intros; try lra. discriminate.
  - unfold min. cbn [lt]. destruct (Qltb c m) eqn:E1; unfold max; cbn [lt];
      [destruct (Qltb 0.5 c) eqn:E2 | destruct (Qltb 0.5 m) eqn:E2];
      eexists; (split; [reflexivity|]); q_props;
      repeat split; intros; try lra;
      match goal with
      | L : le (Fin _) (Fin _) = true |- _ =>
          rewrite le_Fin in L; apply Qle_bool_iff in L; lra
      end.
Qed.

(** C4, as the code has it.  With finite, non-negative inputs, a finite
    previous value and a positive frame time, the estimator publishes
    [max(0.5, min(0.7 * previous + 0.3 * estimate, 0.8 * frameTime))]: a
    finite value, at least 0.5, and at most [0.8 * frameTime] once that is
    0.5 or more.  For 200 draw calls, 50000 triangles, a fragment complexity
    of 300, 10 textures and a frame time of 16 the raw estimate is 23.8; the
    published value is 7.14 from a previous value of 0, and it is 12.8 as
    soon as the smoothed value reaches 12.8.  The sums and products are
    those of the code, rounded as it rounds them; the frame time and the
    previous value are numbers of the language. *)
Theorem estimateGPUTime_bounds :
  forall (s : Monitor) (dc tr fc tx ft prev : Q),
    metrics s drawCalls = Fin dc ->
    metrics s triangles = Fin tr ->
    metrics s gpuFragmentComplexity = Fin fc ->
    metrics s textures = Fin tx ->
    metrics s frameTime = Fin ft ->
    metrics s gpuFrameTime = Fin prev ->
    is_double (Fin ft) = true -> is_double (Fin prev) = true ->
    (0 <= dc)%Q -> (0 <= tr)%Q -> (0 <= fc)%Q -> (0 <= tx)%Q -> (0 < ft)%Q ->
    exists g,
      metrics (estimateGPUTime s) gpuFrameTime = Fin g
      /\ same (Fin g)
              (max #0.5 (min (Fin prev * lit 0.7 + estimatedGPUTime s * lit 0.3)
                             (Fin ft * lit 0.8)))
      /\ (0.5 <= g)%Q
      /\ (le #0.5 (Fin ft * lit 0.8) = true ->
          le (Fin g) (Fin ft * lit 0.8) = true)
      /\ ((dc == 200)%Q -> (tr == 50000)%Q -> (fc == 300)%Q -> (tx == 10)%Q ->
          (ft == 16)%Q ->
          estimatedGPUTime s = lit 23.8
          /\ ((prev == 0)%Q -> same (Fin g) (lit 7.14))
          /\ (le (lit 12.8) (Fin prev * lit 0.7 + lit 7.14) = true ->
              same (Fin g) (lit 12.8))).
Proof.
  intros s dc tr fc tx ft prev Hdc Htr Hfc Htx Hft Hprev Dft Dprev
    Pdc Ptr Pfc Ptx Pft.
  pose proof (@estimatedGPUTime_lower s dc tr fc tx Hdc Htr Hfc Htx Pdc Ptr Pfc Ptx) as He.
  pose proof (estimateGPUTime_published s) as Hg.
  rewrite Hprev, Hft in Hg.
  replace (#1 - lit 0.3) with (lit 0.7) in Hg by (vm_compute; reflexivity).
  (* the smoothed value is not NaN, the cap is finite *)
  destruct (@double_bound prev Dprev) as (dp & Ddp & Lp & Up).
  destruct (@double_bound ft Dft) as (df & Ddf & Lf & Uf).
  assert (P7 : exists p7, Fin prev * lit 0.7 = Fin p7).
  { eval_lits.
    match goal with
    | |- exists _, _ * Fin ?c = _ =>
        destruct (@mul_within dp prev c Ddp Lp Up) as (r & Hr & _);
        [| |exists r; exact Hr]; lra
    end. }
  assert (C8 : exists c8, Fin ft * lit 0.8 = Fin c8).
  { eval_lits.
    match goal with
    | |- exists _, _ * Fin ?c = _ =>
        destruct (@mul_within df ft c Ddf Lf Uf) as (r & Hr & _);
        [| |exists r; exact Hr]; lra
    end. }
  destruct P7 as (p7 & P7). destruct C8 as (c8 & C8).
  assert (E3 : le #0 (estimatedGPUTime s * lit 0.3) = true).
  { eval_lits. apply mul_nonneg; [reflexivity|].
    apply le_trans with #0.5; [reflexivity | exact He]. }
  assert (Nsm : is_nan (Fin prev * lit 0.7 + estimatedGPUTime s * lit 0.3)
                = false).
  { rewrite P7. destruct (estimatedGPUTime s * lit 0.3) as [| | |q];
      try discriminate E3; [reflexivity|]. apply round64_not_nan. }
  rewrite C8 in Hg.
  destruct (@clamp_finite _ c8 Nsm) as (g & Eg & Lo & Hi & At).
  rewrite Eg in Hg. exists g.
  split; [exact Hg|]. split; [rewrite C8, Eg; simpl; reflexivity|].
  split; [exact Lo|]. split.
  - rewrite C8, !le_Fin. intro H. apply Qle_bool_iff in H.
    apply Qle_bool_iff. apply Hi. exact H.
  - intros Xdc Xtr Xfc Xtx Xft.
    assert (Ee : estimatedGPUTime s = lit 23.8).
    { unfold estimatedGPUTime. rewrite Hdc, Htr, Hfc, Htx. cbv zeta.
      rewrite (mul_same_l _ Xdc), (div_same_l _ Xtr), (div_same_l _ Xfc),
        (mul_same_l _ Xtx).
      vm_compute. reflexivity. }
    assert (Ec : Fin c8 = lit 12.8).
    { rewrite <- C8, (mul_same_l _ Xft). vm_compute. reflexivity. }
    split; [exact Ee|]. split.
    + intro X0. rewrite <- Eg, <- C8, Ee.
      rewrite (mul_same_l _ X0), (mul_same_l _ Xft).
      vm_compute. reflexivity.
    + intro H. rewrite Ee in At.
      replace (lit 23.8 * lit 0.3) with (lit 7.14) in At
        by (vm_compute; reflexivity).
      assert (Hc8 : le #0.5 (Fin c8) = true).
      { rewrite Ec. vm_compute. reflexivity. }
      rewrite le_Fin in Hc8. apply Qle_bool_iff in Hc8.
      rewrite <- Ec in H |- *. cbn [same]. apply At; assumption.
Qed.

Lemma estimateGPUTime_bounds_witness :
  (exists g, metrics (estimateGPUTime (scenario #0)) gpuFrameTime = Fin g
             /\ (0.5 <= g)%Q
             /\ le (Fin g) (#16 * lit 0.8) = true
             /\ same (Fin g) (lit 7.14))
  /\ (exists g, metrics (estimateGPUTime (scenario #10)) gpuFrameTime = Fin g
                /\ same (Fin g) (lit 12.8))
  /\ estimatedGPUTime (scenario #0) = lit 23.8.
Proof.
  destruct (@estimateGPUTime_bounds (scenario #0) 200 50000 300 10 16 0)
    as (g & Hg & _ & Hlo & Hhi & Hex);
    try reflexivity; try lra.
  destruct (@estimateGPUTime_bounds (scenario #10) 200 50000 300 10 16 10)
    as (g' & Hg' & _ & _ & _ & Hex');
    try reflexivity; try lra.
  destruct Hex as (He & H0 & _); try reflexivity.
  destruct Hex' as (_ & _ & H10); try reflexivity.
  split; [|split].
  - exists g. split; [exact Hg|]. split; [exact Hlo|]. split.
    + apply Hhi. vm_compute. reflexivity.
    + apply H0. reflexivity.
  - exists g'. split; [exact Hg'|]. apply H10. vm_compute. reflexivity.
  - exact He.
Defined.

(** C4 fails on the code.  With a frame time of 0.1 the estimator publishes
    0.5, above 0.8 times the frame time.  And on a monitor without the
    timing extension, after a frame of 16 ms, renderer statistics of 200
    draw calls, 50000 triangles, 10 textures and 3 programs publish a GPU
    frame time of 7.14, which the same statistics leave at 7.14 on the next
    update: the estimate is smoothed from the previous value before it is
    clamped. *)
Lemma estimateGPUTime_not_always_within :
  let small := set_metric frameTime (lit 0.1) fresh in
  let info := {| render_calls := #200; render_triangles := #50000;
                 memory_geometries := #0; memory_textures := #10;
                 programs_length := Some 3%nat |} in
  let frame := [Begin true #0; End true #16 no_text None;
                UpdateRendererStats #1 info gl_without_timer] in
  let s1 := run (construct a_browser) frame in
  same (metrics (estimateGPUTime small) gpuFrameTime) #0.5
  /\ (metrics small frameTime * lit 0.8
      <? metrics (estimateGPUTime small) gpuFrameTime) = true
  /\ metrics s1 frameTime = #16
  /\ metrics s1 gpuFragmentComplexity = #300
  /\ metrics s1 gpuFrameTime = lit 7.14
  /\ metrics (run s1 frame) gpuFrameTime = lit 7.14
  /\ ~ same (metrics s1 gpuFrameTime) (lit 12.8).
Proof. vm_compute. repeat split; try reflexivity. discriminate. Qed.

(* ================================================================== *)
(** ** The bounded buffers *)
(* ================================================================== *)

Lemma push_capped_length {A : Type} (cap : nat) (x : A) (xs : list A) :
  (List.length xs <= cap)%nat ->
  (List.length (push_capped cap x xs) <= cap)%nat.
Proof.
  intro H. unfold push_capped.
  destruct (cap <? List.length (xs ++ [x]))%nat eqn:E.
  - destruct xs as [|y ys]; simpl in *; [lia|].
    rewrite length_app. simpl. lia.
  - apply Nat.ltb_ge in E. exact E.
Qed.

(** The push is first in, first out: below capacity the sample is added at
    the end, and at capacity the oldest entry, at the front, leaves. *)
Lemma push_capped_fifo {A : Type} (cap : nat) (x : A) (xs : list A) :
  (0 < cap)%nat ->
  push_capped cap x xs
  = if (List.length xs <? cap)%nat then xs ++ [x] else tl xs ++ [x].
Proof.
  intro Hcap. unfold push_capped. rewrite length_app. simpl.
  destruct (List.length xs <? cap)%nat eqn:E.
  - apply Nat.ltb_lt in E.
    destruct (cap <? List.length xs + 1)%nat eqn:E'; [|reflexivity].
    apply Nat.ltb_lt in E'. lia.
  - apply Nat.ltb_ge in E.
    destruct (cap <? List.length xs + 1)%nat eqn:E'.
    + destruct xs as [|y ys]; simpl in *; [lia|reflexivity].
    + apply Nat.ltb_ge in E'. lia.
Qed.

Lemma bounded_updateMetric dateNow key value s :
  bounded s -> bounded (updateMetric dateNow key value s).
Proof.
  unfold bounded. intro H.
  rewrite changes_updateMetric.
  unfold updateMetric. destruct (changeOf dateNow s key value); simpl;
    intuition auto using unshift_capped_length.
Qed.

Lemma bounded_updateFrameMetrics dom heap s :
  bounded s -> bounded (updateFrameMetrics dom heap s).
Proof. intro H. unfold updateFrameMetrics. break_tests; exact H. Qed.

Lemma bounded_end_frame now dom heap s :
  bounded s -> bounded (end_frame now dom heap s).
Proof.
  intro H. unfold end_frame, detectMemoryLeaks.
  assert (H1 : bounded (updateFrameMetrics dom heap
                 (set_frameTimings
                    (push_capped 60 (now - lastFrameTime s) (frameTimings s))
                    s))).
  { apply bounded_updateFrameMetrics. unfold bounded in *. simpl.
    intuition auto using push_capped_length. }
  break_tests; exact H1.
Qed.

Lemma bounded_end_ window now dom heap s :
  bounded s -> bounded (exec (end_ window now dom heap) s).
Proof.
  intro H. rewrite exec_end_. destruct (window && negb (frameStartMark s));
    [exact H | apply bounded_end_frame, H].
Qed.

Lemma bounded_measureLatency startTime endTime random s :
  bounded s -> bounded (measureLatency startTime endTime random s).
Proof.
  unfold bounded, measureLatency. simpl.
  intuition auto using push_capped_length.
Qed.

Lemma bounded_measureLatencyFallback random s :
  bounded s -> bounded (measureLatencyFallback random s).
Proof.
  unfold bounded, measureLatencyFallback. simpl.
  intuition auto using push_capped_length.
Qed.

Lemma bounded_trackControllerInputLag inputTime processTime s :
  bounded s -> bounded (trackControllerInputLag inputTime processTime s).
Proof.
  unfold bounded, trackControllerInputLag. simpl.
  intuition auto using push_capped_length.
Qed.

Lemma bounded_monitorFrame inputSources time now predicted s :
  bounded s -> bounded (monitorFrame inputSources time now predicted s).
Proof.
  intro H. unfold monitorFrame, trackXRFrame, trackMotionToPhotonDelay.
  destruct predicted, (lastXRFrameTime s >? #0), inputSources;
    unfold bounded in *; simpl; intuition auto using push_capped_length.
Qed.

Lemma bounded_endRenderCall now s : bounded s -> bounded (endRenderCall now s).
Proof. intro H. unfold endRenderCall. break_tests; exact H. Qed.

Lemma bounded_entries entries s :
  bounded s -> bounded (fold_left onPerformanceEntry entries s).
Proof.
  revert s. induction entries as [|e rest IH]; intros s H; simpl; [exact H|].
  apply IH. unfold onPerformanceEntry.
  destruct (entryType e); auto using bounded_updateMetric.
Qed.

Lemma bounded_gc_entries entries s :
  bounded s -> bounded (fold_left onGCEntry entries s).
Proof.
  revert s. induction entries as [|e rest IH]; intros s H; simpl; [exact H|].
  apply IH. unfold onGCEntry. destruct (fst e); exact H.
Qed.

Lemma bounded_construct b : bounded (construct b).
Proof.
  unfold construct, initializeGCObserver, startLatencyMonitoring,
    initializeMemoryBaseline, initializePerformanceObserver.
  break_tests; unfold bounded; simpl; lia.
Qed.

Lemma bounded_step s c : bounded s -> bounded (step s c).
Proof.
  intro H. destruct c; simpl.
  - unfold begin. destruct window; exact H.
  - apply bounded_end_, H.
  - apply bounded_entries, H.
  - apply bounded_gc_entries, H.
  - apply bounded_measureLatency, H.
  - apply bounded_measureLatencyFallback, H.
  - apply (@preserves_updateRendererStats bounded); try exact H;
      clear; intros;
      try (apply bounded_updateMetric; assumption);
      try (unfold bounded in *; simpl;
           intuition auto using push_capped_length; lia).
  - apply (@preserves_endGPUTiming bounded); try exact H; clear; intros;
      match goal with H : bounded _ |- _ => exact H end.
  - exact H.
  - exact H.
  - exact H.
  - apply bounded_monitorFrame, H.
  - apply bounded_trackControllerInputLag, H.
  - exact H.
  - apply bounded_endRenderCall, H.
  - exact H.
  - unfold endShaderCompile. destruct (shaderCompileStartTime s >? #0);
      exact H.
  - unfold updateAdvancedTiming. destruct window; exact H.
  - apply (@preserves_dispose bounded);
      [intros o s' H'; split; exact H' | intros i s' H'; exact H' | exact H].
Qed.

Lemma bounded_run calls : forall s, bounded s -> bounded (run s calls).
Proof.
  unfold run. induction calls as [|c rest IH]; intros s H; simpl; [exact H|].
  apply IH, bounded_step, H.
Qed.

Lemma frameTimings_updateFrameMetrics dom heap s :
  frameTimings (updateFrameMetrics dom heap s) = frameTimings s.
Proof. unfold updateFrameMetrics. break_tests; reflexivity. Qed.

Lemma frameTimings_end_frame now dom heap s :
  frameTimings (end_frame now dom heap s)
  = push_capped 60 (now - lastFrameTime s) (frameTimings s).
Proof.
  unfold end_frame, detectMemoryLeaks.
  match goal with |- context [if ?b then _ else _] => destruct b end;
    simpl; rewrite frameTimings_updateFrameMetrics; reflexivity.
Qed.

(** C6.  After any sequence of calls on a new monitor the frame-timing
    window holds at most 60 samples, the latency queue at most 10, the
    motion history at most 10, the controller-input history at most 20 and
    the list of changes at most 100.  Each window takes a new entry at its
    end and, once at capacity, gives up the entry at its front, the oldest;
    the list of changes takes a new change at its head and keeps the first
    100.  An [end] that throws, in a window where no [begin] has set the
    mark, leaves the frame-timing window as it is. *)
Theorem buffers_bounded_and_fifo :
  (forall (b : Browser) (calls : list Call),
      let s := run (construct b) calls in
      (List.length (frameTimings s) <= 60
       /\ List.length (latencyQueue s) <= 10
       /\ List.length (motionHistory s) <= 10
       /\ List.length (controllerInputHistory s) <= 20
       /\ List.length (changes s) <= 100)%nat)
  /\ (forall window now dom heap s,
         let sample := now - lastFrameTime s in
         frameTimings (exec (end_ window now dom heap) s)
         = if window && negb (frameStartMark s) then frameTimings s
           else if (List.length (frameTimings s) <? 60)%nat
           then frameTimings s ++ [sample]
           else tl (frameTimings s) ++ [sample])
  /\ (forall startTime endTime random s,
         let sample := max (endTime - startTime) #15 + (random * #25 + #10) in
         latencyQueue (measureLatency startTime endTime random s)
         = if (List.length (latencyQueue s) <? 10)%nat
           then latencyQueue s ++ [sample]
           else tl (latencyQueue s) ++ [sample])
  /\ (forall random s,
         let sample := #30 + random * #40 in
         latencyQueue (measureLatencyFallback random s)
         = if (List.length (latencyQueue s) <? 10)%nat
           then latencyQueue s ++ [sample]
           else tl (latencyQueue s) ++ [sample])
  /\ (forall currentTime now s,
         let event := {| Stamp.timestamp := currentTime;
                         Stamp.processed := now |} in
         motionHistory (trackMotionToPhotonDelay currentTime now s)
         = if (List.length (motionHistory s) <? 10)%nat
           then motionHistory s ++ [event]
           else tl (motionHistory s) ++ [event])
  /\ (forall inputTime processTime s,
         let event := {| Stamp.timestamp := inputTime;
                         Stamp.processed := processTime |} in
         controllerInputHistory (trackControllerInputLag inputTime processTime s)
         = if (List.length (controllerInputHistory s) <? 20)%nat
           then controllerInputHistory s ++ [event]
           else tl (controllerInputHistory s) ++ [event])
  /\ (forall dateNow key value s,
         changes (updateMetric dateNow key value s)
         = match changeOf dateNow s key value with
           | Some change => firstn 100 (change :: changes s)
           | None => changes s
           end).
Proof.
  split; [|repeat split].
  - intros b calls s.
    destruct (bounded_run calls (bounded_construct b))
      as (H1 & H2 & H3 & H4 & H5 & _).
    subst s. repeat split; assumption.
  - intros. rewrite exec_end_.
    destruct (window && negb (frameStartMark s)); [reflexivity|].
    rewrite frameTimings_end_frame. apply push_capped_fifo. lia.
  - intros. unfold measureLatency. simpl. apply push_capped_fifo. lia.
  - intros. unfold measureLatencyFallback. simpl. apply push_capped_fifo. lia.
  - intros. unfold trackMotionToPhotonDelay. simpl. apply push_capped_fifo. lia.
  - intros. unfold trackControllerInputLag. simpl. apply push_capped_fifo. lia.
  - intros. rewrite changes_updateMetric.
    destruct (changeOf dateNow s key value); [|reflexivity].
    apply unshift_capped_newest_first.
Qed.

(* ================================================================== *)
(** ** The pool of timer queries *)
(* ================================================================== *)

Lemma set_timerQueries_same s : set_timerQueries (timerQueries s) s = s.
Proof. destruct s; reflexivity. Qed.

Lemma filterM_all_pending gl ext qs s :
  all_pending gl ext qs ->
  filterM (stillPending gl ext) qs s = (Ok qs, s).
Proof.
  revert s. induction qs as [|qd rest IH]; intros s H; simpl; [reflexivity|].
  assert (Hqd : stillPending gl ext qd s = (Ok true, s)).
  { unfold stillPending. destruct (H qd (or_introl eq_refl)) as [E|E].
    - rewrite E. reflexivity.
    - destruct (has_getQueryParameter ext); [|reflexivity].
      unfold bind, host. rewrite E. reflexivity. }
  unfold bind. rewrite Hqd, IH; [reflexivity|].
  intros qd' Hin. apply H. right. exact Hin.
Qed.

Lemma processGPUQueries_all_pending gl ext s :
  glExtension s = Some ext ->
  gpuTimerAvailable s = true ->
  timerQueries s <> [] ->
  all_pending gl ext (timerQueries s) ->
  processGPUQueries gl s = (Ok tt, s).
Proof.
  intros Hext Hav Hne Hpend.
  unfold processGPUQueries, try_catch, bind, gets. simpl.
  rewrite Hext, Hav, (filterM_all_pending s Hpend). simpl.
  rewrite set_timerQueries_same.
  destruct (timerQueries s); [congruence|reflexivity].
Qed.

(** C5, as the code has it.  After any sequence of calls on a new monitor
    the pool holds at most 5 queries, whether or not results arrive.  When a
    query is issued while the pool holds 5 queries whose results have not
    arrived, the oldest leaves the pool and the new one enters at the end;
    the native object of the oldest is deleted when the extension has a
    function [deleteQuery], and is not when it has none. *)
Theorem timerQueries_pool_bounded :
  (forall (b : Browser) (calls : list Call),
      (List.length (timerQueries (run (construct b) calls)) <= 5)%nat)
  /\ (forall (gl : GLHost) (ext : GLExtension) (q : WebGLQuery) (s : Monitor),
         glExtension s = Some ext ->
         gpuTimerAvailable s = true ->
         has_createQuery ext = true ->
         has_beginQuery ext = true ->
         TIME_ELAPSED_EXT ext = true ->
         xr_isPresenting gl = false ->
         createQuery gl = Ok (Some q) ->
         beginQuery gl = Ok tt ->
         List.length (timerQueries s) = 5%nat ->
         all_pending gl ext (timerQueries s) ->
         let s' := exec (measureGPUTiming gl) s in
         exists oldest rest,
           timerQueries s = oldest :: rest
           /\ timerQueries s'
              = rest ++ [{| query := q; startTime := performance_now gl |}]
           /\ (has_deleteQuery ext = true ->
               deleteQuery gl (query oldest) = Ok tt ->
               deletedQueries s' = deletedQueries s ++ [query oldest])
           /\ (has_deleteQuery ext = false ->
               deletedQueries s' = deletedQueries s)).
Proof.
  split.
  - intros b calls.
    destruct (bounded_run calls (bounded_construct b))
      as (_ & _ & _ & _ & _ & H).
    exact H.
  - intros gl ext q s Hext Hav Hcreate Hbegin Htime Hxr Hq Hb Hlen Hpend s'.
    assert (Hne : timerQueries s <> []).
    { intro E. rewrite E in Hlen. discriminate Hlen. }
    assert (Hm : measureGPUTiming gl s
                 = try_catch
                     (modify (fun s =>
                        set_timerQueries
                          (push_capped 5
                             {| query := q; startTime := performance_now gl |}
                             (timerQueries s)) s) ;;;
                      match shifted 5
                              {| query := q; startTime := performance_now gl |}
                              (timerQueries s) with
                      | Some oldQueryData =>
                          if has_deleteQuery ext
                          then ext_deleteQuery gl (query oldQueryData)
                          else ret tt
                      | None => ret tt
                      end)
                     (modify (set_gpuTimerAvailable false)) s).
    { unfold measureGPUTiming, try_catch, bind at 1 2, gets. simpl.
      rewrite Hext, Hav, Hcreate, Hxr. simpl.
      unfold bind at 1.
      rewrite (@processGPUQueries_all_pending gl ext s Hext Hav Hne Hpend).
      unfold bind at 1, host. rewrite Hq, Hbegin, Htime, Hb. simpl.
      reflexivity. }
    subst s'. unfold exec. rewrite Hm. clear Hm.
    destruct (timerQueries s) as [|q1 [|q2 [|q3 [|q4 [|q5 [|q6 rest]]]]]] eqn:E;
      try discriminate Hlen.
    exists q1, [q2; q3; q4; q5].
    split; [reflexivity|].
    unfold try_catch, bind, modify, ext_deleteQuery, bind, host, modify.
    simpl. rewrite E. simpl.
    destruct (has_deleteQuery ext); simpl.
    + destruct (deleteQuery gl (query q1)) as [[]|]; simpl;
        repeat split; intros; try reflexivity; try discriminate.
    + repeat split; intros; try reflexivity; try discriminate.
Qed.

Lemma timerQueries_pool_bounded_witness :
  let ext := timer_extension true in
  let s5 := run (construct a_browser) (map (issue ext) [1; 2; 3; 4; 5]%nat) in
  let s6 := exec (measureGPUTiming (gl_issuing ext 6%nat)) s5 in
  map query (timerQueries s5) = [1; 2; 3; 4; 5]%nat
  /\ map query (timerQueries s6) = [2; 3; 4; 5; 6]%nat
  /\ deletedQueries s6 = deletedQueries s5 ++ [1%nat]
  /\ (List.length
        (timerQueries
           (run (construct a_browser)
                (map (issue ext) [1; 2; 3; 4; 5; 6; 7]%nat))) <= 5)%nat.
Proof.
  intros ext s5 s6.
  destruct timerQueries_pool_bounded as (Hbound & Hevict).
  destruct (Hevict (gl_issuing ext 6%nat) ext 6%nat s5)
    as (oldest & rest & E & Hq & Hdel & _);
    try reflexivity.
  { intros qd _. right. reflexivity. }
  vm_compute in E. injection E as <- <-.
  split; [reflexivity|]. split; [|split].
  - subst s6. rewrite Hq. reflexivity.
  - subst s6. apply Hdel; reflexivity.
  - apply Hbound.
Defined.

(** C5 fails on an extension without [deleteQuery]: the sixth query issued
    puts the first one out of the pool, and the first one is not deleted. *)
Lemma evicted_query_not_deleted :
  let ext := timer_extension false in
  let s5 := run (construct a_browser) (map (issue ext) [1; 2; 3; 4; 5]%nat) in
  let s6 := step s5 (issue ext 6%nat) in
  map query (timerQueries s5) = [1; 2; 3; 4; 5]%nat
  /\ map query (timerQueries s6) = [2; 3; 4; 5; 6]%nat
  /\ ~ In 1%nat (deletedQueries s6).
Proof.
  vm_compute. split; [reflexivity|]. split; [reflexivity|]. intros [].
Qed.

(* ================================================================== *)
(** ** Samples that are not finite *)
(* ================================================================== *)

Lemma add_not_finite_l x y : isFinite x = false -> isFinite (x + y) = false.
Proof. destruct x, y; intro H; try discriminate H; reflexivity. Qed.

Lemma add_not_finite_r x y : isFinite y = false -> isFinite (x + y) = false.
Proof. destruct x, y; intro H; try discriminate H; reflexivity. Qed.

Lemma div_len_not_finite {A : Type} x (xs : list A) :
  isFinite x = false -> isFinite (x / len xs) = false.
Proof.
  unfold len. destruct x; intro H; try discriminate H; try reflexivity;
    cbn [div]; match goal with |- context [if ?b then _ else _] =>
                 destruct b end; reflexivity.
Qed.

(** A sum of terms one of which is not finite is not finite. *)
Lemma fold_add_not_finite_acc {A : Type} (f : A -> num) xs : forall acc,
  isFinite acc = false ->
  isFinite (fold_left (fun sum x => sum + f x) xs acc) = false.
Proof.
  induction xs as [|x rest IH]; intros acc H; simpl; [exact H|].
  apply IH, add_not_finite_l, H.
Qed.

Lemma fold_add_not_finite {A : Type} (f : A -> num) xs : forall acc,
  Exists (fun x => isFinite (f x) = false) xs ->
  isFinite (fold_left (fun sum x => sum + f x) xs acc) = false.
Proof.
  induction xs as [|x rest IH]; intros acc H; simpl; inversion H; subst.
  - apply fold_add_not_finite_acc, add_not_finite_r. assumption.
  - apply IH. assumption.
Qed.

Lemma sum_not_finite xs :
  Exists (fun x => isFinite x = false) xs -> isFinite (sum xs) = false.
Proof. intro H. apply (fold_add_not_finite (fun x => x)), H. Qed.

Lemma delays_not_finite history :
  Exists (fun event => isFinite (Stamp.processed event
                                 - Stamp.timestamp event) = false) history ->
  isFinite (delays history) = false.
Proof.
  intro H. unfold delays.
  apply (fold_add_not_finite
           (fun event => Stamp.processed event - Stamp.timestamp event)), H.
Qed.

(** What is pushed is in the window. *)
Lemma push_capped_Exists {A : Type} (P : A -> Prop) (cap : nat) x xs :
  (0 < cap)%nat -> P x -> Exists P (push_capped cap x xs).
Proof.
  intros Hcap Hx. rewrite push_capped_fifo by exact Hcap.
  destruct (List.length xs <? cap)%nat; apply Exists_app; right;
    constructor; exact Hx.
Qed.

Lemma frameTime_updateFrameMetrics dom heap s :
  metrics (updateFrameMetrics dom heap s) frameTime
  = if (0 <? List.length (frameTimings s))%nat
    then sum (frameTimings s) / len (frameTimings s)
    else metrics s frameTime.
Proof.
  unfold updateFrameMetrics.
  destruct (fpsText dom), (msText dom), heap; simpl;
    destruct (0 <? List.length (frameTimings s))%nat; simpl;
    destruct (xrSession s) as [[[[r|]|]]|]; reflexivity.
Qed.

Lemma push_capped_nonempty {A : Type} (cap : nat) (x : A) (xs : list A) :
  (0 < cap)%nat -> push_capped cap x xs <> [].
Proof.
  intro Hcap. rewrite push_capped_fifo by exact Hcap.
  destruct (List.length xs <? cap)%nat; intro E;
    apply app_eq_nil in E; destruct E as [_ E]; discriminate E.
Qed.

(** The frame time [end] publishes is the mean of the window. *)
Lemma frameTime_end_frame now dom heap s :
  metrics (end_frame now dom heap s) frameTime
  = sum (frameTimings (end_frame now dom heap s))
    / len (frameTimings (end_frame now dom heap s)).
Proof.
  rewrite frameTimings_end_frame.
  pose proof (@push_capped_nonempty _ 60%nat (now - lastFrameTime s)
                (frameTimings s) ltac:(lia)) as Hne.
  unfold end_frame, detectMemoryLeaks.
  match goal with |- context [if ?b then _ else _] => destruct b end;
    simpl; rewrite frameTime_updateFrameMetrics; simpl;
    destruct (push_capped 60 (now - lastFrameTime s) (frameTimings s));
    try congruence; reflexivity.
Qed.

(** C7, as the code has it.  No sample is tested.  The frame-time sample
    of an [end] that returns, the latency samples, the motion events and the
    controller-input events enter their windows whatever their value, the
    oldest entry leaving at capacity.  A sample that is not finite is not
    dropped: the average published from its window, the frame time, the
    network latency, the motion-to-photon delay or the controller-input lag
    of the snapshot, is then not finite either. *)
Theorem samples_enter_unfiltered :
  (forall window now dom heap s,
      frameTimings (exec (end_ window now dom heap) s)
      = if window && negb (frameStartMark s) then frameTimings s
        else push_capped 60 (now - lastFrameTime s) (frameTimings s))
  /\ (forall startTime endTime random s,
         latencyQueue (measureLatency startTime endTime random s)
         = push_capped 10
             (max (endTime - startTime) #15 + (random * #25 + #10))
             (latencyQueue s))
  /\ (forall random s,
         latencyQueue (measureLatencyFallback random s)
         = push_capped 10 (#30 + random * #40) (latencyQueue s))
  /\ (forall currentTime now s,
         motionHistory (trackMotionToPhotonDelay currentTime now s)
         = push_capped 10 {| Stamp.timestamp := currentTime;
                             Stamp.processed := now |}
                       (motionHistory s))
  /\ (forall inputTime processTime s,
         controllerInputHistory
           (trackControllerInputLag inputTime processTime s)
         = push_capped 20 {| Stamp.timestamp := inputTime;
                             Stamp.processed := processTime |}
                       (controllerInputHistory s))
  /\ (forall window now dom heap s,
         window && negb (frameStartMark s) = false ->
         isFinite (now - lastFrameTime s) = false ->
         isFinite (metrics (exec (end_ window now dom heap) s) frameTime)
         = false)
  /\ (forall startTime endTime random s,
         isFinite (max (endTime - startTime) #15 + (random * #25 + #10))
         = false ->
         isFinite (metrics (measureLatency startTime endTime random s)
                           networkLatency) = false)
  /\ (forall random s,
         isFinite (#30 + random * #40) = false ->
         isFinite (metrics (measureLatencyFallback random s) networkLatency)
         = false)
  /\ (forall currentTime now s,
         isFinite (now - currentTime) = false ->
         isFinite (metrics (trackMotionToPhotonDelay currentTime now s)
                           motionToPhotonDelay) = false)
  /\ (forall inputTime processTime s,
         isFinite (processTime - inputTime) = false ->
         isFinite (metrics (trackControllerInputLag inputTime processTime s)
                           controllerInputLag) = false).
Proof.
  repeat match goal with |- _ /\ _ => split end.
  - intros. rewrite exec_end_.
    destruct (window && negb (frameStartMark s)); [reflexivity|].
    apply frameTimings_end_frame.
  - reflexivity.
  - reflexivity.
  - reflexivity.
  - reflexivity.
  - intros window now dom heap s Hret Hsample.
    rewrite exec_end_, Hret, frameTime_end_frame, frameTimings_end_frame.
    apply div_len_not_finite, sum_not_finite, push_capped_Exists;
      [lia | exact Hsample].
  - intros startTime endTime random s Hsample.
    unfold measureLatency. cbv zeta. rewrite metrics_set_metric_same.
    apply div_len_not_finite, sum_not_finite. cbn [latencyQueue set_latencyQueue].
    apply push_capped_Exists; [lia | exact Hsample].
  - intros random s Hsample.
    unfold measureLatencyFallback. cbv zeta. rewrite metrics_set_metric_same.
    apply div_len_not_finite, sum_not_finite. cbn [latencyQueue set_latencyQueue].
    apply push_capped_Exists; [lia | exact Hsample].
  - intros currentTime now s Hsample.
    unfold trackMotionToPhotonDelay. cbv zeta. rewrite metrics_set_metric_same.
    apply div_len_not_finite, delays_not_finite.
    cbn [motionHistory set_motionHistory].
    apply push_capped_Exists; [lia | exact Hsample].
  - intros inputTime processTime s Hsample.
    unfold trackControllerInputLag. cbv zeta. rewrite metrics_set_metric_same.
    apply div_len_not_finite, delays_not_finite.
    cbn [controllerInputHistory set_controllerInputHistory].
    apply push_capped_Exists; [lia | exact Hsample].
Qed.

Lemma samples_enter_unfiltered_witness :
  isFinite (metrics (trackMotionToPhotonDelay PInf #2 fresh)
                    motionToPhotonDelay) = false
  /\ isFinite (metrics (measureLatency #0 PInf (lit 0.5) fresh)
                       networkLatency) = false
  /\ isFinite (metrics (exec (end_ false #16 no_text None)
                             (set_lastFrameTime NaN fresh))
                       frameTime) = false.
Proof.
  destruct samples_enter_unfiltered
    as (_ & _ & _ & _ & _ & Hframe & Hlatency & _ & Hmotion & _).
  split; [apply Hmotion; reflexivity|].
  split; [apply Hlatency; reflexivity|].
  apply Hframe; reflexivity.
Defined.

(** C7 fails on the code.  After [begin], with NaN written to
    [lastFrameTime], a public field, the frame-time sample of [end] is NaN:
    it enters the window, and the frame time of the snapshot becomes NaN.
    And an XR frame whose timestamp is not finite, after a first frame at 1,
    puts its motion event in the history and makes the motion-to-photon
    delay of the snapshot infinite. *)
Lemma non_finite_sample_enters_window :
  (let s := set_lastFrameTime NaN (begin true #0 (construct a_browser)) in
   let s' := exec (end_ true #16 no_text None) s in
   frameStartMark s = true
   /\ isFinite (#16 - lastFrameTime s) = false
   /\ frameTimings s = []
   /\ frameTimings s' = [NaN]
   /\ metrics s' frameTime = NaN)
  /\ (let s := run (construct a_browser) [MonitorFrame true #1 #1 None] in
      let s' := run s [MonitorFrame true PInf #2 None] in
      motionHistory s = []
      /\ motionHistory s' = [{| Stamp.timestamp := PInf;
                               Stamp.processed := #2 |}]
      /\ metrics s' motionToPhotonDelay = NInf).
Proof. vm_compute. repeat split; reflexivity. Qed.

(* ================================================================== *)
(** ** Frame rates *)
(* ================================================================== *)



Lemma metrics_updateMetric_other dateNow key value s k :
  k <> key ->
  metrics (updateMetric dateNow key value s) k = metrics s k.
Proof.
  intro H. unfold updateMetric. rewrite metrics_set_metric_other by exact H.
  destruct (changeOf dateNow s key value); reflexivity.
Qed.












(* ================================================================== *)
(** ** Disposal *)
(* ================================================================== *)

(** C9, as the code has it.  [dispose] returns, whatever was initialised:
    it disconnects the two observers and clears the latency interval, those
    there are, and leaves everything else as it was, the queries in flight
    among it: none is deleted.  A second call changes nothing more. *)
Theorem dispose_releases_observers_and_interval :
  forall s : Monitor,
    let s' := exec dispose s in
    returns dispose s = true
    /\ performanceObserver s' = option_map disconnect (performanceObserver s)
    /\ gcObserver s' = option_map disconnect (gcObserver s)
    /\ latencyTestInterval s'
       = option_map clearInterval (latencyTestInterval s)
    /\ (forall o, performanceObserver s' = Some o \/ gcObserver s' = Some o ->
                  observing o = false)
    /\ (forall i, latencyTestInterval s' = Some i -> running i = false)
    /\ timerQueries s' = timerQueries s
    /\ deletedQueries s' = deletedQueries s
    /\ returns dispose s' = true
    /\ exec dispose s' = s'.
Proof.
  intros s s'. subst s'.
  destruct s as [ft lft mb xs lq lti xst lxt cih mh ge tq gta po gc rc sc m mem
                   ml ch pm dq].
  destruct po as [po|], gc as [gc|], lti as [lti|]; cbn;
    repeat split; try reflexivity;
    try (intros o [E|E]; inversion E; reflexivity);
    try (intros i E; inversion E; reflexivity).
Qed.

(** C9 fails on the code: a query in flight when [dispose] is called stays
    in the pool, and its native object is not deleted. *)
Lemma dispose_leaves_queries_in_flight :
  let s := run (construct a_browser) [issue (timer_extension true) 7%nat] in
  let s' := step s Dispose in
  map query (timerQueries s) = [7%nat]
  /\ map query (timerQueries s') = [7%nat]
  /\ ~ In 7%nat (deletedQueries s').
Proof.
  vm_compute. split; [reflexivity|]. split; [reflexivity|]. intros [].
Qed.

Lemma dispose_releases_observers_and_interval_witness :
  let s' := exec dispose (construct a_browser) in
  returns dispose (construct a_browser) = true
  /\ observing {| observing := false |} = false
  /\ running {| handle := 1%nat; running := false |} = false
  /\ exec dispose s' = s'
  /\ returns dispose fresh = true.
Proof.
  intro s'.
  destruct (dispose_releases_observers_and_interval (construct a_browser))
    as (Hret & _ & _ & _ & Hobs & Hint & _ & _ & _ & Hidem).
  destruct (dispose_releases_observers_and_interval fresh) as (Hret' & _).
  split; [exact Hret|].
  split; [apply Hobs; left; reflexivity|].
  split; [apply Hint; reflexivity|].
  split; [exact Hidem|exact Hret'].
Defined.

(* ================================================================== *)
(** ** Render-call timing *)
(* ================================================================== *)




(** A finite number of the language times a factor between -1 and 1 is
    finite. *)
Lemma mul_double_finite x (c : Q) :
  isFinite x = true -> is_double x = true ->
  (- 1 <= c)%Q -> (c <= 1)%Q -> isFinite (x * Fin c) = true.
Proof.
  intros Hx Dx Lc Uc. destruct x as [| | |q]; try discriminate Hx.
  destruct (@double_bound q Dx) as (d & Dd & Lo & Hi).
  destruct (@mul_within d q c Dd Lo Hi Lc Uc) as (r & -> & _).
  reflexivity.
Qed.


Lemma add_not_nan_l x y :
  isFinite x = true -> is_nan y = false -> is_nan (x + y) = false.
Proof.
  destruct x as [| | |a], y as [| | |b]; intros Hx Hy; try discriminate;
    try reflexivity.
  apply round64_not_nan.
Qed.




(* ================================================================== *)
(** ** The rating of a metric *)
(* ================================================================== *)

(** Case analysis on every [Qle_bool] of the goal. *)
Ltac qle_cases :=
  repeat match goal with
         | |- context [Qle_bool ?a ?b] =>
             let E := fresh "E" in
             destruct (Qle_bool a b) eqn:E;
             [apply Qle_bool_iff in E
             |assert (~ (a <= b)%Q)
                by (let H := fresh in intro H; apply Qle_bool_iff in H;
                    congruence);
              clear E]
         end.

(** X1.  The rating of [getMetricSeverity] follows the direction of the
    metric: a higher FPS is never rated worse, and a lower frame duration or
    draw-call count is never rated worse.  A value that is NaN is rated
    danger for each of the three. *)
Theorem getMetricSeverity_monotone :
  forall (s : Monitor) (a b : num),
    (le a b = true ->
     (badness (getMetricSeverity s "fps" b)
      <= badness (getMetricSeverity s "fps" a))%nat
     /\ (badness (getMetricSeverity s "ms" a)
         <= badness (getMetricSeverity s "ms" b))%nat
     /\ (badness (getMetricSeverity s "drawCalls" a)
         <= badness (getMetricSeverity s "drawCalls" b))%nat)
    /\ getMetricSeverity s "fps" NaN = danger
    /\ getMetricSeverity s "ms" NaN = danger
    /\ getMetricSeverity s "drawCalls" NaN = danger.
Proof.
  intros s a b. split; [|repeat split].
  intro Hab. unfold getMetricSeverity, ge. simpl String.eqb. cbv iota.
  destruct a as [| | |a], b as [| | |b]; try discriminate Hab;
    try (rewrite le_Fin in Hab; apply Qle_bool_iff in Hab);
    rewrite ?le_Fin; cbn -[Qltb Qeq_bool Qle_bool];
    repeat split; qle_cases;
    repeat match goal with
           | |- context [Qltb ?x ?y] => destruct (Qltb x y)
           | |- context [Qeq_bool ?x ?y] => destruct (Qeq_bool x y)
           end;
    cbn; try lia; exfalso; lra.
Qed.

Lemma getMetricSeverity_monotone_witness :
  (badness (getMetricSeverity fresh "fps" #60)
   <= badness (getMetricSeverity fresh "fps" #20))%nat
  /\ (badness (getMetricSeverity fresh "ms" #20)
      <= badness (getMetricSeverity fresh "ms" #60))%nat
  /\ (badness (getMetricSeverity fresh "drawCalls" #20)
      <= badness (getMetricSeverity fresh "drawCalls" #60))%nat.
Proof.
  destruct (getMetricSeverity_monotone fresh #20 #60) as (H & _).
  apply H. reflexivity.
Defined.

(** X2.  Memory is rated from the heap readout of the snapshot, whatever
    value is passed.  While the heap limit of the readout is 0, as it is from
    construction until a heap readout arrives, the rating is danger: the
    usage is a division by zero. *)
Theorem getMetricSeverity_memory_without_limit :
  (forall (s : Monitor) (value : num) (u l : Q),
      used (memory s) = Fin u -> limit (memory s) = Fin l ->
      (0 <= u)%Q -> (l == 0)%Q ->
      getMetricSeverity s "memory" value = danger)
  /\ (forall (b : Browser) (value : num),
         getMetricSeverity (construct b) "memory" value = danger)
  /\ (forall (s : Monitor) (value value' : num),
         getMetricSeverity s "memory" value
         = getMetricSeverity s "memory" value').
Proof.
  split; [|split].
  - intros s value u l Hu Hl Pu Pl.
    unfold getMetricSeverity. simpl String.eqb. cbv iota.
    rewrite Hu, Hl. unfold div.
    assert (E : Qeq_bool l 0 = true) by (apply Qeq_bool_true; exact Pl).
    rewrite E. unfold inf_times, Qpos_b, Qneg_b.
    destruct (Qltb 0 u) eqn:E1; [reflexivity|].
    destruct (Qltb u 0) eqn:E2; [exfalso; q_props; lra|reflexivity].
  - intros b value.
    unfold construct, initializeGCObserver, startLatencyMonitoring,
      initializeMemoryBaseline, initializePerformanceObserver.
    break_tests; reflexivity.
  - reflexivity.
Qed.

Lemma getMetricSeverity_memory_without_limit_witness :
  getMetricSeverity (set_memory {| used := #2048; total := #0; limit := #0 |}
                       fresh) "memory" #10 = danger.
Proof.
  destruct getMetricSeverity_memory_without_limit as (H & _).
  apply (H _ #10 2048 0); try reflexivity. discriminate.
Defined.

(* ================================================================== *)
(** ** The leak flag *)
(* ================================================================== *)

Lemma memoryBaseline_updateMetric dateNow key value s :
  memoryBaseline (updateMetric dateNow key value s) = memoryBaseline s.
Proof.
  unfold updateMetric. destruct (changeOf dateNow s key value); reflexivity.
Qed.

Lemma memoryBaseline_updateFrameMetrics dom h s :
  memoryBaseline (updateFrameMetrics dom h s) = memoryBaseline s.
Proof.
  unfold updateFrameMetrics.
  destruct (fpsText dom), (msText dom), h; simpl;
    destruct (0 <? List.length (frameTimings s))%nat; simpl;
    destruct (xrSession s) as [[[[r|]|]]|]; reflexivity.
Qed.

Lemma memoryBaseline_step v s c :
  memoryBaseline s = v -> memoryBaseline (step s c) = v.
Proof.
  intro H. destruct c; cbn [step].
  - unfold begin. destruct window; exact H.
  - rewrite exec_end_. destruct (window && negb (frameStartMark s));
      [exact H|].
    unfold end_frame, detectMemoryLeaks.
    match goal with |- context [if ?b then _ else _] => destruct b end;
      simpl; rewrite memoryBaseline_updateFrameMetrics; exact H.
  - revert s H. induction entries as [|e rest IH]; intros s H; simpl;
      [exact H|].
    apply IH. unfold onPerformanceEntry.
    destruct (entryType e); rewrite ?memoryBaseline_updateMetric; exact H.
  - revert s H. induction entries as [|e rest IH]; intros s H; simpl;
      [exact H|].
    apply IH. unfold onGCEntry. destruct (fst e); exact H.
  - exact H.
  - exact H.
  - apply (@preserves_updateRendererStats (fun s => memoryBaseline s = v));
      try exact H; clear; intros;
      rewrite ?memoryBaseline_updateMetric; assumption.
  - apply (@preserves_endGPUTiming (fun s => memoryBaseline s = v));
      try exact H; clear; intros; assumption.
  - exact H.
  - exact H.
  - exact H.
  - unfold monitorFrame, trackXRFrame, trackMotionToPhotonDelay.
    destruct predicted, (lastXRFrameTime s >? #0), inputSources; exact H.
  - exact H.
  - exact H.
  - unfold endRenderCall. break_tests; exact H.
  - exact H.
  - unfold endShaderCompile. destruct (shaderCompileStartTime s >? #0);
      exact H.
  - unfold updateAdvancedTiming. destruct window; exact H.
  - apply (@preserves_dispose (fun s => memoryBaseline s = v));
      [intros o s' H'; split; exact H' | intros i s' H'; exact H' | exact H].
Qed.

(** X3.  The baseline of the leak heuristic is the heap use read at
    construction (0 when there is no readout), and no call changes it.
    After every [end] that returns the leak flag says exactly whether the
    heap use of the snapshot exceeds twice the baseline, so it clears as
    soon as the use drops back; an [end] that throws leaves the monitor as
    it is. *)
Theorem memoryLeaks_against_fixed_baseline :
  (forall (b : Browser),
      memoryBaseline (construct b)
      = match heap b with
        | Some m => if has_window b then used m else #0
        | None => #0
        end)
  /\ (forall (b : Browser) (calls : list Call),
         memoryBaseline (run (construct b) calls)
         = memoryBaseline (construct b))
  /\ (forall window now dom h s,
         let s' := exec (end_ window now dom h) s in
         if window && negb (frameStartMark s) then s' = s
         else memory s' = match h with Some m => m | None => memory s end
              /\ memoryLeaks s'
                 = (used (memory s') >? memoryBaseline s * #2)).
Proof.
  split; [|split].
  - intro b. unfold construct, initializeGCObserver, startLatencyMonitoring,
      initializeMemoryBaseline, initializePerformanceObserver.
    destruct (heap b), (has_window b), (has_PerformanceObserver b);
      reflexivity.
  - intros b calls. unfold run.
    assert (H : forall calls s v, memoryBaseline s = v ->
                  memoryBaseline (fold_left step calls s) = v).
    { clear. induction calls as [|c rest IH]; intros s v H; simpl; [exact H|].
      apply IH, memoryBaseline_step, H. }
    apply H. reflexivity.
  - intros window now dom h s s'. subst s'. rewrite exec_end_.
    destruct (window && negb (frameStartMark s)); [reflexivity|].
    assert (Hm : memory (updateFrameMetrics dom h
                   (set_frameTimings
                      (push_capped 60 (now - lastFrameTime s) (frameTimings s))
                      s))
                 = match h with Some m => m | None => memory s end).
    { unfold updateFrameMetrics.
      destruct (fpsText dom), (msText dom), h; simpl;
        destruct (0 <? List.length _)%nat; simpl;
        destruct (xrSession s) as [[[[r|]|]]|]; reflexivity. }
    unfold end_frame, detectMemoryLeaks.
    rewrite memoryBaseline_updateFrameMetrics. simpl memoryBaseline.
    destruct (used (memory (updateFrameMetrics dom h _))
              >? memoryBaseline s * #2) eqn:E; simpl;
      rewrite Hm; split; try reflexivity;
      rewrite Hm in E; symmetry; exact E.
Qed.

(* ================================================================== *)
(** ** The estimator as a function of the load *)
(* ================================================================== *)

Lemma estimateGPUTime_other_metrics s k :
  k <> gpuFrameTime -> metrics (estimateGPUTime s) k = metrics s k.
Proof.
  intro Hk. unfold estimateGPUTime.
  match goal with |- context [if ?b then _ else _] => destruct b end;
    destruct k; try congruence; reflexivity.
Qed.

Lemma le_Fin_iff (a b : Q) : le (Fin a) (Fin b) = true <-> (a <= b)%Q.
Proof. rewrite le_Fin. apply Qle_bool_iff. Qed.

(** A sum grows with its terms, the second ones being finite. *)
Lemma add_le_finite x x' y y' :
  le x x' = true -> le y y' = true ->
  isFinite y = true -> isFinite y' = true ->
  le (x + y) (x' + y') = true.
Proof.
  intros Hx Hy Fy Fy'. destruct (le_not_nan _ _ Hx) as [Nx Nx'].
  apply add_le_compat; try assumption; apply add_not_nan; assumption.
Qed.

(** A number of the language divided by a divisor of 1 or more and then
    multiplied by a factor between -1 and 1 is finite. *)
Lemma div_mul_double_finite (q c1 c2 : Q) :
  is_double (Fin q) = true -> (1 <= c1)%Q -> (- 1 <= c2)%Q -> (c2 <= 1)%Q ->
  isFinite ((Fin q / Fin c1) * Fin c2) = true.
Proof.
  intros Dq H1 L2 U2.
  destruct (@double_bound q Dq) as (d & Dd & Lo & Hi).
  destruct (@div_within d q c1 Dd Lo Hi H1) as (r & -> & Lr & Ur).
  destruct (@mul_within d r c2 Dd Lr Ur L2 U2) as (r' & -> & _).
  reflexivity.
Qed.

(** The raw estimate grows with the load. *)
Lemma estimatedGPUTime_le s s' dc tr fc tx dc' tr' fc' tx' :
  metrics s drawCalls = Fin dc -> metrics s' drawCalls = Fin dc' ->
  metrics s triangles = Fin tr -> metrics s' triangles = Fin tr' ->
  metrics s gpuFragmentComplexity = Fin fc ->
  metrics s' gpuFragmentComplexity = Fin fc' ->
  metrics s textures = Fin tx -> metrics s' textures = Fin tx' ->
  is_double (Fin dc) = true -> is_double (Fin dc') = true ->
  is_double (Fin tr) = true -> is_double (Fin tr') = true ->
  is_double (Fin fc) = true -> is_double (Fin fc') = true ->
  is_double (Fin tx) = true -> is_double (Fin tx') = true ->
  (dc <= dc')%Q -> (tr <= tr')%Q -> (fc <= fc')%Q -> (tx <= tx')%Q ->
  le (estimatedGPUTime s) (estimatedGPUTime s') = true.
Proof.
  intros Hdc Hdc' Htr Htr' Hfc Hfc' Htx Htx'
    Ddc Ddc' Dtr Dtr' Dfc Dfc' Dtx Dtx' Ldc Ltr Lfc Ltx.
  unfold estimatedGPUTime. cbv zeta.
  rewrite Hdc, Hdc', Htr, Htr', Hfc, Hfc', Htx, Htx'. eval_lits.
  repeat apply add_le_finite;
    try (apply mul_double_finite; try assumption; try reflexivity; lra);
    try (apply div_mul_double_finite; try assumption; lra);
    try reflexivity;
    repeat first [apply mul_le_compat_r; [reflexivity|]
                 | apply div_le_compat_r; [reflexivity|]];
    apply le_Fin_iff; assumption.
Qed.

(** X6. The fallback estimate is monotone in everything it reads: of two
    monitors with finite metrics, numbers of the language, the one with no
    fewer draw calls, triangles, shader complexity and textures, no smaller
    previous GPU frame time and no shorter frame publishes no smaller GPU
    frame time. *)
Theorem estimateGPUTime_monotone :
  forall (s s' : Monitor) (dc tr fc tx ft prev dc' tr' fc' tx' ft' prev' : Q),
    metrics s drawCalls = Fin dc -> metrics s' drawCalls = Fin dc' ->
    metrics s triangles = Fin tr -> metrics s' triangles = Fin tr' ->
    metrics s gpuFragmentComplexity = Fin fc ->
    metrics s' gpuFragmentComplexity = Fin fc' ->
    metrics s textures = Fin tx -> metrics s' textures = Fin tx' ->
    metrics s frameTime = Fin ft -> metrics s' frameTime = Fin ft' ->
    metrics s gpuFrameTime = Fin prev -> metrics s' gpuFrameTime = Fin prev' ->
    is_double (Fin dc) = true -> is_double (Fin dc') = true ->
    is_double (Fin tr) = true -> is_double (Fin tr') = true ->
    is_double (Fin fc) = true -> is_double (Fin fc') = true ->
    is_double (Fin tx) = true -> is_double (Fin tx') = true ->
    is_double (Fin ft) = true -> is_double (Fin ft') = true ->
    is_double (Fin prev) = true -> is_double (Fin prev') = true ->
    (dc <= dc')%Q -> (tr <= tr')%Q -> (fc <= fc')%Q -> (tx <= tx')%Q ->
    (ft <= ft')%Q -> (prev <= prev')%Q ->
    exists g g',
      metrics (estimateGPUTime s) gpuFrameTime = Fin g
      /\ metrics (estimateGPUTime s') gpuFrameTime = Fin g'
      /\ (g <= g')%Q.
Proof.
  intros s s' dc tr fc tx ft prev dc' tr' fc' tx' ft' prev'
    Hdc Hdc' Htr Htr' Hfc Hfc' Htx Htx' Hft Hft' Hprev Hprev'
    Ddc Ddc' Dtr Dtr' Dfc Dfc' Dtx Dtx' Dft Dft' Dprev Dprev'
    Ldc Ltr Lfc Ltx Lft Lprev.
  pose proof (@estimatedGPUTime_le s s' dc tr fc tx dc' tr' fc' tx'
                Hdc Hdc' Htr Htr' Hfc Hfc' Htx Htx'
                Ddc Ddc' Dtr Dtr' Dfc Dfc' Dtx Dtx' Ldc Ltr Lfc Ltx) as Le.
  rewrite (estimateGPUTime_published s), (estimateGPUTime_published s').
  rewrite Hprev, Hprev', Hft, Hft'.
  replace (#1 - lit 0.3) with (lit 0.7) by (vm_compute; reflexivity).
  (* the smoothed values *)
  assert (Fp : isFinite (Fin prev * lit 0.7) = true).
  { eval_lits. apply mul_double_finite; try assumption; try reflexivity; lra. }
  assert (Fp' : isFinite (Fin prev' * lit 0.7) = true).
  { eval_lits. apply mul_double_finite; try assumption; try reflexivity; lra. }
  assert (Le3 : le (estimatedGPUTime s * lit 0.3)
                   (estimatedGPUTime s' * lit 0.3) = true).
  { eval_lits. apply mul_le_compat_r; [reflexivity | exact Le]. }
  destruct (le_not_nan _ _ Le3) as [N3 N3'].
  assert (Lsm : le (Fin prev * lit 0.7 + estimatedGPUTime s * lit 0.3)
                   (Fin prev' * lit 0.7 + estimatedGPUTime s' * lit 0.3)
                = true).
  { apply add_le_compat; try exact Le3;
      try (apply add_not_nan_l; assumption).
    eval_lits. apply mul_le_compat_r; [reflexivity|].
    apply le_Fin_iff. exact Lprev. }
  destruct (le_not_nan _ _ Lsm) as [Nsm Nsm'].
  (* the caps *)
  assert (Fc : isFinite (Fin ft * lit 0.8) = true).
  { eval_lits. apply mul_double_finite; try assumption; try reflexivity; lra. }
  assert (Fc' : isFinite (Fin ft' * lit 0.8) = true).
  { eval_lits. apply mul_double_finite; try assumption; try reflexivity; lra. }
  assert (Lc : le (Fin ft * lit 0.8) (Fin ft' * lit 0.8) = true).
  { eval_lits. apply mul_le_compat_r; [reflexivity|].
    apply le_Fin_iff. exact Lft. }
  pose proof (@max_le_compat #0.5 #0.5 _ _ eq_refl
                (@min_le_compat _ _ _ _ Lsm Lc)) as Lg.
  destruct (Fin ft * lit 0.8) as [| | |c8]; try discriminate Fc.
  destruct (Fin ft' * lit 0.8) as [| | |c8']; try discriminate Fc'.
  destruct (@clamp_finite _ c8 Nsm) as (g & Eg & _).
  destruct (@clamp_finite _ c8' Nsm') as (g' & Eg' & _).
  rewrite Eg, Eg' in Lg |- *.
  exists g, g'. split; [reflexivity|]. split; [reflexivity|].
  apply le_Fin_iff. exact Lg.
Qed.

Lemma estimateGPUTime_monotone_witness :
  exists g g',
    metrics (estimateGPUTime (scenario #0)) gpuFrameTime = Fin g
    /\ metrics (estimateGPUTime (scenario #10)) gpuFrameTime = Fin g'
    /\ (g <= g')%Q.
Proof.
  apply (@estimateGPUTime_monotone (scenario #0) (scenario #10)
           200 50000 300 10 16 0 200 50000 300 10 16 10);
    try reflexivity; lra.
Defined.

(** X8. For every state, numbers that are not finite included, the estimator
    publishes the smoothed value clamped between 0.5 and 0.8 times the frame
    time, and that value is never 0: the last test of the method, which asks
    for a published 0, never holds.  A GPU frame time that is NaN stays
    NaN, and a frame time that is NaN makes it so. *)
Theorem estimateGPUTime_never_zero :
  forall s : Monitor,
    let published := metrics (estimateGPUTime s) gpuFrameTime in
    published
    = max #0.5 (min (metrics s gpuFrameTime * (#1 - lit 0.3)
                     + estimatedGPUTime s * lit 0.3)
                    (metrics s frameTime * lit 0.8))
    /\ strict_eq published #0 = false
    /\ (is_nan (metrics s gpuFrameTime) || is_nan (metrics s frameTime) = true
        -> published = NaN).
Proof.
  intros s published.
  pose proof (estimateGPUTime_published s) as E. fold published in E.
  split; [exact E|]. split.
  - rewrite E. apply max_half_not_zero.
  - intro H. rewrite E.
    generalize (estimatedGPUTime s * lit 0.3). generalize (#1 - lit 0.3).
    intros c e3.
    destruct (metrics s gpuFrameTime) as [| | |p]; [reflexivity| | |];
      (destruct (metrics s frameTime) as [| | |f]; try discriminate H);
      cbn [mul]; match goal with
                 | |- max _ (min ?x NaN) = NaN => destruct x; reflexivity
                 end.
Qed.

Lemma estimateGPUTime_never_zero_witness :
  metrics (estimateGPUTime (set_metric frameTime NaN fresh)) gpuFrameTime = NaN.
Proof.
  destruct (estimateGPUTime_never_zero (set_metric frameTime NaN fresh))
    as (_ & _ & H).
  apply H. reflexivity.
Defined.

(* ================================================================== *)
(** ** Exceptions of the host *)
(* ================================================================== *)

Lemma never_throws_ret {A : Type} (a : A) : never_throws (ret a).
Proof. intro s. reflexivity. Qed.

Lemma never_throws_gets {A : Type} (f : Monitor -> A) : never_throws (gets f).
Proof. intro s. reflexivity. Qed.

Lemma never_throws_modify (f : Monitor -> Monitor) : never_throws (modify f).
Proof. intro s. reflexivity. Qed.

Lemma never_throws_bind {A B : Type} (m : M A) (k : A -> M B) :
  never_throws m -> (forall a, never_throws (k a)) -> never_throws (bind m k).
Proof.
  intros Hm Hk s. specialize (Hm s). unfold returns, bind in *.
  destruct (m s) as [[a|] s1]; simpl in *; [apply Hk | discriminate].
Qed.

Lemma never_throws_try_catch {A : Type} (body handler : M A) :
  never_throws handler -> never_throws (try_catch body handler).
Proof.
  intros Hh s. unfold returns, try_catch.
  destruct (body s) as [[a|] s1]; simpl; [reflexivity | apply Hh].
Qed.

(** Splits the proof that a computation returns along its structure. *)
Ltac never_throws_structure :=
  repeat lazymatch goal with
         | |- never_throws (ret _) => apply never_throws_ret
         | |- never_throws (gets _) => apply never_throws_gets
         | |- never_throws (modify _) => apply never_throws_modify
         | |- never_throws (bind _ _) => apply never_throws_bind; [|intro]
         | |- never_throws (try_catch _ _) => apply never_throws_try_catch
         | |- never_throws (deref (Some ?a)) => apply (never_throws_ret a)
         | |- never_throws (if non_null ?r then _ else _) =>
             destruct r; cbn [non_null]
         | |- never_throws (if ?b then _ else _) => destruct b
         | |- never_throws (match ?x with _ => _ end) => destruct x
         end.

(** What holds after [m ;; k] when [m] returns and keeps [I]. *)
Lemma exec_bind_post {A B : Type} (I Q : Monitor -> Prop)
  (m : M A) (k : A -> M B) :
  preserves I m -> never_throws m ->
  (forall a s, I s -> Q (exec (k a) s)) ->
  forall s, I s -> Q (exec (bind m k) s).
Proof.
  intros Hp Hn Hk s H. specialize (Hp s H). specialize (Hn s).
  unfold exec, bind, returns in *.
  destruct (m s) as [[a|] s1]; simpl in *; [apply Hk, Hp | discriminate].
Qed.

Lemma never_throws_initializeGPUMonitoring gl :
  never_throws (initializeGPUMonitoring gl).
Proof. unfold initializeGPUMonitoring. never_throws_structure. Qed.

Lemma never_throws_updateGPUMetrics info gl :
  never_throws (updateGPUMetrics info gl).
Proof. unfold updateGPUMetrics. never_throws_structure. Qed.

(** X10. Whatever the GL context and the timer extension do, calls that
    throw included, [updateRendererStats], [endGPUTiming] and [dispose]
    return, and so do the private methods [initializeGPUMonitoring],
    [measureGPUTiming] and [processGPUQueries]. *)
Theorem gpu_methods_never_throw :
  forall (dateNow : num) (info : RendererInfo) (gl : GLHost),
    never_throws (updateRendererStats dateNow info gl)
    /\ never_throws (endGPUTiming gl)
    /\ never_throws dispose
    /\ never_throws (initializeGPUMonitoring gl)
    /\ never_throws (measureGPUTiming gl)
    /\ never_throws (processGPUQueries gl).
Proof.
  intros dateNow info gl. repeat split.
  - unfold updateRendererStats. never_throws_structure;
      try apply never_throws_initializeGPUMonitoring;
      apply never_throws_updateGPUMetrics.
  - unfold endGPUTiming. never_throws_structure.
  - unfold dispose. never_throws_structure.
  - apply never_throws_initializeGPUMonitoring.
  - unfold measureGPUTiming. never_throws_structure.
  - unfold processGPUQueries. never_throws_structure.
Qed.

(** The renderer statistics leave the metrics of the frame alone. *)
Lemma frameTime_updateRendererStats_prefix v :
  let I := fun s => metrics s frameTime = v in
  (forall dateNow k value,
      In k [drawCalls; triangles; geometries; textures; programs] ->
      preserves I (modify (updateMetric dateNow k value)))
  /\ (forall gl, preserves I (initializeGPUMonitoring gl))
  /\ (forall info gl, preserves I (updateGPUMetrics info gl)).
Proof.
  intro I. subst I. split; [|split].
  - intros dateNow k value Hk. apply preserves_modify. intros s H.
    rewrite metrics_updateMetric_other; [exact H|].
    simpl in Hk. intuition (subst; discriminate).
  - intro gl. apply preserves_initializeGPUMonitoring; intros; assumption.
  - intros info gl. apply preserves_updateGPUMetrics; intros;
      try assumption;
      try (rewrite metrics_set_metric_other; [assumption|]);
      try (rewrite estimateGPUTime_other_metrics; [assumption|]);
      try discriminate.
    + match goal with H : In _ _ |- _ => simpl in H end.
      intuition (subst; discriminate).
Qed.

(** X11. [updateRendererStats] leaves the frame time of the snapshot as it
    is, and when that frame time is above 0 the GPU frame time it leaves is
    not 0, with or without the timer extension and whatever the GL context
    does. *)
Theorem updateRendererStats_publishes_gpu_time :
  forall (dateNow : num) (info : RendererInfo) (gl : GLHost) (s : Monitor),
    let s' := exec (updateRendererStats dateNow info gl) s in
    metrics s' frameTime = metrics s frameTime
    /\ ((metrics s frameTime >? #0) = true ->
        strict_eq (metrics s' gpuFrameTime) #0 = false).
Proof.
  intros dateNow info gl s s'. subst s'.
  set (v := metrics s frameTime).
  destruct (frameTime_updateRendererStats_prefix v) as (Hm & Hi & Hg).
  pattern (exec (updateRendererStats dateNow info gl) s).
  unfold updateRendererStats.
  repeat (eapply exec_bind_post with (I := fun s => metrics s frameTime = v);
          [ first [ apply Hm; simpl; tauto
                  | match goal with
                    | |- preserves _ (gets glExtension) => apply preserves_gets
                    end
                  | apply Hg
                  | match goal with
                    | |- preserves _ (if ?b then _ else _) =>
                        destruct b; [apply Hi | apply preserves_ret]
                    end ]
          | first [ apply never_throws_modify
                  | apply never_throws_gets
                  | apply never_throws_updateGPUMetrics
                  | match goal with
                    | |- never_throws (if ?b then _ else _) =>
                        destruct b;
                        [apply never_throws_initializeGPUMonitoring
                        | apply never_throws_ret]
                    end ]
          | intros ? ? ?
          | ]);
    try assumption; try reflexivity.
  match goal with
  | H : metrics ?s1 frameTime = v |- context [exec _ ?s1] => rename H into Hv
  end.
  unfold exec, bind, gets. cbv beta iota.
  match goal with
  | |- context [if ?c then _ else _] => destruct c eqn:Ec
  end; unfold modify, ret; cbn [snd fst].
  - split.
    + rewrite estimateGPUTime_other_metrics by discriminate. exact Hv.
    + intros _. rewrite estimateGPUTime_published. apply max_half_not_zero.
  - split; [exact Hv|]. intro Hpos.
    apply andb_false_iff in Ec. destruct Ec as [Ec|Ec]; [exact Ec|].
    rewrite Hv in Ec. rewrite Hpos in Ec. discriminate Ec.
Qed.

Lemma updateRendererStats_publishes_gpu_time_witness :
  strict_eq
    (metrics (exec (updateRendererStats #1 idle_renderer gl_without_timer)
                (set_metric frameTime #16 fresh)) gpuFrameTime) #0 = false.
Proof.
  apply (updateRendererStats_publishes_gpu_time #1 idle_renderer
           gl_without_timer (set_metric frameTime #16 fresh)).
  reflexivity.
Defined.

(* ================================================================== *)
(** ** Giving up the timer extension *)
(* ================================================================== *)

Lemma preserves_bind_gets {A B : Type} (I : Monitor -> Prop)
  (f : Monitor -> A) (k : A -> M B) :
  (forall s, I s -> I (snd (k (f s) s))) -> preserves I (bind (gets f) k).
Proof. intros H s Hs. unfold bind, gets. apply H, Hs. Qed.

Section GivenUp.

Variable ext : GLExtension.
Variable qs : list QueryData.
Variable ds : list WebGLQuery.

Lemma given_up_updateMetric dateNow key value s :
  timer_given_up ext qs ds s ->
  timer_given_up ext qs ds (updateMetric dateNow key value s).
Proof.
  intro H. unfold updateMetric.
  destruct (changeOf dateNow s key value); exact H.
Qed.

Lemma given_up_estimateGPUTime s :
  timer_given_up ext qs ds s -> timer_given_up ext qs ds (estimateGPUTime s).
Proof.
  intro H. unfold estimateGPUTime.
  match goal with |- context [if ?b then _ else _] => destruct b end; exact H.
Qed.

Lemma given_up_updateGPUMetrics info gl :
  preserves (timer_given_up ext qs ds) (updateGPUMetrics info gl).
Proof.
  unfold updateGPUMetrics.
  apply preserves_try_catch; [|apply preserves_ret].
  do 5 (apply preserves_bind;
        [apply preserves_modify; intros s H; exact H | intros _]).
  apply preserves_bind_gets. intros s H.
  unfold bind, gets. cbv beta iota.
  destruct H as (He & Ha & Hq & Hd). rewrite Ha. cbn [andb snd ret].
  repeat split; assumption.
Qed.

Lemma given_up_updateRendererStats dateNow info gl :
  preserves (timer_given_up ext qs ds) (updateRendererStats dateNow info gl).
Proof.
  unfold updateRendererStats.
  do 5 (apply preserves_bind;
        [apply preserves_modify; intros s H;
         apply given_up_updateMetric, H | intros _]).
  apply preserves_bind_gets. intros s H.
  pose proof H as (He & _). rewrite He. cbn [non_null negb]. clear He.
  revert s H.
  change (preserves (timer_given_up ext qs ds)
            (ret tt ;;;
             updateGPUMetrics info gl ;;;
             s <- gets (fun s => s) ;;
             (if strict_eq (metrics s gpuFrameTime) #0
                 && (metrics s frameTime >? #0)
              then modify estimateGPUTime else ret tt))).
  apply preserves_bind; [apply preserves_ret | intros _].
  apply preserves_bind; [apply given_up_updateGPUMetrics | intros _].
  apply preserves_bind; [apply preserves_gets | intro s0].
  match goal with |- context [if ?b then _ else _] => destruct b end;
    [apply preserves_modify; exact given_up_estimateGPUTime
    | apply preserves_ret].
Qed.

Lemma given_up_endGPUTiming gl :
  preserves (timer_given_up ext qs ds) (endGPUTiming gl).
Proof.
  unfold endGPUTiming.
  apply preserves_try_catch;
    [|apply preserves_modify; intros s (He & Ha & Hq & Hd);
      repeat split; assumption].
  apply preserves_bind_gets. intros s H.
  unfold bind, gets. cbv beta iota.
  destruct H as (He & Ha & Hq & Hd). rewrite He, Ha. cbn [negb snd ret].
  repeat split; assumption.
Qed.

Lemma given_up_step s c :
  timer_given_up ext qs ds s -> timer_given_up ext qs ds (step s c).
Proof.
  intro H. destruct c; cbn [step].
  - unfold begin. destruct window; exact H.
  - rewrite exec_end_. destruct (window && negb (frameStartMark s));
      [exact H|].
    unfold end_frame, detectMemoryLeaks, updateFrameMetrics.
    break_tests; exact H.
  - revert s H. induction entries as [|e rest IH]; intros s H; simpl;
      [exact H|].
    apply IH. unfold onPerformanceEntry.
    destruct (entryType e); try apply given_up_updateMetric; exact H.
  - revert s H. induction entries as [|e rest IH]; intros s H; simpl;
      [exact H|].
    apply IH. unfold onGCEntry. destruct (fst e); exact H.
  - exact H.
  - exact H.
  - apply given_up_updateRendererStats, H.
  - apply given_up_endGPUTiming, H.
  - exact H.
  - exact H.
  - exact H.
  - unfold monitorFrame, trackXRFrame, trackMotionToPhotonDelay.
    destruct predicted, (lastXRFrameTime s >? #0), inputSources; exact H.
  - exact H.
  - exact H.
  - unfold endRenderCall. break_tests; exact H.
  - exact H.
  - unfold endShaderCompile. destruct (shaderCompileStartTime s >? #0);
      exact H.
  - unfold updateAdvancedTiming. destruct window; exact H.
  - apply (@preserves_dispose (timer_given_up ext qs ds));
      [intros o s' H'; split; exact H' | intros i s' H'; exact H' | exact H].
Qed.

End GivenUp.

(** X12. Once the monitor holds the timer extension and has switched GPU
    timing off, no sequence of calls switches it on again: the extension is
    never asked again, and the queries the monitor still holds are neither
    retired nor deleted. *)
Theorem gpu_timing_stays_off :
  forall (ext : GLExtension) (s : Monitor) (calls : list Call),
    glExtension s = Some ext ->
    gpuTimerAvailable s = false ->
    let s' := run s calls in
    glExtension s' = Some ext
    /\ gpuTimerAvailable s' = false
    /\ timerQueries s' = timerQueries s
    /\ deletedQueries s' = deletedQueries s.
Proof.
  intros ext s calls He Ha s'. subst s'.
  assert (H : timer_given_up ext (timerQueries s) (deletedQueries s) s).
  { repeat split; assumption. }
  clear He Ha. revert H.
  generalize (timerQueries s) (deletedQueries s). intros qs ds.
  revert s. unfold run.
  induction calls as [|c rest IH]; intros s H; simpl; [exact H|].
  apply IH, given_up_step, H.
Qed.

Lemma gpu_timing_stays_off_witness :
  let ext := timer_extension true in
  let s := run (construct a_browser)
             [issue ext 1%nat; EndGPUTiming (gl_failing_endQuery ext)] in
  let s' := run s [issue ext 2%nat; issue ext 3%nat] in
  gpuTimerAvailable s' = false
  /\ List.map query (timerQueries s') = [1%nat]
  /\ deletedQueries s' = [].
Proof.
  intros ext s s'.
  destruct (@gpu_timing_stays_off ext s [issue ext 2%nat; issue ext 3%nat]
              eq_refl eq_refl) as (_ & Ha & Hq & Hd).
  split; [exact Ha|]. fold s' in Hq, Hd. rewrite Hq, Hd.
  split; reflexivity.
Defined.

(* ================================================================== *)
(** ** Retiring timer queries *)
(* ================================================================== *)

Section Drain.

Variable gl : GLHost.
Variable ext : GLExtension.
Variable avail : WebGLQuery -> bool.
Variable res : WebGLQuery -> num.

Hypothesis ext_polls : has_getQueryParameter ext = true.
Hypothesis gl_available : forall q, resultAvailable gl q = Ok (avail q).
Hypothesis gl_result : forall q, queryResult gl q = Ok (res q).
Hypothesis gl_delete : forall q, deleteQuery gl q = Ok tt.

(** The filter of [processGPUQueries] on a host that answers every call. *)
Lemma filterM_stillPending_drains qs : forall s,
  exists s1,
    filterM (stillPending gl ext) qs s
    = (Ok (filter (fun qd => negb (avail (query qd))) qs), s1)
    /\ timerQueries s1 = timerQueries s
    /\ deletedQueries s1
       = deletedQueries s
         ++ (if has_deleteQuery ext
             then List.map query (filter (fun qd => avail (query qd)) qs)
             else [])
    /\ metrics s1 gpuFrameTime
       = fold_left (fun v qd => if avail (query qd)
                                then res (query qd) / #1000000 else v)
           qs (metrics s gpuFrameTime)
    /\ (forall k, k <> gpuFrameTime -> metrics s1 k = metrics s k).
Proof.
  induction qs as [|qd rest IH]; intro s.
  - exists s. simpl.
    destruct (has_deleteQuery ext); rewrite app_nil_r;
      repeat split; reflexivity.
  - cbn [filterM filter fold_left]. unfold bind at 1.
    unfold stillPending at 1. rewrite ext_polls.
    unfold bind at 1, host at 1. rewrite gl_available.
    destruct (avail (query qd)) eqn:Ea; cbn [negb].
    + unfold bind at 1, host at 1. rewrite gl_result.
      unfold bind at 1, modify at 1.
      destruct (has_deleteQuery ext) eqn:Ed.
      * unfold bind at 1, ext_deleteQuery, bind at 1, host at 1.
        rewrite gl_delete. unfold modify at 1, ret at 1.
        match goal with
        | |- exists s1, bind _ _ ?s' = _ /\ _ =>
            destruct (IH s') as (s1 & E & Hq & Hd & Hm & Ho)
        end.
        exists s1. unfold bind at 1. rewrite E. unfold ret.
        split; [reflexivity|]. split; [exact Hq|].
        split; [|split].
        -- rewrite Hd. cbn [deletedQueries set_deletedQueries List.map].
           cbn. rewrite <- app_assoc. reflexivity.
        -- rewrite Hm. reflexivity.
        -- intros k Hk. rewrite (Ho k Hk).
           apply (@metrics_set_metric_other gpuFrameTime k), Hk.
      * unfold bind at 1, ret at 1, ret at 1.
        match goal with
        | |- exists s1, bind _ _ ?s' = _ /\ _ =>
            destruct (IH s') as (s1 & E & Hq & Hd & Hm & Ho)
        end.
        exists s1. unfold bind at 1. rewrite E. unfold ret.
        split; [reflexivity|]. split; [exact Hq|].
        split; [|split].
        -- rewrite Hd. reflexivity.
        -- rewrite Hm. reflexivity.
        -- intros k Hk. rewrite (Ho k Hk).
           apply metrics_set_metric_other, Hk.
    + unfold ret at 1.
      destruct (IH s) as (s1 & E & Hq & Hd & Hm & Ho).
      exists s1. unfold bind at 1. rewrite E. unfold ret.
      repeat split; assumption.
Qed.

End Drain.

Lemma estimatedGPUTime_depends_on_load s s' :
  (forall k, k <> gpuFrameTime -> metrics s' k = metrics s k) ->
  estimatedGPUTime s' = estimatedGPUTime s.
Proof.
  intro H. unfold estimatedGPUTime. rewrite !H by discriminate. reflexivity.
Qed.

(** X13. On a GL context that answers every poll, [processGPUQueries]
    keeps exactly the queries whose result is not ready, in their order,
    and deletes exactly the others, in their order, when the extension
    has [deleteQuery].  The GPU frame time becomes the result of the last
    query that was ready, in milliseconds; but when no query is left the
    estimator runs on top of it, so that a measurement that empties the
    queue is published only smoothed and clamped. *)
Theorem processGPUQueries_retires_ready_queries :
  forall (gl : GLHost) (ext : GLExtension)
         (avail : WebGLQuery -> bool) (res : WebGLQuery -> num) (s : Monitor),
    glExtension s = Some ext ->
    gpuTimerAvailable s = true ->
    has_getQueryParameter ext = true ->
    (forall q, resultAvailable gl q = Ok (avail q)) ->
    (forall q, queryResult gl q = Ok (res q)) ->
    (forall q, deleteQuery gl q = Ok tt) ->
    let s' := exec (processGPUQueries gl) s in
    let pending := filter (fun qd => negb (avail (query qd))) (timerQueries s) in
    let ready := filter (fun qd => avail (query qd)) (timerQueries s) in
    let measured :=
      fold_left (fun v qd => if avail (query qd)
                             then res (query qd) / #1000000 else v)
        (timerQueries s) (metrics s gpuFrameTime) in
    timerQueries s' = pending
    /\ deletedQueries s'
       = deletedQueries s
         ++ (if has_deleteQuery ext then List.map query ready else [])
    /\ metrics s' gpuFrameTime
       = match pending with
         | [] => max #0.5 (min (measured * (#1 - lit 0.3)
                                + estimatedGPUTime s * lit 0.3)
                               (metrics s frameTime * lit 0.8))
         | _ :: _ => measured
         end.
Proof.
  intros gl ext avail res s He Ha Hp Hav Hres Hdel s' pending ready measured.
  destruct (@filterM_stillPending_drains gl ext avail res Hp Hav Hres Hdel
              (timerQueries s) s) as (s1 & E & Hq & Hd & Hm & Ho).
  fold pending in E. fold ready in Hd. fold measured in Hm.
  assert (Es : processGPUQueries gl s
               = (Ok tt, match pending with
                         | [] => estimateGPUTime (set_timerQueries pending s1)
                         | _ :: _ => set_timerQueries pending s1
                         end)).
  { unfold processGPUQueries, try_catch, bind, gets. rewrite He, Ha, E.
    unfold modify. destruct pending; reflexivity. }
  subst s'. unfold exec. rewrite Es. cbn [snd].
  destruct pending as [|qd rest].
  - split; [|split].
    + unfold estimateGPUTime.
      match goal with |- context [if ?b then _ else _] => destruct b end;
        reflexivity.
    + rewrite <- Hd. unfold estimateGPUTime.
      match goal with |- context [if ?b then _ else _] => destruct b end;
        reflexivity.
    + rewrite estimateGPUTime_published.
      rewrite (@estimatedGPUTime_depends_on_load s (set_timerQueries [] s1))
        by exact Ho.
      change (metrics (set_timerQueries [] s1)) with (metrics s1).
      rewrite Hm, (Ho frameTime) by discriminate. reflexivity.
  - split; [reflexivity|]. split; [exact Hd | exact Hm].
Qed.

Lemma processGPUQueries_retires_ready_queries_witness :
  let ext := timer_extension true in
  let s := run (construct a_browser)
             [issue ext 1%nat; issue ext 2%nat; issue ext 3%nat] in
  let s' := exec (processGPUQueries (gl_ready_below ext 3 #2000000)) s in
  List.map query (timerQueries s') = [3%nat]
  /\ deletedQueries s' = [1%nat; 2%nat]
  /\ same (metrics s' gpuFrameTime) #2.
Proof.
  intros ext s s'.
  destruct (@processGPUQueries_retires_ready_queries
              (gl_ready_below ext 3 #2000000) ext
              (fun q => (q <? 3)%nat) (fun _ => #2000000) s
              eq_refl eq_refl eq_refl
              (fun _ => eq_refl) (fun _ => eq_refl) (fun _ => eq_refl))
    as (Hq & Hd & Hm).
  fold s' in Hq, Hd, Hm. rewrite Hq, Hd, Hm.
  split; [reflexivity|]. split; [reflexivity|].
  vm_compute. reflexivity.
Defined.

(** X14. When a poll throws in the middle of [processGPUQueries], the queue
    is left as it was: a query that was retired and deleted before the
    throw is still in the queue afterwards, GPU timing stays on, and the
    estimator runs on top of the time that was measured. *)
Theorem processGPUQueries_keeps_deleted_query_on_throw :
  forall (gl : GLHost) (ext : GLExtension) (s : Monitor)
         (qd1 qd2 : QueryData) (rest : list QueryData) (elapsed : num),
    glExtension s = Some ext ->
    gpuTimerAvailable s = true ->
    has_getQueryParameter ext = true ->
    has_deleteQuery ext = true ->
    timerQueries s = qd1 :: qd2 :: rest ->
    resultAvailable gl (query qd1) = Ok true ->
    queryResult gl (query qd1) = Ok elapsed ->
    deleteQuery gl (query qd1) = Ok tt ->
    resultAvailable gl (query qd2) = Thrown ->
    let s' := exec (processGPUQueries gl) s in
    returns (processGPUQueries gl) s = true
    /\ timerQueries s' = qd1 :: qd2 :: rest
    /\ deletedQueries s' = deletedQueries s ++ [query qd1]
    /\ gpuTimerAvailable s' = true
    /\ metrics s' gpuFrameTime
       = max #0.5 (min (elapsed / #1000000 * (#1 - lit 0.3)
                        + estimatedGPUTime s * lit 0.3)
                       (metrics s frameTime * lit 0.8)).
Proof.
  intros gl ext s qd1 qd2 rest elapsed He Ha Hp Hd Hq A1 R1 D1 A2 s'.
  assert (Es : processGPUQueries gl s
               = (Ok tt,
                  estimateGPUTime
                    (set_deletedQueries (deletedQueries s ++ [query qd1])
                       (set_metric gpuFrameTime (elapsed / #1000000) s)))).
  { unfold processGPUQueries, try_catch. unfold bind at 1, gets at 1.
    unfold bind at 1, gets at 1. rewrite He, Ha.
    unfold bind at 1, gets at 1. rewrite Hq.
    unfold bind at 1. cbn [filterM].
    unfold bind at 1. unfold stillPending at 1. rewrite Hp, Hd.
    unfold bind at 1, host at 1. rewrite A1.
    unfold bind at 1, host at 1. rewrite R1.
    unfold bind at 1, modify at 1.
    unfold bind at 1, ext_deleteQuery, bind at 1, host at 1. rewrite D1.
    unfold modify at 1, ret at 1.
    unfold bind at 1. unfold stillPending at 1. rewrite Hp.
    unfold bind at 1, host at 1. rewrite A2.
    unfold modify. reflexivity. }
  subst s'. unfold exec, returns. rewrite Es. cbn [fst snd].
  split; [reflexivity|].
  assert (Hf : forall (A : Type) (f : Monitor -> A) (s0 : Monitor),
             (forall v s1, f (set_metric gpuFrameTime v s1) = f s1) ->
             f (estimateGPUTime s0) = f s0).
  { intros A f s0 Hset. unfold estimateGPUTime.
    match goal with |- context [if ?b then _ else _] => destruct b end;
      rewrite !Hset; reflexivity. }
  split; [rewrite (Hf _ timerQueries) by reflexivity; exact Hq|].
  split; [rewrite (Hf _ deletedQueries) by reflexivity; reflexivity|].
  split; [rewrite (Hf _ gpuTimerAvailable) by reflexivity; exact Ha|].
  rewrite estimateGPUTime_published.
  rewrite (@estimatedGPUTime_depends_on_load s).
  - reflexivity.
  - intros k Hk.
    change (metrics (set_deletedQueries ?d ?s0) k) with (metrics s0 k).
    apply (@metrics_set_metric_other gpuFrameTime k), Hk.
Qed.

Lemma processGPUQueries_keeps_deleted_query_on_throw_witness :
  let ext := timer_extension true in
  let s := run (construct a_browser) [issue ext 1%nat; issue ext 2%nat] in
  let s' := exec (processGPUQueries (gl_throwing_from ext 2 #2000000)) s in
  List.map query (timerQueries s') = [1%nat; 2%nat]
  /\ deletedQueries s' = [1%nat]
  /\ gpuTimerAvailable s' = true.
Proof.
  intros ext s s'.
  destruct (@processGPUQueries_keeps_deleted_query_on_throw
              (gl_throwing_from ext 2 #2000000) ext s
              {| query := 1%nat; startTime := #0 |}
              {| query := 2%nat; startTime := #0 |} [] #2000000
              eq_refl eq_refl eq_refl eq_refl eq_refl
              eq_refl eq_refl eq_refl eq_refl)
    as (_ & Hq & Hd & Ha & _).
  fold s' in Hq, Hd, Ha. rewrite Hq, Hd, Ha.
  split; [reflexivity|]. split; reflexivity.
Defined.

(* ================================================================== *)
(** ** Finding the timer extension *)
(* ================================================================== *)

(** X15. What [initializeGPUMonitoring] leaves.  GPU timing is on exactly
    when the context returned an extension that has [createQuery], the
    probe query was created and deleted without a throw, and the lookup of
    the debug information did not throw either.  The extension the context
    returned is kept even when timing is off, and a throw of
    [getExtension] leaves the field as it was. *)
Theorem initializeGPUMonitoring_outcome :
  forall (gl : GLHost) (s : Monitor),
    let s' := exec (initializeGPUMonitoring gl) s in
    (gpuTimerAvailable s' = true <->
     exists ext,
       getExtension gl = Ok (Some ext)
       /\ has_createQuery ext = true
       /\ (exists probe,
              testQuery gl = Ok probe
              /\ forall q, probe = Some q -> has_deleteQuery ext = true ->
                           deleteQuery gl q = Ok tt)
       /\ debugInfo gl = Ok tt)
    /\ glExtension s' = match getExtension gl with
                        | Ok found => found
                        | Thrown => glExtension s
                        end
    /\ timerQueries s' = timerQueries s.
Proof.
  intros gl s s'. subst s'.
  unfold initializeGPUMonitoring, exec, try_catch, bind, host, modify, call,
    ext_deleteQuery, ret, throw.
  repeat (match goal with
          | |- context [getExtension gl] =>
              destruct (getExtension gl) as [[ext|]|] eqn:Ee
          | |- context [if has_createQuery ?e then _ else _] =>
              destruct (has_createQuery e) eqn:Ec
          | |- context [testQuery gl] =>
              destruct (testQuery gl) as [[q|]|] eqn:Et
          | |- context [if has_deleteQuery ?e then _ else _] =>
              destruct (has_deleteQuery e) eqn:Ed
          | |- context [deleteQuery gl ?q] =>
              destruct (deleteQuery gl q) as [[]|] eqn:Eq
          | |- context [debugInfo gl] =>
              destruct (debugInfo gl) as [[]|] eqn:Eg
          end; cbn).
  all: split; [|split; reflexivity].
  all: split;
    [ intro H;
      first [ discriminate H
            | eexists; split; [reflexivity|]; split; [assumption|];
              split; [|reflexivity];
              eexists; split; [reflexivity|]; intros q' Hq' Hd'; congruence ]
    | intros (e & He & Hc & (p & Hp & Hdel) & Hg);
      try reflexivity; exfalso; try congruence;
      injection He as <-; injection Hp as <-;
      specialize (Hdel _ eq_refl Ed); congruence ].
Qed.
